(** * blaster.py: the BLAST batch script, embedded and verified

    The script `blaster.py` drives a local sequence-similarity search:
    it normalises the candidate gene files of a folder (`prepare`),
    runs the search tool once per candidate unless a result file is
    already there, parses the results and writes one file of loci per
    gene (`main`).

    The embedding is shallow.  The file system is a finite map from
    path strings to nodes, the program is written in a small state and
    exception monad over a world made of that file system and of the
    trace of what the script has done (directories made, files written,
    sub-processes started, log records, lines printed). *)

From Stdlib Require Import ZArith Lia Ascii.
From stdpp Require Import base strings list gmap pretty.

Open Scope string_scope.

(** ** Python's string methods, as the script uses them *)

Module Py.

(** [s.startswith(p)] *)
Fixpoint startswith (s p : string) {struct p} : bool :=
  match p with
  | EmptyString => true
  | String a p' =>
      match s with
      | EmptyString => false
      | String b s' => if Ascii.eqb a b then startswith s' p' else false
      end
  end.

(** [s.endswith(suf)]: some tail of [s] is [suf]. *)
Fixpoint endswith (s suf : string) : bool :=
  if String.eqb s suf then true
  else match s with
       | EmptyString => false
       | String _ s' => endswith s' suf
       end.

(** [s.split(sep)] for a one-character separator.  The result is never
    empty: a string without the separator splits into itself. *)
Fixpoint split (sep : ascii) (s : string) : list string :=
  match s with
  | EmptyString => [EmptyString]
  | String c s' =>
      if Ascii.eqb c sep then EmptyString :: split sep s'
      else match split sep s' with
           | h :: t => String c h :: t
           | [] => [String c EmptyString]
           end
  end.

(** [l[0]] on a list of strings; [split] never returns the empty list,
    where Python would raise [IndexError]. *)
Definition item0 (l : list string) : string :=
  match l with
  | h :: _ => h
  | [] => EmptyString
  end.

(** [sep.join(l)] *)
Fixpoint join (sep : string) (l : list string) : string :=
  match l with
  | [] => EmptyString
  | [x] => x
  | x :: rest => x +:+ sep +:+ join sep rest
  end.

(** ['%s' % x] where [x] may be [None]. *)
Definition fmt (x : option string) : string :=
  match x with
  | Some s => s
  | None => "None"
  end.

(** [x in l] for strings. *)
Definition mem (x : string) (l : list string) : bool :=
  existsb (String.eqb x) l.

(** The characters of a string contain [c]. *)
Fixpoint has_char (c : ascii) (s : string) : bool :=
  match s with
  | EmptyString => false
  | String a s' => if Ascii.eqb a c then true else has_char c s'
  end.

End Py.

(** ** [os.path] and the file system *)

(** The permission a regular file may lack for the user who runs the
    script: to be written, to be read, or both. *)
Inductive restriction : Type := ReadOnly | WriteOnly | NoAccess.

(** What a path names: a regular file with its content, which the user
    may read and write ([File]) or not ([Restricted]), or a directory. *)
Inductive node : Type :=
| File (content : string)
| Restricted (how : restriction) (content : string)
| Dir.

(** Paths are compared as they are written.  Permissions are those of
    regular files; a directory can always be listed and written to. *)
Abbreviation FS := (gmap string node).

Module Os.

(** [os.path.join(a, b)] of [posixpath]. *)
Definition path_join (a b : string) : string :=
  if Py.startswith b "/" then b
  else if (String.eqb a EmptyString || Py.endswith a "/")%bool then a +:+ b
  else a +:+ "/" +:+ b.


(** The directory part of a path: what precedes its last slash. *)
Fixpoint parent (p : string) : string :=
  match p with
  | EmptyString => EmptyString
  | String c p' =>
      if Py.has_char "/" p' then String c (parent p')
      else EmptyString
  end.

(** The directory a new entry is created in exists: the working
    directory (empty directory part) or a directory of the map. *)
Definition parent_ok (fs : FS) (p : string) : bool :=
  if String.eqb (parent p) EmptyString then true
  else match fs !! parent p with
       | Some Dir => true
       | _ => false
       end.

(** [os.path.isdir(p)] *)
Definition isdir (fs : FS) (p : string) : bool :=
  match fs !! p with
  | Some Dir => true
  | _ => false
  end.

(** [open(p)] / [open(p, 'r')]: the content, or [None] for [IOError]
    (nothing there, a directory, or a file that may not be read). *)
Definition open_r (fs : FS) (p : string) : option string :=
  match fs !! p with
  | Some (File c) => Some c
  | Some (Restricted ReadOnly c) => Some c
  | _ => None
  end.

(** [open(p, 'w')] succeeds unless [p] is a directory, a file that may
    not be written, or is to be created in a directory that does not
    exist. *)
Definition can_write (fs : FS) (p : string) : bool :=
  match fs !! p with
  | Some Dir => false
  | Some (File _) => true
  | Some (Restricted WriteOnly _) => true
  | Some (Restricted _ _) => false
  | None => parent_ok fs p
  end.

(** What is at a path once [content] has been written there through
    [open(p, 'w')]: the file keeps its permissions, a new file may be
    read and written. *)
Definition written (old : option node) (content : string) : node :=
  match old with
  | Some (Restricted WriteOnly _) => Restricted WriteOnly content
  | _ => File content
  end.

(** The content of the regular file at [p], whether or not it may be
    read. *)
Definition content (fs : FS) (p : string) : option string :=
  match fs !! p with
  | Some (File c) => Some c
  | Some (Restricted _ c) => Some c
  | _ => None
  end.

(** [os.mkdir(p)] succeeds when nothing is at [p] and the directory it
    is created in exists. *)
Definition can_mkdir (fs : FS) (p : string) : bool :=
  match fs !! p with
  | Some _ => false
  | None => parent_ok fs p
  end.

(** What follows prefix [pre] in [p], when [p] starts with it. *)
Fixpoint strip_prefix (pre p : string) {struct pre} : option string :=
  match pre with
  | EmptyString => Some p
  | String a pre' =>
      match p with
      | EmptyString => None
      | String b p' => if Ascii.eqb a b then strip_prefix pre' p' else None
      end
  end.

(** The name under which path [p] is listed in [folder], if it is an
    entry of that folder: [p = path_join folder name]. *)
Definition entry_name (folder p : string) : option string :=
  match strip_prefix (path_join folder EmptyString) p with
  | Some name =>
      if (String.eqb name EmptyString || Py.has_char "/" name)%bool
      then None else Some name
  | None => None
  end.

(** [os.listdir(folder)]: [None] stands for [OSError].  The order of
    the listing is the order of the map, as arbitrary as the one of
    the operating system. *)
Definition listdir (fs : FS) (folder : string) : option (list string) :=
  if isdir fs folder
  then Some (omap (fun kv => entry_name folder kv.1) (map_to_list fs))
  else None.

End Os.


(** ** The world the script runs in *)

Inductive level : Type := DEBUG | INFO | CRITICAL.

(** The [arguments] dictionary handed to [blast]: its four keys. *)
Record blast_arguments : Type := {
  query : string;
  db : option string;
  out : string;
  outfmt : Z
}.

(** What the script does to the outside, in the order it does it. *)
Inductive event : Type :=
| EMkdir (p : string)
| EWriteFasta (p content : string)
| ESubprocess (blast_type : string) (arguments : blast_arguments)
| EWriteFinal (p content : string)
| ELog (l : level) (msg : string)
| EPrint (line : string).

Inductive exn : Type :=
| IOError (p : string)
| OSError (p : string)
| ConversionError
| ExternalToolError
| ResultParseError.

Record world : Type := {
  fs : FS;
  trace : list event
}.

(** How a computation ends: with a value, by [sys.exit], or with an
    exception that nothing has caught. *)
Inductive result (A : Type) : Type :=
| Ok (a : A)
| Exit (code : Z)
| Raise (e : exn).

Arguments Ok {A} a.
Arguments Exit {A} code.
Arguments Raise {A} e.

Definition M (A : Type) : Type := world -> result A * world.

Definition ret {A} (a : A) : M A := fun w => (Ok a, w).

Definition bind {A B} (m : M A) (k : A -> M B) : M B :=
  fun w =>
    match m w with
    | (Ok a, w') => k a w'
    | (Exit c, w') => (Exit c, w')
    | (Raise e, w') => (Raise e, w')
    end.

Declare Scope blaster_scope.
Delimit Scope blaster_scope with blaster.
Notation "'do' x <- m 'in' k" := (bind m (fun x => k))
  (at level 10, x name, m at level 100, k at level 200) : blaster_scope.
Notation "m >> k" := (bind m (fun _ => k))
  (at level 100, k at level 200, right associativity) : blaster_scope.
Open Scope blaster_scope.

Definition emit (ev : event) : M unit :=
  fun w => (Ok tt, {| fs := fs w; trace := trace w ++ [ev] |}).

Definition raise {A} (e : exn) : M A := fun w => (Raise e, w).

(** [sys.exit(code)]; [sys.exit()] is [sys_exit 0]. *)
Definition sys_exit {A} (code : Z) : M A := fun w => (Exit code, w).

Definition get_fs : M FS := fun w => (Ok (fs w), w).

(** [logger.debug], [logger.info], [logger.critical] *)
Definition logger (l : level) (msg : string) : M unit := emit (ELog l msg).

(** The [print] statement. *)
Definition print (line : string) : M unit := emit (EPrint line).

(** [f = open(p, 'w'); f.write(content); f.close()] *)
Definition write_file (ev : string -> string -> event) (p content : string)
  : M unit :=
  fun w =>
    if Os.can_write (fs w) p
    then (Ok tt, {| fs := <[p := Os.written (fs w !! p) content]> (fs w);
                    trace := trace w ++ [ev p content] |})
    else (Raise (IOError p), w).

(** [os.mkdir(p)] *)
Definition os_mkdir (p : string) : M unit :=
  fun w =>
    if Os.can_mkdir (fs w) p
    then (Ok tt, {| fs := <[p := Dir]> (fs w);
                    trace := trace w ++ [EMkdir p] |})
    else (Raise (OSError p), w).

Definition nl : string := String (ascii_of_nat 10) EmptyString.
Definition tab : string := String (ascii_of_nat 9) EmptyString.
Definition dq : string := String (ascii_of_nat 34) EmptyString.

(** ** What [liblast] and the libraries provide *)

Module Liblast.

Record Locus : Type := {
  id : string;
  sequence : string
}.

Record Sequence : Type := {
  gene_name : string;
  filepath : string;
  database : option string;
  blast_output : option string;
  blast_type : option string;
  loci : list Locus
}.

End Liblast.

Abbreviation Locus := Liblast.Locus.
Abbreviation Sequence := Liblast.Sequence.

(** The functions the script imports.  [getopt] and [Bio.SeqIO] are
    libraries; [liblast] is the module of this program that holds
    [Sequence], [Locus] and [blast], and is taken here by its interface.

    - [getopt argv] is [getopt.getopt(argv, 'hc:d:b:', [...])], [None]
      when it raises [GetoptError];
    - [genbank_to_fasta c] is [SeqIO.read(f, 'genbank').format('fasta')]
      for a file of content [c], [None] when the content is not a single
      annotation record;
    - [gene_name_of filepath] is the [gene_name] that the constructor
      [Sequence(filepath=..., database=...)] derives;
    - [run_blast blast_type arguments] is [blast(blast_type, arguments)]:
      what the search tool leaves on the file system, and the exception
      it ends with, if any;
    - [parse_xml blast_type xml] is what [parse_blast] extracts from a
      result document, [None] when it raises. *)
Class Externals : Type := {
  getopt : list string -> option (list (string * string) * list string);
  genbank_to_fasta : string -> option string;
  gene_name_of : string -> string;
  run_blast : string -> blast_arguments -> FS -> FS * option exn;
  parse_xml : string -> string -> option (list Locus)
}.

(** ** The script *)

(** The three variables of [main] that the argument handler assigns. *)
Record settings : Type := {
  candidates_folder : string;
  database : option string;
  blast_type : option string
}.

(** Their values before the arguments are read (lines 75-80). *)
Definition defaults : settings :=
  {| candidates_folder := "candidates";
     database := None;
     blast_type := None |}.

(** The folder of the BLAST results (line 82): it is computed from the
    candidates folder before the arguments are read. *)
Definition candidates_results_folder : string :=
  Os.path_join (candidates_folder defaults) "results".

(** The folder of the final results (line 85). *)
Definition final_results_folder : string := "final_results".

Section Blaster.

Context {Ext : Externals}.

(** Modelled from the spec: the constructor of [liblast.Sequence],
    which is not among the sources.  The Gene Record is a plain data
    holder with a derived constructor: given a filepath and a database
    name it derives [gene_name]; the other attributes are assigned
    later by the script. *)
Definition new_Sequence (filepath : string) (database : option string)
  : Sequence :=
  {| Liblast.gene_name := gene_name_of filepath;
     Liblast.filepath := filepath;
     Liblast.database := database;
     Liblast.blast_output := None;
     Liblast.blast_type := None;
     Liblast.loci := [] |}.

(** [candidate.blast_output = p] *)
Definition set_blast_output (c : Sequence) (p : string) : Sequence :=
  {| Liblast.gene_name := Liblast.gene_name c;
     Liblast.filepath := Liblast.filepath c;
     Liblast.database := Liblast.database c;
     Liblast.blast_output := Some p;
     Liblast.blast_type := Liblast.blast_type c;
     Liblast.loci := Liblast.loci c |}.

(** [candidate.blast_type = t] *)
Definition set_blast_type (c : Sequence) (t : string) : Sequence :=
  {| Liblast.gene_name := Liblast.gene_name c;
     Liblast.filepath := Liblast.filepath c;
     Liblast.database := Liblast.database c;
     Liblast.blast_output := Liblast.blast_output c;
     Liblast.blast_type := Some t;
     Liblast.loci := Liblast.loci c |}.

Definition set_loci (c : Sequence) (l : list Locus) : Sequence :=
  {| Liblast.gene_name := Liblast.gene_name c;
     Liblast.filepath := Liblast.filepath c;
     Liblast.database := Liblast.database c;
     Liblast.blast_output := Liblast.blast_output c;
     Liblast.blast_type := Liblast.blast_type c;
     Liblast.loci := l |}.

(** Modelled from the spec: [candidate.parse_blast()], of [liblast].
    The Result Parser reads the structured result document of the
    candidate and stores the loci it extracts; a missing or corrupt
    result file makes it fail. *)
Definition parse_blast (c : Sequence) : M Sequence :=
  fun w =>
    match Liblast.blast_output c, Liblast.blast_type c with
    | Some p, Some t =>
        match Os.open_r (fs w) p with
        | Some xml =>
            match parse_xml t xml with
            | Some l => (Ok (set_loci c l), w)
            | None => (Raise ResultParseError, w)
            end
        | None => (Raise ResultParseError, w)
        end
    | _, _ => (Raise ResultParseError, w)
    end.

(** [blast(blast_type, arguments)]: one sub-process. *)
Definition blast (blast_type : string) (arguments : blast_arguments)
  : M unit :=
  fun w =>
    let called := (trace w ++ [ESubprocess blast_type arguments])%list in
    match run_blast blast_type arguments (fs w) with
    | (fs', None) => (Ok tt, {| fs := fs'; trace := called |})
    | (fs', Some e) => (Raise e, {| fs := fs'; trace := called |})
    end.

(** [SeqIO.read(gene_filepath, 'genbank')]; the record is kept as the
    text [record.format('fasta')] gives. *)
Definition SeqIO_read (gene_filepath : string) : M string :=
  fun w =>
    match Os.open_r (fs w) gene_filepath with
    | None => (Raise (IOError gene_filepath), w)
    | Some c =>
        match genbank_to_fasta c with
        | Some fasta => (Ok fasta, w)
        | None => (Raise ConversionError, w)
        end
    end.

(** [gene_filepath.split('.')[0] + '.fasta'] (lines 49 and 51) *)
Definition fasta_path (gene_filepath : string) : string :=
  Py.item0 (Py.split "." gene_filepath) +:+ ".fasta".

(** The body of the loop of [prepare] (lines 42-57). *)
Definition prepare_gene (candidates_folder gene : string) : M unit :=
  let gene_filepath := Os.path_join candidates_folder gene in
  if Py.endswith gene ".gb" then
    do record <- SeqIO_read gene_filepath in
    do files <- get_fs in
    match Os.open_r files (fasta_path gene_filepath) with
    | Some _ => ret tt
    | None => write_file EWriteFasta (fasta_path gene_filepath) record
    end
  else if Py.endswith gene ".fa" then ret tt
  else logger DEBUG ("File type not supported: " +:+ gene).

(** [prepare(candidates, candidates_folder)] (lines 39-57) *)
Fixpoint prepare (candidates : list string) (candidates_folder : string)
  : M unit :=
  match candidates with
  | [] => ret tt
  | gene :: rest =>
      prepare_gene candidates_folder gene >>
      prepare rest candidates_folder
  end.

(** [usage()] (lines 59-68) *)
Definition usage : M unit :=
  print EmptyString >>
  print "USAGE: ./blaster.py -d Membranipora.fasta -b tblastn" >>
  print ("  -c, --candidates " +:+ nl +:+ tab +:+
         "Folder with `.fasta` or `.gb` files of candidate genes. One gene per file.") >>
  print ("  -d, --database " +:+ nl +:+ tab +:+
         "Local database with new data (eg, transcriptome).") >>
  print ("  -r, --results " +:+ nl +:+ tab +:+
         "Folder where BLAST results will be written.") >>
  print ("  -b, --blast " +:+ nl +:+ tab +:+
         "BLAST command (blastn, blastp, blastx, tblastn, tblastx).") >>
  print EmptyString.

(** The argument handler (lines 102-111). *)
Fixpoint handle_opts (opts : list (string * string)) (s : settings)
  : M settings :=
  match opts with
  | [] => ret s
  | (opt, arg) :: rest =>
      if Py.mem opt ["-h"; "--help"] then
        usage >> sys_exit 0
      else if Py.mem opt ["-c"; "--candidates"] then
        handle_opts rest {| candidates_folder := arg;
                            database := database s;
                            blast_type := blast_type s |}
      else if Py.mem opt ["-d"; "--database"] then
        handle_opts rest {| candidates_folder := candidates_folder s;
                            database := Some arg;
                            blast_type := blast_type s |}
      else if Py.mem opt ["-b"; "--blast"] then
        handle_opts rest {| candidates_folder := candidates_folder s;
                            database := database s;
                            blast_type := Some arg |}
      else handle_opts rest s
  end.

(** Available BLASTs (line 73). *)
Definition blast_types : list string :=
  ["blastn"; "blastp"; "blastx"; "tblastn"; "tblastx"].

(** The check of the BLAST command (lines 117-125); it returns the
    command when it is one of [blast_types]. *)
Definition check_blast_type (blast_type : option string) : M string :=
  match blast_type with
  | None | Some EmptyString =>
      logger CRITICAL ("BLAST command was not specified (use " +:+ dq +:+
                       "-b" +:+ dq +:+ "). Aborting...") >>
      sys_exit 2
  | Some t =>
      if negb (Py.mem t blast_types) then
        logger CRITICAL ("Unknown BLAST command: " +:+ t) >>
        logger INFO ("Available BLAST commands: " +:+ Py.join ", " blast_types) >>
        sys_exit 2
      else ret t
  end.

(** The body of the main loop (lines 158-188), for one file of the
    candidates folder. *)
Definition blast_gene (blast_type : string) (database : option string)
    (candidates_folder candidates_results_folder genefile : string)
    (genes : gmap string Sequence) : M (gmap string Sequence) :=
  print EmptyString >>
  logger INFO ("BLASTing " +:+ genefile +:+ " against " +:+
               Py.fmt database +:+ "...") >>
  let gene_filepath := Os.path_join candidates_folder genefile in
  let candidate := new_Sequence gene_filepath database in
  let output_filepath :=
    Os.path_join candidates_results_folder
                 (Liblast.gene_name candidate +:+ ".xml") in
  let candidate := set_blast_output candidate output_filepath in
  do files <- get_fs in
  match Os.open_r files output_filepath with
  | Some _ => ret tt
  | None =>
      blast blast_type
            {| query := Liblast.filepath candidate;
               db := database;
               out := output_filepath;
               outfmt := 5 |}
  end >>
  logger INFO "Parsing XML..." >>
  let candidate := set_blast_type candidate blast_type in
  do candidate <- parse_blast candidate in
  ret (<[Liblast.gene_name candidate := candidate]> genes).

(** The main loop (lines 157-188). *)
Fixpoint blast_genes (blast_type : string) (database : option string)
    (candidates_folder candidates_results_folder : string)
    (candidates : list string) (genes : gmap string Sequence)
  : M (gmap string Sequence) :=
  match candidates with
  | [] => ret genes
  | genefile :: rest =>
      do genes <- blast_gene blast_type database candidates_folder
                    candidates_results_folder genefile genes in
      blast_genes blast_type database candidates_folder
                  candidates_results_folder rest genes
  end.

(** What lines 195-197 write for the loci of one gene. *)
Fixpoint loci_text (loci : list Locus) : string :=
  match loci with
  | [] => EmptyString
  | seq :: rest =>
      (">" +:+ Liblast.id seq +:+ nl) +:+
      (Liblast.sequence seq +:+ nl +:+ nl) +:+
      loci_text rest
  end.

(** The loop that creates the final files (lines 193-198), over the
    items of the dictionary, in whatever order [iteritems] gives them. *)
Fixpoint write_loci (final_results_folder : string)
    (items : list (string * Sequence)) : M unit :=
  match items with
  | [] => ret tt
  | (name, gene) :: rest =>
      write_file EWriteFinal
        (Os.path_join final_results_folder (name +:+ ".fa"))
        (loci_text (Liblast.loci gene)) >>
      write_loci final_results_folder rest
  end.

(** The first part of [main(argv)] (lines 87-150): the arguments are
    read and checked, the two result folders are made, the candidates
    folder is listed, normalised and listed again.  It hands the BLAST
    command, the settings and the candidate files to the main loop. *)
Definition setup (argv : list string)
  : M (string * settings * list string) :=
  match getopt argv with
  | None =>
      usage >>
      logger CRITICAL ("Argument error: " +:+ dq +:+ Py.join " " argv +:+
                       dq +:+ ". Aborting...") >>
      sys_exit 2
  | Some (opts, args) =>
      do s <- handle_opts opts defaults in
      logger DEBUG ("Arguments: candidates=" +:+ candidates_folder s +:+
                    ", database=" +:+ Py.fmt (database s) +:+
                    ", blast=" +:+ Py.fmt (blast_type s)) >>
      do blast_type <- check_blast_type (blast_type s) in
      do files <- get_fs in
      (if negb (Os.isdir files candidates_results_folder)
       then os_mkdir candidates_results_folder else ret tt) >>
      do files <- get_fs in
      (if negb (Os.isdir files final_results_folder)
       then os_mkdir final_results_folder else ret tt) >>
      do files <- get_fs in
      match Os.listdir files (candidates_folder s) with
      | None =>
          logger CRITICAL ("Folder " +:+ dq +:+ candidates_folder s +:+
                           dq +:+ " does not exist! Aborting...") >>
          sys_exit 2
      | Some candidates =>
          prepare candidates (candidates_folder s) >>
          do files <- get_fs in
          match Os.listdir files (candidates_folder s) with
          | None => raise (OSError (candidates_folder s))
          | Some candidates =>
              let candidates :=
                List.filter (fun file => Py.endswith file ".fa") candidates in
              logger INFO (pretty (length candidates) +:+
                           " genes to be BLASTed against " +:+
                           Py.fmt (database s) +:+ " database!") >>
              ret (blast_type, s, candidates)
          end
      end
  end.

(** The second part of [main(argv)] (lines 153-200): the main loop
    fills the dictionary [genes], then the final files are written. *)
Definition batch (blast_type : string) (s : settings)
    (candidates : list string) : M unit :=
  do genes <- blast_genes blast_type (database s) (candidates_folder s)
                candidates_results_folder candidates ∅ in
  logger INFO ("Creating files at " +:+ final_results_folder +:+ "...") >>
  write_loci final_results_folder (map_to_list genes) >>
  logger INFO "Done, bye!".

(** [main(argv)] (lines 70-200) *)
Definition main (argv : list string) : M unit :=
  do found <- setup argv in
  batch found.1.1 found.1.2 found.2.

End Blaster.

(** ** Stand-ins for the imported functions, to run the script *)

Module Mock.

(** [getopt.getopt] for the option table of the script, on argument
    lists that give every option as a word of its own, followed by its
    value where it takes one. *)
Fixpoint getopt_words (args : list string)
  : option (list (string * string) * list string) :=
  match args with
  | [] => Some ([], [])
  | a :: rest =>
      if Py.mem a ["-h"; "--help"] then
        match getopt_words rest with
        | Some (opts, words) => Some ((a, EmptyString) :: opts, words)
        | None => None
        end
      else if Py.mem a ["-c"; "--candidates"; "-d"; "--database";
                        "-b"; "--blast"] then
        match rest with
        | [] => None
        | v :: rest' =>
            match getopt_words rest' with
            | Some (opts, words) => Some ((a, v) :: opts, words)
            | None => None
            end
        end
      else if String.eqb a "--" then Some ([], rest)
      else if (Py.startswith a "-" && negb (String.eqb a "-"))%bool then None
      else Some ([], args)
  end.

(** A record is accepted when the file starts with its [LOCUS] line. *)
Definition locus_to_fasta (c : string) : option string :=
  if Py.startswith c "LOCUS" then Some (">record" +:+ nl +:+ c +:+ nl)
  else None.

(** The last component of a path. *)
Fixpoint basename (p : string) : string :=
  match p with
  | EmptyString => EmptyString
  | String c p' => if Py.has_char "/" p then basename p' else p
  end.

(** A file name without its last dot and what follows it. *)
Fixpoint strip_extension (s : string) : string :=
  match s with
  | EmptyString => EmptyString
  | String c s' =>
      if Py.has_char "." s' then String c (strip_extension s')
      else if Ascii.eqb c "." then EmptyString
      else s
  end.

(** Modelled from the spec: the [gene_name] of a Gene Record is the
    file name of its filepath without its extension. *)
Definition file_stem (filepath : string) : string :=
  strip_extension (basename filepath).

(** Modelled from the spec: the search tool exits with status zero and
    leaves a document at [out]; it fails when it cannot write there. *)
Definition write_hits (blast_type : string) (arguments : blast_arguments)
    (files : FS) : FS * option exn :=
  if Os.can_write files (out arguments)
  then (<[out arguments :=
            Os.written (files !! out arguments)
                       ("<hits of " +:+ query arguments +:+ ">")]>
          files, None)
  else (files, Some ExternalToolError).

(** One locus for a document that is not empty; an empty document is
    corrupt. *)
Definition one_hit (blast_type xml : string) : option (list Locus) :=
  match xml with
  | EmptyString => None
  | _ => Some [ {| Liblast.id := "hit1"; Liblast.sequence := "ACGT" |} ]
  end.

(** The stand-ins together, for a given derivation of the gene name. *)
Definition externals_named (name_of : string -> string) : Externals :=
  {| getopt := getopt_words;
     genbank_to_fasta := locus_to_fasta;
     gene_name_of := name_of;
     run_blast := write_hits;
     parse_xml := one_hit |}.

Definition externals : Externals := externals_named file_stem.

(** A second reading of the file name without its extension: the name
    up to its first dot, as [prepare] cuts it. *)
Definition short_stem (filepath : string) : string :=
  Py.item0 (Py.split "." (basename filepath)).

End Mock.


(** ** What the properties are stated with *)

(** The file may be written but not read: [open(p, 'r')] fails on it
    and [open(p, 'w')] replaces its content. *)
Definition write_only (n : node) : bool :=
  match n with
  | Restricted WriteOnly _ => true
  | _ => false
  end.

(** The substring of [s] before its first dot; all of [s] when it has
    none. *)
Fixpoint before_first_dot (s : string) : string :=
  match s with
  | EmptyString => EmptyString
  | String c s' =>
      if Ascii.eqb c "." then EmptyString
      else String c (before_first_dot s')
  end.

(** Every event that computation [m] adds to the trace satisfies [P],
    however [m] ends. *)
Definition emits {A} (P : event -> Prop) (m : M A) : Prop :=
  forall w r w', m w = (r, w') ->
    exists evs, trace w' = (trace w ++ evs)%list /\ Forall P evs.

(** An event is a directory made or a file written by the script. *)
Definition is_write (ev : event) : bool :=
  match ev with
  | EMkdir _ | EWriteFasta _ _ | EWriteFinal _ _ => true
  | _ => false
  end.

Definition is_subprocess (ev : event) : bool :=
  match ev with
  | ESubprocess _ _ => true
  | _ => false
  end.

(** The options [getopt] reads from [argv]; none when it fails. *)
Definition parsed_opts {Ext : Externals} (argv : list string)
  : list (string * string) :=
  match getopt argv with
  | Some (opts, _) => opts
  | None => []
  end.

(** The path of the final file of the gene called [name] (line 194). *)
Definition final_path (name : string) : string :=
  Os.path_join final_results_folder (name +:+ ".fa").

Section Batch_notions.

Context {Ext : Externals}.

(** The [gene_name] derived for file [genefile] of [folder]. *)
Definition name_in (folder genefile : string) : string :=
  gene_name_of (Os.path_join folder genefile).

(** The path of the result document of [genefile] (line 166). *)
Definition output_filepath (folder results genefile : string) : string :=
  Os.path_join results (name_in folder genefile +:+ ".xml").

(** The [arguments] of the search of [genefile] (lines 174-179). *)
Definition search_arguments (db : option string)
    (folder results genefile : string) : blast_arguments :=
  {| query := Os.path_join folder genefile;
     db := db;
     out := output_filepath folder results genefile;
     outfmt := 5 |}.

(** The candidate of [genefile] when it is parsed (line 185). *)
Definition candidate_of (t : string) (db : option string)
    (folder results genefile : string) : Sequence :=
  set_blast_type
    (set_blast_output (new_Sequence (Os.path_join folder genefile) db)
                      (output_filepath folder results genefile)) t.

(** The last file of [candidates] whose gene is called [name]. *)
Fixpoint last_named (name folder : string) (candidates : list string)
  : option string :=
  match candidates with
  | [] => None
  | f :: rest =>
      match last_named name folder rest with
      | Some g => Some g
      | None =>
          if String.eqb (name_in folder f) name then Some f else None
      end
  end.

(** The events of the main loop over [candidates]: lines printed and
    logged, and searches of files of [candidates] with the arguments
    of lines 174-179. *)
Definition loop_event (t : string) (db : option string)
    (folder results : string) (candidates : list string) (ev : event)
  : Prop :=
  match ev with
  | ESubprocess t' a =>
      t' = t /\
      exists f, In f candidates /\ a = search_arguments db folder results f
  | ELog _ _ | EPrint _ => True
  | EMkdir _ | EWriteFasta _ _ | EWriteFinal _ _ => False
  end.

(** The events of the second part of [main]: those of the loop, and
    final files named after files of [candidates]. *)
Definition batch_event (t : string) (s : settings)
    (candidates : list string) (ev : event) : Prop :=
  match ev with
  | ESubprocess t' a =>
      t' = t /\
      exists f, In f candidates /\
        a = search_arguments (database s) (candidates_folder s)
              candidates_results_folder f
  | EWriteFinal p _ =>
      exists f, In f candidates /\
        p = final_path (name_in (candidates_folder s) f)
  | ELog _ _ | EPrint _ => True
  | EMkdir _ | EWriteFasta _ _ => False
  end.

End Batch_notions.

(** What the body of the main loop prints and logs before it looks for
    the result document (lines 158-159), and the record of line 183. *)
Definition announced (db : option string) (genefile : string) : list event :=
  [EPrint EmptyString;
   ELog INFO ("BLASTing " +:+ genefile +:+ " against " +:+ Py.fmt db +:+ "...")].

Definition parsing : event := ELog INFO "Parsing XML...".

(** The help option is among the options. *)
Definition help_requested (opts : list (string * string)) : bool :=
  existsb (fun oa => Py.mem oa.1 ["-h"; "--help"]) opts.

(** The search mode the options select: the value of the last [-b] or
    [--blast], if there is one. *)
Definition selected_mode (opts : list (string * string)) : option string :=
  fold_left (fun m oa => if Py.mem oa.1 ["-b"; "--blast"] then Some oa.2 else m)
            opts None.

(** The search mode is given and is one of the five. *)
Definition mode_accepted (m : option string) : bool :=
  match m with
  | Some t => Py.mem t blast_types
  | None => false
  end.

Definition is_critical (ev : event) : bool :=
  match ev with
  | ELog CRITICAL _ => true
  | _ => false
  end.

(** Modelled from the spec: the reader of a final file, which the
    sources do not have; the spec reads the file again in its round-trip
    property and describes the plain-sequence format.  A record pairs an
    identifier line with a sequence body: the line that starts with [>]
    carries the identifier, the line after it is the body, and the blank
    lines that separate records are skipped. *)
Fixpoint read_records (lines : list string) : list (string * string) :=
  match lines with
  | [] => []
  | EmptyString :: rest => read_records rest
  | String c id :: rest =>
      if Ascii.eqb c ">" then
        match rest with
        | body :: rest' => (id, body) :: read_records rest'
        | [] => [(id, EmptyString)]
        end
      else read_records rest
  end.

Definition read_fasta (content : string) : list (string * string) :=
  read_records (Py.split (ascii_of_nat 10) content).

(** The string is one line: it has no line break. *)
Definition single_line (s : string) : Prop :=
  Py.has_char (ascii_of_nat 10) s = false.

(** The identifier and the sequence of a locus are one line each. *)
Definition well_formed_locus (l : Locus) : Prop :=
  single_line (Liblast.id l) /\ single_line (Liblast.sequence l).

(** The write of the final file of one item of the dictionary. *)
Definition final_write (item : string * Sequence) : event :=
  EWriteFinal (final_path item.1) (loci_text (Liblast.loci item.2)).

(** ** Runs of the script on small file systems *)

Definition start (files : FS) : world := {| fs := files; trace := [] |}.

Module Scenario.

Definition argv : list string :=
  ["-b"; "blastn"; "-d"; "transcriptome.fasta"].

(** A candidates folder with a plain-sequence file, an annotation file
    and a file of another kind. *)
Definition mixed_folder : FS :=
  list_to_map [("candidates", Dir);
               ("candidates/geneA.fa", File ">geneA");
               ("candidates/b.gb", File "LOCUS b");
               ("candidates/notes.txt", File "hello")].

Definition argv_custom : list string :=
  ["-c"; "mygenes"; "-b"; "blastn"; "-d"; "db"].

(** The candidates are in [mygenes], with a result document for
    [geneA] in [mygenes/results]. *)
Definition custom_folder : FS :=
  list_to_map [("candidates", Dir);
               ("mygenes", Dir);
               ("mygenes/results", Dir);
               ("mygenes/geneA.fa", File ">geneA");
               ("mygenes/results/geneA.xml", File "<cached>")].

(** Three candidates with their result documents; the document of
    [a.fa] is empty. *)
Definition corrupt_result : FS :=
  list_to_map [("candidates", Dir);
               ("candidates/results", Dir);
               ("final_results", Dir);
               ("candidates/a.fa", File ">a");
               ("candidates/m.fa", File ">m");
               ("candidates/z.fa", File ">z");
               ("candidates/results/a.xml", File EmptyString);
               ("candidates/results/m.xml", File "<hits of m>");
               ("candidates/results/z.xml", File "<hits of z>")].

(** Two annotation files that agree up to their first dot. *)
Definition two_versions : FS :=
  list_to_map [("candidates", Dir);
               ("candidates/gene.v1.gb", File "LOCUS v1");
               ("candidates/gene.v2.gb", File "LOCUS v2")].

(** The folders of a run, before any result. *)
Definition empty_folders : FS :=
  list_to_map [("candidates", Dir);
               ("candidates/results", Dir);
               ("final_results", Dir)].

(** The record of a gene with one locus. *)
Definition geneA : Sequence :=
  {| Liblast.gene_name := "geneA";
     Liblast.filepath := "candidates/geneA.fa";
     Liblast.database := Some "transcriptome.fasta";
     Liblast.blast_output := Some "candidates/results/geneA.xml";
     Liblast.blast_type := Some "blastn";
     Liblast.loci := [ {| Liblast.id := "hit1"; Liblast.sequence := "ACGT" |} ] |}.

(** The settings that [argv] gives. *)
Definition settings_of_argv : settings :=
  {| candidates_folder := "candidates";
     database := Some "transcriptome.fasta";
     blast_type := Some "blastn" |}.

(** The worlds in which the set-up and the whole run of [argv] end. *)
Definition after_setup (files : FS) : world :=
  (@setup Mock.externals argv (start files)).2.

Definition after_main (files : FS) : world :=
  (@main Mock.externals argv (start files)).2.

(** The world after [prepare] has seen file [gene] of [candidates]. *)
Definition prepared (files : FS) (gene : string) : world :=
  (@prepare_gene Mock.externals "candidates" gene (start files)).2.

(** The main loop over three files, two of which are versions of one
    gene, with gene names cut at the first dot. *)
Definition versions : list string := ["a.v1.fa"; "b.fa"; "a.v2.fa"].

Definition versions_run : result (gmap string Sequence) * world :=
  @blast_genes (Mock.externals_named Mock.short_stem) "blastn" None
    "candidates" "candidates/results" versions ∅ (start empty_folders).

Definition versions_genes : gmap string Sequence :=
  match versions_run.1 with
  | Ok genes => genes
  | _ => ∅
  end.

(** The main loop of the run of [argv] on [files], cut after the files
    [processed], and the body of the loop for the next file [c]. *)
Definition loop_run (files : FS) (processed : list string)
  : result (gmap string Sequence) * world :=
  @blast_genes Mock.externals "blastn" (database settings_of_argv)
    "candidates" candidates_results_folder processed ∅ (after_setup files).

Definition loop_genes (files : FS) (processed : list string)
  : gmap string Sequence :=
  match (loop_run files processed).1 with
  | Ok genes => genes
  | _ => ∅
  end.

Definition body_run (files : FS) (processed : list string) (c : string)
  : result (gmap string Sequence) * world :=
  @blast_gene Mock.externals "blastn" (database settings_of_argv)
    "candidates" candidates_results_folder c (loop_genes files processed)
    (loop_run files processed).2.

(** An annotation file next to a conversion that may be written but
    not read. *)
Definition unreadable_conversion : FS :=
  list_to_map [("candidates", Dir);
               ("candidates/b.gb", File "LOCUS b");
               ("candidates/b.fasta", Restricted WriteOnly ">old")].

(** A locus whose sequence has line breaks, and the two loci that are
    written as the same text. *)
Definition two_in_one : Locus :=
  {| Liblast.id := "hit1";
     Liblast.sequence := "AC" +:+ nl +:+ nl +:+ ">hit2" +:+ nl +:+ "GT" |}.

Definition two_loci : list Locus :=
  [ {| Liblast.id := "hit1"; Liblast.sequence := "AC" |};
    {| Liblast.id := "hit2"; Liblast.sequence := "GT" |} ].

(** The stand-ins, with result documents that hold the locus
    [two_in_one]. *)
Definition externals_two_in_one : Externals :=
  {| getopt := Mock.getopt_words;
     genbank_to_fasta := Mock.locus_to_fasta;
     gene_name_of := Mock.file_stem;
     run_blast := Mock.write_hits;
     parse_xml := fun _ _ => Some [two_in_one] |}.

(** The dictionary after the main loop of the run of [argv] on
    [mixed_folder] with these stand-ins. *)
Definition genes_two_in_one : gmap string Sequence :=
  match (@blast_genes externals_two_in_one "blastn"
           (database settings_of_argv) "candidates" candidates_results_folder
           ["geneA.fa"] ∅
           (@setup externals_two_in_one argv (start mixed_folder)).2).1 with
  | Ok genes => genes
  | _ => ∅
  end.

End Scenario.

(** ** What the further properties are stated with *)

(** What [usage()] prints, line by line. *)
Definition usage_lines : list event :=
  [EPrint EmptyString;
   EPrint "USAGE: ./blaster.py -d Membranipora.fasta -b tblastn";
   EPrint ("  -c, --candidates " +:+ nl +:+ tab +:+
           "Folder with `.fasta` or `.gb` files of candidate genes. One gene per file.");
   EPrint ("  -d, --database " +:+ nl +:+ tab +:+
           "Local database with new data (eg, transcriptome).");
   EPrint ("  -r, --results " +:+ nl +:+ tab +:+
           "Folder where BLAST results will be written.");
   EPrint ("  -b, --blast " +:+ nl +:+ tab +:+
           "BLAST command (blastn, blastp, blastx, tblastn, tblastx).");
   EPrint EmptyString].

(** The value of the last option of [opts] that is named in [names];
    [d] when there is none. *)
Definition last_value {A} (inj : string -> A) (names : list string)
    (opts : list (string * string)) (d : A) : A :=
  fold_left (fun v oa => if Py.mem oa.1 names then inj oa.2 else v) opts d.

(** The settings after the options [opts], starting from [s]: for each
    variable the last value given counts. *)
Definition read_settings (opts : list (string * string)) (s : settings)
  : settings :=
  {| candidates_folder :=
       last_value (fun v => v) ["-c"; "--candidates"] opts (candidates_folder s);
     database :=
       last_value Some ["-d"; "--database"] opts (database s);
     blast_type :=
       last_value Some ["-b"; "--blast"] opts (blast_type s) |}.

(** The record of line 114. *)
Definition arguments_record (s : settings) : event :=
  ELog DEBUG ("Arguments: candidates=" +:+ candidates_folder s +:+
              ", database=" +:+ Py.fmt (database s) +:+
              ", blast=" +:+ Py.fmt (blast_type s)).

(** The records of lines 97-98 and of line 138. *)
Definition argument_error_record (argv : list string) : event :=
  ELog CRITICAL ("Argument error: " +:+ dq +:+ Py.join " " argv +:+
                 dq +:+ ". Aborting...").

Definition missing_folder_record (folder : string) : event :=
  ELog CRITICAL ("Folder " +:+ dq +:+ folder +:+ dq +:+
                 " does not exist! Aborting...").

(** A folder is there or can be made: the outcome of lines 128-129 and
    131-132 that lets the run go on, and the file system they leave. *)
Definition folder_ready (files : FS) (p : string) : bool :=
  (Os.isdir files p || Os.can_mkdir files p)%bool.

Definition ensure_dir (files : FS) (p : string) : FS :=
  if Os.isdir files p then files else <[p := Dir]> files.

Definition ensure_events (files : FS) (p : string) : list event :=
  if Os.isdir files p then [] else [EMkdir p].

(** The file system after both folders of the results are seen to. *)
Definition with_result_folders (files : FS) : FS :=
  ensure_dir (ensure_dir files candidates_results_folder) final_results_folder.

(** [n'] stands where [n] stood: it is [n], or both are files that may
    be written but not read, whatever they hold. *)
Definition kept (n n' : node) : Prop :=
  if write_only n then write_only n' = true else n' = n.

(** [files'] has every entry of [files]: unchanged, unless it is a file
    that may be written but not read. *)
Definition kept_fs (files files' : FS) : Prop :=
  forall q n, files !! q = Some n ->
    exists n', files' !! q = Some n' /\ kept n n'.

(** The computation returns the file system with every entry it
    found. *)
Definition keeps {A} (m : M A) : Prop :=
  forall w r w', m w = (r, w') -> kept_fs (fs w) (fs w').

(** The name ends neither in [.gb] nor in [.fa]. *)
Definition unsupported (gene : string) : bool :=
  (negb (Py.endswith gene ".gb") && negb (Py.endswith gene ".fa"))%bool.

Definition unsupported_record (gene : string) : event :=
  ELog DEBUG ("File type not supported: " +:+ gene).

(** The sub-processes among some events. *)
Definition searches (evs : list event) : list event :=
  List.filter is_subprocess evs.

(** The sub-processes whose query is the file at path [q]. *)
Definition searches_of (q : string) (evs : list event) : list event :=
  List.filter (fun ev => match ev with
                         | ESubprocess _ a => String.eqb (query a) q
                         | _ => false
                         end) evs.

(** The candidates of [folder] whose file is at path [q]. *)
Definition candidates_at (q folder : string) (candidates : list string)
  : list string :=
  List.filter (fun f => String.eqb (Os.path_join folder f) q) candidates.

(** The events of the first part of [main]: no search and no final
    file. *)
Definition setup_event (ev : event) : Prop :=
  match ev with
  | ESubprocess _ _ | EWriteFinal _ _ => False
  | _ => True
  end.

Section Setup_parts.

Context {Ext : Externals}.

(** The end of the set-up (lines 134-150), for the command [t] and the
    settings [s] that the arguments gave. *)
Definition list_candidates (t : string) (s : settings)
  : M (string * settings * list string) :=
  do files <- get_fs in
  match Os.listdir files (candidates_folder s) with
  | None =>
      logger CRITICAL ("Folder " +:+ dq +:+ candidates_folder s +:+
                       dq +:+ " does not exist! Aborting...") >>
      sys_exit 2
  | Some candidates =>
      prepare candidates (candidates_folder s) >>
      do files <- get_fs in
      match Os.listdir files (candidates_folder s) with
      | None => raise (OSError (candidates_folder s))
      | Some candidates =>
          let candidates :=
            List.filter (fun file => Py.endswith file ".fa") candidates in
          logger INFO (pretty (length candidates) +:+
                       " genes to be BLASTed against " +:+
                       Py.fmt (database s) +:+ " database!") >>
          ret (t, s, candidates)
      end
  end.

(** The set-up from the making of the folders on (lines 127-150). *)
Definition make_folders (t : string) (s : settings)
  : M (string * settings * list string) :=
  do files <- get_fs in
  (if negb (Os.isdir files candidates_results_folder)
   then os_mkdir candidates_results_folder else ret tt) >>
  do files <- get_fs in
  (if negb (Os.isdir files final_results_folder)
   then os_mkdir final_results_folder else ret tt) >>
  list_candidates t s.

End Setup_parts.

(** ** More runs on small file systems *)

Module Runs.

(** Options with a BLAST command given twice. *)
Definition repeated_opts : list (string * string) :=
  [("-b", "blastn"); ("--blast", "tblastx"); ("-d", "db")].

(** Arguments with the help option in the middle. *)
Definition argv_help : list string := ["-b"; "blastq"; "-h"; "-c"; "x"].

Definition opts_help : list (string * string) :=
  [("-b", "blastq"); ("-h", EmptyString); ("-c", "x")].

(** Arguments that name a candidates folder that is not there. *)
Definition argv_nowhere : list string := ["-c"; "nowhere"; "-b"; "blastn"].

Definition opts_nowhere : list (string * string) :=
  [("-c", "nowhere"); ("-b", "blastn")].

Definition opts_of_argv : list (string * string) :=
  [("-b", "blastn"); ("-d", "transcriptome.fasta")].

(** A file stands where the folder of the final results should be. *)
Definition final_is_file : FS :=
  list_to_map [("candidates", Dir);
               ("final_results", File "notes")].

(** An annotation file that is not a record, with a conversion that is
    already there, and a good one after it. *)
Definition bad_annotation : FS :=
  list_to_map [("candidates", Dir);
               ("candidates/bad.gb", File "garbage");
               ("candidates/bad.fasta", File ">old");
               ("candidates/next.gb", File "LOCUS n")].

(** The listing of [Scenario.mixed_folder], and the world after
    [prepare] has run on it. *)
Definition mixed_listing : list string :=
  ["b.gb"; "notes.txt"; "geneA.fa"].

Definition prepared_all : world :=
  (@prepare Mock.externals mixed_listing "candidates"
     (start Scenario.mixed_folder)).2.

(** Two candidates with result documents that parse. *)
Definition all_cached : FS :=
  list_to_map [("candidates", Dir);
               ("candidates/results", Dir);
               ("candidates/a.fa", File ">a");
               ("candidates/m.fa", File ">m");
               ("candidates/results/a.xml", File "<hits of a>");
               ("candidates/results/m.xml", File "<hits of m>")].

(** The body of the loop for the first of two versions of a gene, with
    gene names cut at the first dot. *)
Definition first_version
  : result (gmap string Sequence) * world :=
  @blast_gene (Mock.externals_named Mock.short_stem) "blastn" None
    "candidates" "candidates/results" "a.v1.fa" ∅
    (start Scenario.empty_folders).

Definition first_version_genes : gmap string Sequence :=
  match first_version.1 with
  | Ok genes => genes
  | _ => ∅
  end.

(** The record under the name [a] after the loop over the versions. *)
Definition record_a : Sequence :=
  set_loci (@candidate_of (Mock.externals_named Mock.short_stem)
              "blastn" None "candidates" "candidates/results" "a.v2.fa")
           [ {| Liblast.id := "hit1"; Liblast.sequence := "ACGT" |} ].

(** A directory stands at the path of the final file of [blocked]. *)
Definition blocked_final : FS :=
  list_to_map [("final_results", Dir);
               ("final_results/blocked.fa", Dir)].

End Runs.

(** * Properties *)

(** ** Strings and paths *)

Lemma eqb_refl_true (s : string) : String.eqb s s = true.
Proof. apply String.eqb_eq. reflexivity. Qed.

Lemma append_cons (x : ascii) (a b : string) :
  String x a +:+ b = String x (a +:+ b).
Proof. reflexivity. Qed.

Lemma append_nil_l (b : string) : EmptyString +:+ b = b.
Proof. reflexivity. Qed.

Ltac string_ind a x IH :=
  induction a as [|x a IH]; rewrite ?append_cons, ?append_nil_l; simpl.

Lemma append_assoc (a b c : string) : (a +:+ b) +:+ c = a +:+ b +:+ c.
Proof. string_ind a x IH; [reflexivity | now f_equal]. Qed.

Lemma append_nil_r (a : string) : a +:+ EmptyString = a.
Proof. string_ind a x IH; [reflexivity | now f_equal]. Qed.

Lemma length_append (a b : string) :
  String.length (a +:+ b) = String.length a + String.length b.
Proof. string_ind a x IH; [reflexivity | now f_equal]. Qed.

Lemma has_char_append (c : ascii) (a b : string) :
  Py.has_char c (a +:+ b) = (Py.has_char c a || Py.has_char c b)%bool.
Proof.
  string_ind a x IH; [reflexivity |].
  destruct (Ascii.eqb x c); [reflexivity | exact IH].
Qed.

Lemma endswith_unfold (s suf : string) :
  Py.endswith s suf =
  if String.eqb s suf then true
  else match s with
       | EmptyString => false
       | String _ s' => Py.endswith s' suf
       end.
Proof. destruct s; reflexivity. Qed.

Ltac case_eqb H :=
  match goal with
  | |- context [String.eqb ?a ?b] => destruct (String.eqb_spec a b) as [H|H]
  end.

Lemma endswith_length (s suf : string) :
  Py.endswith s suf = true -> String.length suf <= String.length s.
Proof.
  induction s as [|x s IH]; rewrite endswith_unfold; case_eqb E;
    subst; simpl; try lia; try discriminate.
  intros H. apply IH in H. lia.
Qed.

Lemma endswith_refl (s : string) : Py.endswith s s = true.
Proof. rewrite endswith_unfold. now rewrite eqb_refl_true. Qed.

Lemma endswith_append (p suf : string) : Py.endswith (p +:+ suf) suf = true.
Proof.
  induction p as [|x p IH]; rewrite ?append_cons, ?append_nil_l.
  - apply endswith_refl.
  - rewrite endswith_unfold. destruct (String.eqb _ suf); [reflexivity | exact IH].
Qed.

Lemma endswith_inv (s suf : string) :
  Py.endswith s suf = true -> exists p, s = p +:+ suf.
Proof.
  induction s as [|x s IH]; rewrite endswith_unfold; case_eqb E;
    subst; try discriminate; try (now exists EmptyString).
  intros H. destruct (IH H) as [p ->]. now exists (String x p).
Qed.

(** Two suffixes of one string: the shorter is a suffix of the longer. *)
Lemma endswith_chain (s a b : string) :
  Py.endswith s a = true -> Py.endswith s b = true ->
  String.length b <= String.length a -> Py.endswith a b = true.
Proof.
  induction s as [|x s IH]; rewrite (endswith_unfold _ a); case_eqb E;
    subst; try discriminate; try (intros _ Hb _; exact Hb).
  intros Ha. rewrite (endswith_unfold _ b). case_eqb E'; subst.
  - intros _ Hlen. apply endswith_length in Ha. simpl in Hlen. lia.
  - intros Hb Hlen. now apply IH.
Qed.

Lemma endswith_append_r (p s suf : string) :
  Py.endswith s suf = true -> Py.endswith (p +:+ s) suf = true.
Proof.
  intros H. destruct (endswith_inv _ _ H) as [q ->].
  rewrite <- append_assoc. apply endswith_append.
Qed.

Lemma item0_split (s : string) :
  Py.item0 (Py.split "." s) = before_first_dot s.
Proof.
  induction s as [|c s IH]; simpl; [reflexivity |].
  destruct (Ascii.eqb c "."); [reflexivity |].
  destruct (Py.split "." s) as [|h t]; simpl in *; now rewrite <- IH.
Qed.

Lemma before_first_dot_append (a r : string) :
  Py.has_char "." a = false -> before_first_dot (a +:+ "." +:+ r) = a.
Proof.
  induction a as [|x a IH]; [reflexivity |].
  rewrite append_cons. simpl.
  destruct (Ascii.eqb x "."); [discriminate |].
  intros H. now rewrite IH.
Qed.

Lemma before_first_dot_no_dot (s : string) :
  Py.has_char "." (before_first_dot s) = false.
Proof.
  induction s as [|x s IH]; simpl; [reflexivity |].
  destruct (Ascii.eqb x ".") eqn:E; simpl; [reflexivity |].
  now rewrite E.
Qed.

(** ** The monad *)

Lemma bind_ok {A B} (m : M A) (k : A -> M B) w a w1 :
  m w = (Ok a, w1) -> bind m k w = k a w1.
Proof. unfold bind. now intros ->. Qed.

Lemma bind_exit {A B} (m : M A) (k : A -> M B) w c w1 :
  m w = (Exit c, w1) -> bind m k w = (Exit c, w1).
Proof. unfold bind. now intros ->. Qed.

Lemma bind_raise {A B} (m : M A) (k : A -> M B) w e w1 :
  m w = (Raise e, w1) -> bind m k w = (Raise e, w1).
Proof. unfold bind. now intros ->. Qed.

Lemma bind_inv_ok {A B} (m : M A) (k : A -> M B) w b w' :
  bind m k w = (Ok b, w') ->
  exists a w1, m w = (Ok a, w1) /\ k a w1 = (Ok b, w').
Proof.
  unfold bind. destruct (m w) as [[a|c|e] w1]; intros H; try discriminate.
  now exists a, w1.
Qed.

Lemma emits_weaken {A} (P Q : event -> Prop) (m : M A) :
  (forall ev, P ev -> Q ev) -> emits P m -> emits Q m.
Proof.
  intros HPQ Hm w r w' Hrun. destruct (Hm w r w' Hrun) as (evs & Ht & Hall).
  exists evs. split; [exact Ht |]. eapply Forall_impl; eauto.
Qed.

Lemma emits_nothing {A} (P : event -> Prop) (m : M A) :
  (forall w, trace (m w).2 = trace w) -> emits P m.
Proof.
  intros H w r w' Hrun. exists []. split; [|constructor].
  specialize (H w). rewrite Hrun in H. simpl in H. now rewrite H, app_nil_r.
Qed.

Lemma emits_ret {A} (P : event -> Prop) (a : A) : emits P (ret a).
Proof. now apply emits_nothing. Qed.

Lemma emits_raise {A} (P : event -> Prop) (e : exn) : emits P (@raise A e).
Proof. now apply emits_nothing. Qed.

Lemma emits_sys_exit {A} (P : event -> Prop) (c : Z) : emits P (@sys_exit A c).
Proof. now apply emits_nothing. Qed.

Lemma emits_get_fs (P : event -> Prop) : emits P get_fs.
Proof. now apply emits_nothing. Qed.

Lemma emits_emit (P : event -> Prop) (ev : event) : P ev -> emits P (emit ev).
Proof.
  intros Hev w r w' Hrun. injection Hrun as <- <-. exists [ev]. simpl.
  split; [reflexivity | now repeat constructor].
Qed.

(** The continuation needs the property only after the runs of [m] that
    return a value. *)
Lemma emits_bind {A B} (P : event -> Prop) (m : M A) (k : A -> M B) :
  emits P m ->
  (forall w a w1, m w = (Ok a, w1) -> emits P (k a)) ->
  emits P (bind m k).
Proof.
  intros Hm Hk w r w' Hrun. unfold bind in Hrun.
  destruct (m w) as [[a|c|e] w1] eqn:Em;
    destruct (Hm _ _ _ Em) as (evs1 & Ht1 & Hall1).
  - destruct (Hk _ _ _ Em _ _ _ Hrun) as (evs2 & Ht2 & Hall2).
    exists (evs1 ++ evs2)%list. split.
    + now rewrite Ht2, Ht1, app_assoc.
    + now apply Forall_app.
  - injection Hrun as <- <-. now exists evs1.
  - injection Hrun as <- <-. now exists evs1.
Qed.

Lemma emits_write_file (P : event -> Prop) ev p c :
  P (ev p c) -> emits P (write_file ev p c).
Proof.
  intros Hev w r w' Hrun. unfold write_file in Hrun.
  destruct (Os.can_write (fs w) p); injection Hrun as <- <-.
  - exists [ev p c]. simpl. split; [reflexivity | now repeat constructor].
  - exists []. rewrite app_nil_r. now split.
Qed.

Lemma emits_os_mkdir (P : event -> Prop) p :
  P (EMkdir p) -> emits P (os_mkdir p).
Proof.
  intros Hev w r w' Hrun. unfold os_mkdir in Hrun.
  destruct (Os.can_mkdir (fs w) p); injection Hrun as <- <-.
  - exists [EMkdir p]. simpl. split; [reflexivity | now repeat constructor].
  - exists []. rewrite app_nil_r. now split.
Qed.

(** ** Paths of the normaliser *)

Lemma path_join_suffix (folder name : string) :
  exists q, Os.path_join folder name = q +:+ name.
Proof.
  unfold Os.path_join. destruct (Py.startswith name "/").
  - now exists EmptyString.
  - destruct (String.eqb folder EmptyString || Py.endswith folder "/")%bool.
    + now exists folder.
    + exists (folder +:+ "/"). now rewrite append_assoc.
Qed.

Lemma endswith_path_join (folder name suf : string) :
  Py.endswith name suf = true ->
  Py.endswith (Os.path_join folder name) suf = true.
Proof.
  intros H. destruct (path_join_suffix folder name) as [q ->].
  now apply endswith_append_r.
Qed.

(** A name that starts with a dot, or extends a name with such a suffix,
    is joined to the folder as the name itself is. *)
Lemma path_join_append_dot (folder a r : string) :
  Os.path_join folder (a +:+ String "." r) =
  Os.path_join folder a +:+ String "." r.
Proof.
  unfold Os.path_join. destruct a as [|x a].
  - rewrite append_nil_l. cbn [Py.startswith].
    change (Ascii.eqb "/" ".") with false. cbv iota.
    destruct (String.eqb folder EmptyString || Py.endswith folder "/")%bool;
      now rewrite ?append_assoc, ?append_nil_r.
  - rewrite append_cons. cbn [Py.startswith].
    destruct (Ascii.eqb "/" x); [reflexivity |].
    destruct (String.eqb folder EmptyString || Py.endswith folder "/")%bool;
      now rewrite ?append_assoc, ?append_cons.
Qed.

Lemma has_char_path_join (folder name : string) :
  Py.has_char "." folder = false -> Py.has_char "." name = false ->
  Py.has_char "." (Os.path_join folder name) = false.
Proof.
  intros Hf Hn. unfold Os.path_join. destruct (Py.startswith name "/"); [exact Hn |].
  destruct (String.eqb folder EmptyString || Py.endswith folder "/")%bool;
    rewrite !has_char_append, Hf, Hn; reflexivity.
Qed.

Lemma fasta_path_before_first_dot (p : string) :
  fasta_path p = before_first_dot p +:+ ".fasta".
Proof. unfold fasta_path. now rewrite item0_split. Qed.

Lemma fasta_path_endswith (p : string) :
  Py.endswith (fasta_path p) ".fasta" = true.
Proof. apply endswith_append. Qed.

(** No string ends both in [.fasta] and in [.fa], or in [.gb]. *)
Lemma fasta_not_fa (s : string) :
  Py.endswith s ".fasta" = true -> Py.endswith s ".fa" = false.
Proof.
  intros H. destruct (Py.endswith s ".fa") eqn:E; [|reflexivity].
  assert (Hc := endswith_chain s ".fasta" ".fa" H E).
  simpl in Hc. discriminate Hc. lia.
Qed.

Lemma fasta_not_gb (s : string) :
  Py.endswith s ".fasta" = true -> Py.endswith s ".gb" = false.
Proof.
  intros H. destruct (Py.endswith s ".gb") eqn:E; [|reflexivity].
  assert (Hc := endswith_chain s ".fasta" ".gb" H E).
  simpl in Hc. discriminate Hc. lia.
Qed.

Lemma gb_not_fa (s : string) :
  Py.endswith s ".gb" = true -> Py.endswith s ".fa" = false.
Proof.
  intros H. destruct (Py.endswith s ".fa") eqn:E; [|reflexivity].
  assert (Hc := endswith_chain s ".gb" ".fa" H E).
  simpl in Hc. discriminate Hc. lia.
Qed.

Lemma gb_path_not_fasta_path (folder gene p : string) :
  Py.endswith gene ".gb" = true -> Os.path_join folder gene <> fasta_path p.
Proof.
  intros Hgb Heq. apply (endswith_path_join folder) in Hgb.
  rewrite Heq, (fasta_not_gb _ (fasta_path_endswith p)) in Hgb. discriminate.
Qed.

Lemma open_r_insert_eq (files : FS) (p c : string) :
  Os.open_r (<[p := File c]> files) p = Some c.
Proof. unfold Os.open_r. now rewrite lookup_insert_eq. Qed.

(** What [open(p, 'w')] finds when it succeeds where [open(p, 'r')]
    failed: nothing, or a file that may be written but not read. *)
Lemma unreadable_writable (files : FS) (p : string) :
  Os.open_r files p = None -> Os.can_write files p = true ->
  files !! p = None \/ exists c, files !! p = Some (Restricted WriteOnly c).
Proof.
  unfold Os.open_r, Os.can_write.
  destruct (files !! p) as [[c|[] c|]|]; try discriminate; intros _ _;
    [right; now exists c | now left].
Qed.

Lemma content_written (files : FS) (p c : string) :
  Os.content (<[p := Os.written (files !! p) c]> files) p = Some c.
Proof.
  unfold Os.content. rewrite lookup_insert_eq.
  destruct (files !! p) as [[c'|[] c'|]|]; reflexivity.
Qed.

Lemma write_only_written (old : option node) (c : string) :
  write_only (Os.written old c) =
  match old with Some n => write_only n | None => false end.
Proof. destruct old as [[c'|[] c'|]|]; reflexivity. Qed.

Lemma open_r_insert_ne (files : FS) (p q : string) (n : node) :
  p <> q -> Os.open_r (<[q := n]> files) p = Os.open_r files p.
Proof. intros H. unfold Os.open_r. now rewrite lookup_insert_ne. Qed.

Section Normaliser.

Context {Ext : Externals}.

(** What [prepare] does with an annotation file, case by case. *)
Lemma prepare_gene_gb (folder gene : string) (w : world) :
  Py.endswith gene ".gb" = true ->
  prepare_gene folder gene w =
  match Os.open_r (fs w) (Os.path_join folder gene) with
  | None => (Raise (IOError (Os.path_join folder gene)), w)
  | Some c =>
      match genbank_to_fasta c with
      | None => (Raise ConversionError, w)
      | Some record =>
          match Os.open_r (fs w) (fasta_path (Os.path_join folder gene)) with
          | Some _ => (Ok tt, w)
          | None =>
              write_file EWriteFasta
                (fasta_path (Os.path_join folder gene)) record w
          end
      end
  end.
Proof.
  intros Hgb. unfold prepare_gene. rewrite Hgb.
  unfold bind, SeqIO_read, get_fs.
  destruct (Os.open_r (fs w) (Os.path_join folder gene)) as [c|]; [|reflexivity].
  destruct (genbank_to_fasta c) as [record|]; [|reflexivity].
  destruct (Os.open_r (fs w) (fasta_path (Os.path_join folder gene)));
    reflexivity.
Qed.

(** The two ways in which [prepare] ends on an annotation file: with
    the world as it was, or with one write at the conversion path, where
    no file could be opened for reading. *)
Lemma prepare_gene_gb_run (folder gene : string) (w : world)
    (r : result unit) (w' : world) :
  Py.endswith gene ".gb" = true ->
  prepare_gene folder gene w = (r, w') ->
  w' = w \/
  exists c record,
    r = Ok tt /\
    Os.open_r (fs w) (Os.path_join folder gene) = Some c /\
    genbank_to_fasta c = Some record /\
    Os.open_r (fs w) (fasta_path (Os.path_join folder gene)) = None /\
    Os.can_write (fs w) (fasta_path (Os.path_join folder gene)) = true /\
    w' = {| fs := <[fasta_path (Os.path_join folder gene) :=
                      Os.written
                        (fs w !! fasta_path (Os.path_join folder gene)) record]>
                    (fs w);
            trace := (trace w ++
              [EWriteFasta (fasta_path (Os.path_join folder gene))
                           record])%list |}.
Proof.
  intros Hgb. rewrite (prepare_gene_gb folder gene w Hgb).
  destruct (Os.open_r (fs w) (Os.path_join folder gene)) as [c|] eqn:Eo;
    [|intros [= <- <-]; now left].
  destruct (genbank_to_fasta c) as [record|] eqn:Eg;
    [|intros [= <- <-]; now left].
  destruct (Os.open_r (fs w) (fasta_path (Os.path_join folder gene))) eqn:Ef;
    [intros [= <- <-]; now left |].
  unfold write_file.
  destruct (Os.can_write (fs w) (fasta_path (Os.path_join folder gene))) eqn:Ew;
    intros [= <- <-]; [|now left].
  right. exists c, record. now repeat split.
Qed.

Lemma prepare_gene_other (folder gene : string) (w : world) :
  Py.endswith gene ".gb" = false -> Py.endswith gene ".fa" = false ->
  prepare_gene folder gene w =
  (Ok tt, {| fs := fs w;
             trace := (trace w ++
               [ELog DEBUG ("File type not supported: " +:+ gene)])%list |}).
Proof. intros Hgb Hfa. unfold prepare_gene. now rewrite Hgb, Hfa. Qed.

Lemma prepare_gene_fa (folder gene : string) (w : world) :
  Py.endswith gene ".gb" = false -> Py.endswith gene ".fa" = true ->
  prepare_gene folder gene w = (Ok tt, w).
Proof. intros Hgb Hfa. unfold prepare_gene. now rewrite Hgb, Hfa. Qed.

End Normaliser.

(** C10.  The conversion output path of [prepare] is the input filepath
    up to its first dot, followed by [.fasta].  A file name with more
    than one dot therefore loses everything after its first dot, and two
    annotation files that agree before the first dot are converted to
    the same path: the first is written there, the second finds the
    file and is not written. *)
Theorem fasta_path_first_dot :
  (forall p, fasta_path p = before_first_dot p +:+ ".fasta") /\
  (forall folder stem rest,
      Py.has_char "." folder = false -> Py.has_char "." stem = false ->
      fasta_path (Os.path_join folder (stem +:+ "." +:+ rest)) =
      Os.path_join folder (stem +:+ ".fasta")) /\
  (forall p1 p2, before_first_dot p1 = before_first_dot p2 ->
                 fasta_path p1 = fasta_path p2) /\
  (forall (Ext : Externals) folder g1 g2 w c1 c2 r1 r2,
      Py.endswith g1 ".gb" = true -> Py.endswith g2 ".gb" = true ->
      before_first_dot (Os.path_join folder g1) =
      before_first_dot (Os.path_join folder g2) ->
      Os.open_r (fs w) (Os.path_join folder g1) = Some c1 ->
      Os.open_r (fs w) (Os.path_join folder g2) = Some c2 ->
      genbank_to_fasta c1 = Some r1 -> genbank_to_fasta c2 = Some r2 ->
      fs w !! fasta_path (Os.path_join folder g1) = None ->
      Os.parent_ok (fs w) (fasta_path (Os.path_join folder g1)) = true ->
      prepare [g1; g2] folder w =
      (Ok tt,
       {| fs := <[fasta_path (Os.path_join folder g1) := File r1]> (fs w);
          trace := (trace w ++
            [EWriteFasta (fasta_path (Os.path_join folder g1)) r1])%list |})).
Proof.
  split; [exact fasta_path_before_first_dot |].
  split.
  { intros folder stem rest Hf Hs.
    change ("." +:+ rest) with (String "." rest).
    change (stem +:+ ".fasta") with (stem +:+ String "." "fasta").
    rewrite !path_join_append_dot, fasta_path_before_first_dot.
    change (String "." rest) with ("." +:+ rest).
    rewrite before_first_dot_append; [reflexivity |].
    now apply has_char_path_join. }
  split.
  { intros p1 p2 H. now rewrite !fasta_path_before_first_dot, H. }
  intros Ext folder g1 g2 w c1 c2 r1 r2 Hgb1 Hgb2 Hsame Ho1 Ho2 Hr1 Hr2 Hnone Hpar.
  assert (Hpath : fasta_path (Os.path_join folder g2) =
                  fasta_path (Os.path_join folder g1)).
  { now rewrite !fasta_path_before_first_dot, Hsame. }
  simpl. unfold bind.
  rewrite (prepare_gene_gb folder g1 w Hgb1), Ho1, Hr1.
  unfold Os.open_r at 1. rewrite Hnone.
  unfold write_file, Os.can_write. rewrite Hnone, Hpar.
  rewrite (prepare_gene_gb folder g2 _ Hgb2). simpl fs.
  rewrite open_r_insert_ne, Ho2, Hr2 by now apply gb_path_not_fasta_path.
  rewrite Hpath, open_r_insert_eq. reflexivity.
Qed.

(** C4.  For a candidate file whose name ends in [.gb], [prepare]
    produces the conversion at [fasta_path] where there is no file: the
    annotation file is read and converted, and the conversion is written
    there.  It writes only when no file can be opened for reading at
    that path: a conversion that can be read is left as it is, with no
    write at all, and no other path is ever written, so no file that
    can be opened for reading is ever overwritten.  Run again after a
    run that returned, it returns again and the file system is as the
    first run left it.  For a name with a single dot in a folder without
    dots, [fasta_path] is the sibling with the same stem. *)
Theorem prepare_gene_never_overwrites (Ext : Externals) (folder gene : string) :
  Py.endswith gene ".gb" = true ->
  (forall w c record,
     Os.open_r (fs w) (Os.path_join folder gene) = Some c ->
     genbank_to_fasta c = Some record ->
     fs w !! fasta_path (Os.path_join folder gene) = None ->
     Os.parent_ok (fs w) (fasta_path (Os.path_join folder gene)) = true ->
     prepare_gene folder gene w =
     (Ok tt,
      {| fs := <[fasta_path (Os.path_join folder gene) := File record]> (fs w);
         trace := (trace w ++
           [EWriteFasta (fasta_path (Os.path_join folder gene))
                        record])%list |})) /\
  (forall w r w' c, prepare_gene folder gene w = (r, w') ->
     Os.open_r (fs w) (fasta_path (Os.path_join folder gene)) = Some c ->
     w' = w) /\
  (forall w r w' q, prepare_gene folder gene w = (r, w') ->
     q <> fasta_path (Os.path_join folder gene) ->
     fs w' !! q = fs w !! q) /\
  (forall w r w' q c, prepare_gene folder gene w = (r, w') ->
     Os.open_r (fs w) q = Some c -> fs w' !! q = fs w !! q) /\
  (forall w w1, prepare_gene folder gene w = (Ok tt, w1) ->
     exists w2,
       prepare_gene folder gene w1 = (Ok tt, w2) /\ fs w2 = fs w1) /\
  (forall stem, gene = stem +:+ ".gb" ->
     Py.has_char "." folder = false -> Py.has_char "." stem = false ->
     fasta_path (Os.path_join folder gene) =
     Os.path_join folder (stem +:+ ".fasta")).
Proof.
  intros Hgb. split; [|split; [|split; [|split; [|split]]]].
  - intros w c record Hc Hrec Hnone Hpar.
    rewrite (prepare_gene_gb folder gene w Hgb), Hc, Hrec.
    unfold Os.open_r at 1. rewrite Hnone.
    unfold write_file, Os.can_write. now rewrite Hnone, Hpar.
  - intros w r w' c Hrun Hopen.
    destruct (prepare_gene_gb_run _ _ _ _ _ Hgb Hrun)
      as [->|(c' & rec & _ & _ & _ & Hno & _)]; [reflexivity | congruence].
  - intros w r w' q Hrun Hq.
    destruct (prepare_gene_gb_run _ _ _ _ _ Hgb Hrun)
      as [->|(c' & rec & _ & _ & _ & _ & _ & ->)]; [reflexivity |].
    cbn [fs]. now rewrite lookup_insert_ne by congruence.
  - intros w r w' q c Hrun Hq.
    destruct (prepare_gene_gb_run _ _ _ _ _ Hgb Hrun)
      as [->|(c' & rec & _ & _ & _ & Hno & _ & ->)]; [reflexivity |].
    cbn [fs]. rewrite lookup_insert_ne; [reflexivity | congruence].
  - intros w w1 Hrun.
    destruct (prepare_gene_gb_run _ _ _ _ _ Hgb Hrun)
      as [->|(c & rec & _ & Hc & Hrec & Hno & Hw & ->)];
      [now exists w |].
    rewrite (prepare_gene_gb folder gene _ Hgb). cbn [fs].
    rewrite open_r_insert_ne, Hc, Hrec by now apply gb_path_not_fasta_path.
    destruct (unreadable_writable _ _ Hno Hw) as [Hnone|[c' Hwo]].
    + rewrite Hnone. cbn [Os.written]. rewrite open_r_insert_eq.
      now eexists.
    + rewrite Hwo. cbn [Os.written].
      unfold Os.open_r at 1. rewrite lookup_insert_eq.
      unfold write_file, Os.can_write. cbn [fs].
      rewrite lookup_insert_eq. cbn [Os.written].
      eexists. split; [reflexivity |]. cbn [fs]. apply insert_insert_eq.
  - intros stem -> Hf Hs.
    change (stem +:+ ".gb") with (stem +:+ String "." "gb").
    change (stem +:+ ".fasta") with (stem +:+ String "." "fasta").
    rewrite !path_join_append_dot, fasta_path_before_first_dot.
    change (String "." "gb") with ("." +:+ "gb").
    rewrite before_first_dot_append; [reflexivity |].
    now apply has_char_path_join.
Qed.

(** ** The main loop *)

Section Main_loop.

Context {Ext : Externals}.

Variables (t : string) (db : option string) (folder results : string).

(** The result document is there: no search, the document is parsed. *)
Lemma blast_gene_cached genefile genes w xml :
  Os.open_r (fs w) (output_filepath folder results genefile) = Some xml ->
  blast_gene t db folder results genefile genes w =
  let w' := {| fs := fs w;
               trace := (trace w ++ announced db genefile ++ [parsing])%list |} in
  match parse_xml t xml with
  | Some l =>
      (Ok (<[name_in folder genefile :=
               set_loci (candidate_of t db folder results genefile) l]> genes),
       w')
  | None => (Raise ResultParseError, w')
  end.
Proof.
  intros Hopen. unfold blast_gene, bind, print, logger, emit, get_fs; simpl.
  fold (name_in folder genefile). fold (output_filepath folder results genefile).
  rewrite Hopen. unfold ret, parse_blast; simpl. rewrite Hopen.
  rewrite <- !app_assoc. simpl.
  destruct (parse_xml t xml); reflexivity.
Qed.

(** The result document is not there: one search, with the arguments
    of lines 174-179; when the tool returns, its document is parsed. *)
Lemma blast_gene_searches genefile genes w :
  Os.open_r (fs w) (output_filepath folder results genefile) = None ->
  blast_gene t db folder results genefile genes w =
  let searched :=
    (trace w ++ announced db genefile ++
     [ESubprocess t (search_arguments db folder results genefile)])%list in
  match run_blast t (search_arguments db folder results genefile) (fs w) with
  | (fs', Some e) => (Raise e, {| fs := fs'; trace := searched |})
  | (fs', None) =>
      let w' := {| fs := fs'; trace := (searched ++ [parsing])%list |} in
      match Os.open_r fs' (output_filepath folder results genefile) with
      | Some xml =>
          match parse_xml t xml with
          | Some l =>
              (Ok (<[name_in folder genefile :=
                       set_loci (candidate_of t db folder results genefile) l]>
                     genes), w')
          | None => (Raise ResultParseError, w')
          end
      | None => (Raise ResultParseError, w')
      end
  end.
Proof.
  intros Hopen. unfold blast_gene, bind, print, logger, emit, get_fs; simpl.
  fold (name_in folder genefile). fold (output_filepath folder results genefile).
  rewrite Hopen. unfold blast; simpl.
  fold (search_arguments db folder results genefile).
  destruct (run_blast t _ (fs w)) as [fs' [e|]]; simpl.
  - now rewrite <- !app_assoc.
  - unfold parse_blast; simpl. rewrite <- !app_assoc. simpl.
    destruct (Os.open_r fs' _) as [xml|]; [|reflexivity].
    destruct (parse_xml t xml); reflexivity.
Qed.

(** A candidate that is processed to the end is stored under its
    [gene_name], and its result document can then be opened. *)
Lemma blast_gene_ok_inv genefile genes w g w' :
  blast_gene t db folder results genefile genes w = (Ok g, w') ->
  (exists l, g = <[name_in folder genefile :=
                     set_loci (candidate_of t db folder results genefile) l]>
                   genes) /\
  (exists xml, Os.open_r (fs w') (output_filepath folder results genefile)
               = Some xml).
Proof.
  destruct (Os.open_r (fs w) (output_filepath folder results genefile))
    as [xml|] eqn:Hopen.
  - rewrite (blast_gene_cached _ _ _ _ Hopen). simpl.
    destruct (parse_xml t xml) as [l|]; intros [= <- <-]; simpl; eauto.
  - rewrite (blast_gene_searches _ _ _ Hopen). simpl.
    destruct (run_blast t _ (fs w)) as [fs' [e|]]; [discriminate |].
    destruct (Os.open_r fs' _) as [xml|] eqn:Hopen'; [|discriminate].
    destruct (parse_xml t xml) as [l|]; intros [= <- <-]; simpl; eauto.
Qed.

(** The body of the loop never calls [sys.exit]. *)
Lemma blast_gene_no_exit genefile genes w c w' :
  blast_gene t db folder results genefile genes w <> (Exit c, w').
Proof.
  destruct (Os.open_r (fs w) (output_filepath folder results genefile))
    as [xml|] eqn:Hopen.
  - rewrite (blast_gene_cached _ _ _ _ Hopen). simpl.
    destruct (parse_xml t xml); discriminate.
  - rewrite (blast_gene_searches _ _ _ Hopen). simpl.
    destruct (run_blast t _ (fs w)) as [fs' [e|]]; [discriminate |].
    destruct (Os.open_r fs' _) as [xml|]; [|discriminate].
    destruct (parse_xml t xml); discriminate.
Qed.

Lemma blast_gene_emits genefile genes :
  emits (loop_event t db folder results [genefile])
        (blast_gene t db folder results genefile genes).
Proof.
  assert (Hsub : loop_event t db folder results [genefile]
                   (ESubprocess t (search_arguments db folder results genefile))).
  { split; [reflexivity |]. exists genefile. split; [now left | reflexivity]. }
  intros w r w'.
  destruct (Os.open_r (fs w) (output_filepath folder results genefile))
    as [xml|] eqn:Hopen.
  - rewrite (blast_gene_cached _ _ _ _ Hopen). simpl.
    intros Hrun. exists (announced db genefile ++ [parsing])%list. split.
    + destruct (parse_xml t xml); injection Hrun as <- <-; reflexivity.
    + repeat (constructor; [exact I |]). constructor.
  - rewrite (blast_gene_searches _ _ _ Hopen). simpl.
    destruct (run_blast t _ (fs w)) as [fs' [e|]].
    + intros [= <- <-]. eexists. split; [reflexivity |].
      repeat (constructor; [first [exact I | exact Hsub] |]).
      constructor.
    + intros Hrun.
      exists (announced db genefile ++
              [ESubprocess t (search_arguments db folder results genefile);
               parsing])%list.
      split.
      * destruct (Os.open_r fs' _) as [xml|];
          [destruct (parse_xml t xml) |]; injection Hrun as <- <-; simpl;
          now rewrite <- !app_assoc.
      * repeat (constructor; [first [exact I | exact Hsub] |]).
        constructor.
Qed.

Lemma loop_event_mono (l1 l2 : list string) (ev : event) :
  (forall f, In f l1 -> In f l2) ->
  loop_event t db folder results l1 ev -> loop_event t db folder results l2 ev.
Proof.
  intros Hsub. destruct ev; simpl; try tauto.
  intros [-> (f & Hin & ->)]. split; [reflexivity |]. exists f. auto.
Qed.

Lemma blast_genes_emits candidates genes :
  emits (loop_event t db folder results candidates)
        (blast_genes t db folder results candidates genes).
Proof.
  revert genes. induction candidates as [|f rest IH]; intros genes; simpl.
  - apply emits_ret.
  - apply emits_bind.
    + eapply emits_weaken; [|apply blast_gene_emits].
      intros ev. apply loop_event_mono. intros g [->|[]]. now left.
    + intros w g w1 _. eapply emits_weaken; [|apply IH].
      intros ev. apply loop_event_mono. intros g' Hin. now right.
Qed.

Lemma blast_genes_app l1 l2 genes w :
  blast_genes t db folder results (l1 ++ l2) genes w =
  bind (blast_genes t db folder results l1 genes)
       (fun g => blast_genes t db folder results l2 g) w.
Proof.
  revert genes w. induction l1 as [|f l1 IH]; intros genes w; simpl.
  - reflexivity.
  - unfold bind in *.
    destruct (blast_gene t db folder results f genes w) as [[g|c|e] w1];
      [apply IH | reflexivity | reflexivity].
Qed.

(** An exception of the body of the loop ends the loop: the files that
    follow are not looked at. *)
Lemma blast_genes_raise processed c rest genes w g1 w1 e w2 :
  blast_genes t db folder results processed genes w = (Ok g1, w1) ->
  blast_gene t db folder results c g1 w1 = (Raise e, w2) ->
  blast_genes t db folder results (processed ++ c :: rest) genes w
  = (Raise e, w2).
Proof.
  intros Hdone Hc. rewrite blast_genes_app, (bind_ok _ _ _ _ _ Hdone). simpl.
  now rewrite (bind_raise _ _ _ _ _ Hc).
Qed.

Lemma last_named_some name candidates f :
  last_named name folder candidates = Some f ->
  In f candidates /\ name_in folder f = name.
Proof.
  induction candidates as [|g rest IH]; simpl; [discriminate |].
  destruct (last_named name folder rest) as [h|].
  - intros [= ->]. destruct (IH eq_refl). auto.
  - destruct (String.eqb_spec (name_in folder g) name); [|discriminate].
    intros [= ->]. auto.
Qed.

Lemma last_named_none name candidates :
  last_named name folder candidates = None ->
  forall f, In f candidates -> name_in folder f <> name.
Proof.
  induction candidates as [|g rest IH]; simpl; [tauto |].
  destruct (last_named name folder rest) as [h|]; [discriminate |].
  destruct (String.eqb_spec (name_in folder g) name); [discriminate |].
  intros _ f [<-|Hin]; auto.
Qed.

Lemma last_named_last name before f after :
  name_in folder f = name ->
  (forall g, In g after -> name_in folder g <> name) ->
  last_named name folder (before ++ f :: after) = Some f.
Proof.
  intros Hf Hafter. induction before as [|b before IH]; simpl.
  - destruct (last_named name folder after) as [h|] eqn:E.
    + destruct (last_named_some _ _ _ E) as [Hin Hname].
      now destruct (Hafter h Hin).
    + now rewrite (proj2 (String.eqb_eq _ _) Hf).
  - now rewrite IH.
Qed.

(** After the loop, what the dictionary holds under each name: the
    record of the last file with that name, or what it held before. *)
Lemma blast_genes_lookup candidates genes w g w' :
  blast_genes t db folder results candidates genes w = (Ok g, w') ->
  forall name,
    match last_named name folder candidates with
    | Some f =>
        exists l, g !! name =
          Some (set_loci (candidate_of t db folder results f) l)
    | None => g !! name = genes !! name
    end.
Proof.
  revert genes w. induction candidates as [|f rest IH]; intros genes w; simpl.
  - intros [= <- <-] name. reflexivity.
  - intros Hrun. apply bind_inv_ok in Hrun as (g1 & w1 & Hf & Hrest).
    apply blast_gene_ok_inv in Hf as [[l ->] _].
    intros name. specialize (IH _ _ Hrest name).
    destruct (last_named name folder rest) as [h|]; [exact IH |].
    destruct (String.eqb_spec (name_in folder f) name) as [<-|Hne].
    + exists l. now rewrite IH, lookup_insert_eq.
    + now rewrite IH, lookup_insert_ne.
Qed.

Lemma blast_genes_dom candidates genes w g w' :
  blast_genes t db folder results candidates genes w = (Ok g, w') ->
  dom g = dom genes ∪ list_to_set (name_in folder <$> candidates).
Proof.
  revert genes w. induction candidates as [|f rest IH]; intros genes w; simpl.
  - intros [= <- <-]. simpl. now rewrite (right_id_L ∅ (∪)).
  - intros Hrun. apply bind_inv_ok in Hrun as (g1 & w1 & Hf & Hrest).
    apply blast_gene_ok_inv in Hf as [[l ->] _].
    rewrite (IH _ _ Hrest), dom_insert_L, ?fmap_cons, ?list_to_set_cons.
    now rewrite (comm_L (∪) {[name_in folder f]} (dom genes)), (assoc_L (∪)).
Qed.

End Main_loop.

(** ** The final files *)

Section Final_files.

Context {Ext : Externals}.

Lemma write_loci_emits (items : list (string * Sequence)) :
  emits (fun ev => match ev with
                   | EWriteFinal p _ =>
                       exists name gene, In (name, gene) items /\
                                         p = final_path name
                   | _ => False
                   end)
        (write_loci final_results_folder items).
Proof.
  induction items as [|[name gene] rest IH]; simpl.
  - apply emits_ret.
  - apply emits_bind.
    + apply emits_write_file. exists name, gene. split; [now left | reflexivity].
    + intros _ _ _ _. eapply emits_weaken; [|exact IH].
      intros [] H; try exact H. destruct H as (n & g & Hin & ->).
      exists n, g. split; [now right | reflexivity].
Qed.

Lemma batch_emits t s candidates :
  emits (batch_event t s candidates) (batch t s candidates).
Proof.
  unfold batch. apply emits_bind.
  - eapply emits_weaken; [|apply blast_genes_emits].
    intros [] H; first [exact H | destruct H].
  - intros w genes w1 Hloop.
    apply emits_bind; [now apply emits_emit |]. intros _ _ _ _.
    apply emits_bind; [|intros _ _ _ _; now apply emits_emit].
    eapply emits_weaken; [|apply write_loci_emits].
    intros [] H; try contradiction. destruct H as (name & gene & Hin & ->).
    assert (Hlook : genes !! name = Some gene).
    { apply elem_of_map_to_list. now apply list_elem_of_In. }
    assert (H := blast_genes_lookup _ _ _ _ _ _ _ _ _ Hloop name).
    destruct (last_named name (candidates_folder s) candidates) as [f|] eqn:E.
    + destruct (last_named_some _ _ _ _ E) as [Hf <-]. now exists f.
    + rewrite Hlook, lookup_empty in H. discriminate.
Qed.

End Final_files.

(** ** The dictionary of genes *)

(** C7.  When two files of the candidates folder are given the same
    [gene_name], the dictionary holds after the main loop one record
    under that name, the one of the file processed later.  At every
    point of the loop the names of the dictionary are the names of the
    files processed so far, and the record under a name is the one of
    the last of these files with that name. *)
Theorem later_file_overwrites (Ext : Externals) (t : string)
    (db : option string) (folder results : string)
    (candidates : list string) (w : world)
    (genes : gmap string Sequence) (w' : world) :
  blast_genes t db folder results candidates ∅ w = (Ok genes, w') ->
  (forall before f1 mid f2 after,
     candidates = (before ++ f1 :: mid ++ f2 :: after)%list ->
     name_in folder f1 = name_in folder f2 ->
     (forall g, In g after -> name_in folder g <> name_in folder f2) ->
     exists c, genes !! name_in folder f2 = Some c /\
               Liblast.filepath c = Os.path_join folder f2 /\
               Liblast.gene_name c = name_in folder f2) /\
  (forall processed remaining,
     candidates = (processed ++ remaining)%list ->
     exists g1 w1,
       blast_genes t db folder results processed ∅ w = (Ok g1, w1) /\
       dom g1 = list_to_set (name_in folder <$> processed) /\
       forall name c, g1 !! name = Some c ->
         Liblast.gene_name c = name /\
         exists f, last_named name folder processed = Some f /\
                   Liblast.filepath c = Os.path_join folder f).
Proof.
  intros Hrun. split.
  - intros before f1 mid f2 after -> Hsame Hafter.
    assert (H := blast_genes_lookup _ _ _ _ _ _ _ _ _ Hrun (name_in folder f2)).
    replace (before ++ f1 :: mid ++ f2 :: after)%list
      with ((before ++ f1 :: mid) ++ f2 :: after)%list in H
      by now rewrite <- app_assoc.
    rewrite last_named_last in H by auto.
    destruct H as [l Hl]. eexists. split; [exact Hl |]. now split.
  - intros processed remaining ->.
    rewrite blast_genes_app in Hrun.
    apply bind_inv_ok in Hrun as (g1 & w1 & Hdone & _).
    exists g1, w1. split; [exact Hdone |]. split.
    + rewrite (blast_genes_dom _ _ _ _ _ _ _ _ _ Hdone), dom_empty_L.
      now rewrite (left_id_L ∅ (∪)).
    + intros name c Hc.
      assert (H := blast_genes_lookup _ _ _ _ _ _ _ _ _ Hdone name).
      destruct (last_named name folder processed) as [f|] eqn:E.
      * destruct H as [l Hl]. rewrite Hl in Hc. injection Hc as <-.
        destruct (last_named_some _ _ _ _ E) as [_ <-].
        split; [reflexivity |]. now exists f.
      * rewrite Hc, lookup_empty in H. discriminate.
Qed.

(** ** Errors in the main loop *)

Lemma blast_gene_raise_inv (Ext : Externals) t db folder results genefile
    genes w e w' :
  blast_gene t db folder results genefile genes w = (Raise e, w') ->
  e = ResultParseError \/
  exists fs', run_blast t (search_arguments db folder results genefile) (fs w)
              = (fs', Some e).
Proof.
  destruct (Os.open_r (fs w) (output_filepath folder results genefile))
    as [xml|] eqn:Hopen.
  - rewrite (blast_gene_cached _ _ _ _ _ _ _ _ Hopen). simpl.
    destruct (parse_xml t xml); intros [= <- <-]. now left.
  - rewrite (blast_gene_searches _ _ _ _ _ _ _ Hopen). simpl.
    destruct (run_blast t _ (fs w)) as [fs' [e'|]].
    + intros [= <- <-]. right. now exists fs'.
    + destruct (Os.open_r fs' _) as [xml|];
        [destruct (parse_xml t xml) |]; intros [= <- <-]; now left.
Qed.

(** C8.  An exception raised while a candidate is searched or its
    result parsed is not caught: [main] ends with it, in the world the
    candidate left.  The files that follow in the listing play no part,
    and the events since the loop began are lines printed or logged and
    searches of the files up to that candidate: no final file is
    written.  The exception is the one of the search tool or the one of
    the parser. *)
Theorem candidate_error_aborts_batch (Ext : Externals) (argv : list string)
    (w0 : world) (t : string) (s : settings)
    (processed : list string) (c : string) (rest : list string)
    (w : world) (g1 : gmap string Sequence) (w1 : world) (e : exn)
    (w2 : world) :
  setup argv w0 = (Ok (t, s, (processed ++ c :: rest)%list), w) ->
  blast_genes t (database s) (candidates_folder s) candidates_results_folder
    processed ∅ w = (Ok g1, w1) ->
  blast_gene t (database s) (candidates_folder s) candidates_results_folder
    c g1 w1 = (Raise e, w2) ->
  main argv w0 = (Raise e, w2) /\
  (exists evs,
     trace w2 = (trace w ++ evs)%list /\
     Forall (loop_event t (database s) (candidates_folder s)
               candidates_results_folder (processed ++ [c])%list) evs /\
     Forall (fun ev => is_write ev = false) evs) /\
  (e = ResultParseError \/
   exists fs',
     run_blast t (search_arguments (database s) (candidates_folder s)
                    candidates_results_folder c) (fs w1) = (fs', Some e)).
Proof.
  intros Hsetup Hdone Hc. split; [|split].
  - unfold main. rewrite (bind_ok _ _ _ _ _ Hsetup). simpl. unfold batch.
    apply bind_raise. now apply blast_genes_raise with (g1 := g1) (w1 := w1).
  - assert (Hrun : blast_genes t (database s) (candidates_folder s)
                     candidates_results_folder (processed ++ [c]) ∅ w
                   = (Raise e, w2)).
    { now apply blast_genes_raise with (g1 := g1) (w1 := w1). }
    destruct (blast_genes_emits _ _ _ _ _ _ _ _ _ Hrun) as (evs & Ht & Hall).
    exists evs. split; [exact Ht |]. split; [exact Hall |].
    eapply Forall_impl; [exact Hall |]. intros []; simpl; tauto.
  - eapply blast_gene_raise_inv. exact Hc.
Qed.

(** ** Arguments and set-up *)

Section Setup.

Context {Ext : Externals}.

(** Decide the membership tests on string literals of the goal. *)
Ltac compute_mem :=
  repeat match goal with
         | |- context [Py.mem ?a ?l] =>
             let v := eval vm_compute in (Py.mem a l) in
             lazymatch v with
             | true => change (Py.mem a l) with true
             | false => change (Py.mem a l) with false
             end
         end.

Lemma mem_inv (x a b : string) :
  Py.mem x [a; b] = true -> x = a \/ x = b.
Proof.
  unfold Py.mem, existsb.
  destruct (String.eqb_spec x a); [now left |].
  destruct (String.eqb_spec x b); [now right | discriminate].
Qed.

Lemma usage_run (w : world) :
  exists evs, usage w = (Ok tt, {| fs := fs w; trace := (trace w ++ evs)%list |})
              /\ Forall (fun ev => is_write ev = false /\ is_subprocess ev = false
                                   /\ is_critical ev = false) evs.
Proof.
  eexists. split.
  - unfold usage, bind, print, emit; simpl. rewrite <- !app_assoc. reflexivity.
  - repeat (constructor; [now repeat split |]). constructor.
Qed.

(** With the help option the handler prints the usage and exits with
    status 0; without it the handler returns, and the BLAST command it
    has read is the last one given. *)
Lemma handle_opts_run (opts : list (string * string)) (s : settings) (w : world) :
  if help_requested opts
  then exists evs,
         handle_opts opts s w =
           (Exit 0, {| fs := fs w; trace := (trace w ++ evs)%list |}) /\
         Forall (fun ev => is_write ev = false /\ is_subprocess ev = false
                           /\ is_critical ev = false) evs
  else exists s',
         handle_opts opts s w = (Ok s', w) /\
         blast_type s' =
           fold_left (fun m oa => if Py.mem oa.1 ["-b"; "--blast"]
                                  then Some oa.2 else m) opts (blast_type s).
Proof.
  revert s. induction opts as [|[opt arg] opts IH]; intros s.
  - exists s. now split.
  - cbn [help_requested existsb handle_opts fold_left fst snd].
    fold (help_requested opts).
    destruct (Py.mem opt ["-h"; "--help"]) eqn:Eh.
    + cbn [orb]. destruct (usage_run w) as (evs & Hu & Hall).
      exists evs. split; [|exact Hall].
      rewrite (bind_ok _ _ _ _ _ Hu). reflexivity.
    + cbn [orb].
      destruct (Py.mem opt ["-c"; "--candidates"]) eqn:Ec.
      { apply mem_inv in Ec as [->| ->]; compute_mem;
          exact (IH {| candidates_folder := arg; database := database s;
                       blast_type := blast_type s |}). }
      destruct (Py.mem opt ["-d"; "--database"]) eqn:Ed.
      { apply mem_inv in Ed as [->| ->]; compute_mem;
          exact (IH {| candidates_folder := candidates_folder s;
                       database := Some arg; blast_type := blast_type s |}). }
      destruct (Py.mem opt ["-b"; "--blast"]) eqn:Eb.
      * exact (IH {| candidates_folder := candidates_folder s;
                     database := database s; blast_type := Some arg |}).
      * exact (IH s).
Qed.

Lemma check_blast_type_run (m : option string) (w : world) :
  if mode_accepted m
  then exists t, m = Some t /\ check_blast_type m w = (Ok t, w)
  else exists evs,
         check_blast_type m w =
           (Exit 2, {| fs := fs w; trace := (trace w ++ evs)%list |}) /\
         Forall (fun ev => is_write ev = false /\ is_subprocess ev = false) evs.
Proof.
  destruct m as [[|c t]|]; cbn [mode_accepted].
  - change (Py.mem EmptyString blast_types) with false. cbv iota.
    eexists. split.
    + unfold check_blast_type, bind, logger, emit, sys_exit; simpl. reflexivity.
    + repeat (constructor; [now split |]). constructor.
  - unfold check_blast_type.
    destruct (Py.mem (String c t) blast_types) eqn:E; cbn [negb].
    + exists (String c t). now split.
    + eexists. split.
      * unfold bind, logger, emit, sys_exit; simpl. rewrite <- !app_assoc.
        reflexivity.
      * repeat (constructor; [now split |]). constructor.
  - eexists. split.
    + unfold check_blast_type, bind, logger, emit, sys_exit; simpl. reflexivity.
    + repeat (constructor; [now split |]). constructor.
Qed.

End Setup.

Lemma selected_mode_read (opts : list (string * string)) (s' : settings) :
  blast_type s' =
    fold_left (fun m oa => if Py.mem oa.1 ["-b"; "--blast"] then Some oa.2 else m)
              opts (blast_type defaults) ->
  blast_type s' = selected_mode opts.
Proof. intros ->. reflexivity. Qed.

(** C6, as amended.  When the search mode of an invocation is missing
    or is not one of the five, the program makes no folder, writes no
    file and starts no sub-process; it exits with status 2, unless the
    help option is among the options: then it exits with status 0. *)
Theorem rejected_mode_exits (Ext : Externals) (argv : list string) (w : world) :
  mode_accepted (selected_mode (parsed_opts argv)) = false ->
  exists w' evs,
    main argv w =
      (Exit (if help_requested (parsed_opts argv) then 0 else 2)%Z, w') /\
    fs w' = fs w /\
    trace w' = (trace w ++ evs)%list /\
    Forall (fun ev => is_write ev = false /\ is_subprocess ev = false) evs.
Proof.
  unfold parsed_opts, main, setup.
  destruct (getopt argv) as [[opts args]|] eqn:Eg.
  - intros Hrej.
    assert (Hh := handle_opts_run opts defaults w).
    destruct (help_requested opts).
    + destruct Hh as (evs & Hrun & Hall).
      exists {| fs := fs w; trace := (trace w ++ evs)%list |}, evs.
      split; [|split; [reflexivity | split; [reflexivity |]]].
      * apply bind_exit. now apply bind_exit.
      * eapply Forall_impl; [exact Hall |]. now intros ev (? & ? & ?).
    + destruct Hh as (s' & Hrun & Hmode).
      apply selected_mode_read in Hmode.
      set (w1 := {| fs := fs w;
                    trace := (trace w ++
                      [ELog DEBUG ("Arguments: candidates=" +:+ candidates_folder s'
                                   +:+ ", database=" +:+ Py.fmt (database s')
                                   +:+ ", blast=" +:+ Py.fmt (blast_type s'))])%list |}).
      assert (Hc := check_blast_type_run (blast_type s') w1).
      rewrite Hmode, Hrej in Hc. destruct Hc as (evs & Hc & Hall).
      eexists. eexists. split; [|split; [|split]].
      * apply bind_exit. rewrite (bind_ok _ _ _ _ _ Hrun).
        unfold bind at 1. unfold logger, emit. fold w1.
        apply bind_exit. rewrite Hmode. exact Hc.
      * reflexivity.
      * simpl. rewrite <- app_assoc. reflexivity.
      * apply Forall_app. split; [now repeat constructor | exact Hall].
  - intros _. destruct (usage_run w) as (evs & Hu & Hall).
    eexists. eexists. split; [|split; [|split]].
    + apply bind_exit. rewrite (bind_ok _ _ _ _ _ Hu).
      unfold bind, logger, emit, sys_exit. simpl. reflexivity.
    + reflexivity.
    + simpl. rewrite <- app_assoc. reflexivity.
    + apply Forall_app. split.
      * eapply Forall_impl; [exact Hall |]. now intros ev (? & ? & ?).
      * constructor; [now split | constructor].
Qed.

(** C5, the code at the failing input and at every input like it.  When
    the working directory has no [candidates] directory, an invocation
    with a valid search mode and without the help option is ended by the
    [OSError] of [os.mkdir('candidates/results')] of line 129: the
    listing of the candidates folder, whose failure lines 135-139 turn
    into a critical record and exit status 2, is not reached, and no
    critical record is logged. *)
Theorem missing_candidates_raises (Ext : Externals) (argv : list string)
    (opts : list (string * string)) (args : list string) (w : world) :
  getopt argv = Some (opts, args) ->
  help_requested opts = false ->
  mode_accepted (selected_mode opts) = true ->
  fs w !! candidates_folder defaults = None ->
  fs w !! candidates_results_folder = None ->
  exists w' evs,
    main argv w = (Raise (OSError candidates_results_folder), w') /\
    fs w' = fs w /\
    trace w' = (trace w ++ evs)%list /\
    Forall (fun ev => is_critical ev = false) evs.
Proof.
  intros Eg Hhelp Hacc Hcand Hres. unfold main, setup. rewrite Eg.
  assert (Hh := handle_opts_run opts defaults w). rewrite Hhelp in Hh.
  destruct Hh as (s' & Hrun & Hmode). apply selected_mode_read in Hmode.
  set (w1 := {| fs := fs w;
                trace := (trace w ++
                  [ELog DEBUG ("Arguments: candidates=" +:+ candidates_folder s'
                               +:+ ", database=" +:+ Py.fmt (database s')
                               +:+ ", blast=" +:+ Py.fmt (blast_type s'))])%list |}).
  assert (Hc := check_blast_type_run (blast_type s') w1).
  rewrite Hmode, Hacc in Hc. destruct Hc as (t & Ht & Hc).
  exists w1. eexists. split; [|split; [reflexivity | split; [reflexivity |]]].
  - apply bind_raise. rewrite (bind_ok _ _ _ _ _ Hrun).
    unfold bind at 1. unfold logger, emit. fold w1.
    rewrite Hmode, (bind_ok _ _ _ _ _ Hc).
    unfold bind at 1. unfold get_fs.
    apply bind_raise. unfold Os.isdir, os_mkdir, Os.can_mkdir, Os.parent_ok.
    change (fs w1) with (fs w). rewrite Hres. cbn [negb]. cbv beta.
    change (fs w1) with (fs w). rewrite Hres.
    change (Os.parent candidates_results_folder) with "candidates".
    change (candidates_folder defaults) with "candidates" in Hcand.
    rewrite Hcand. reflexivity.
  - repeat constructor.
Qed.

(** ** The candidates handed to the main loop *)

(** When the set-up returns, the BLAST command is one of the five and
    the candidates are the names of the second listing of the folder
    that end in [.fa]. *)
Lemma setup_ok_inv (Ext : Externals) argv w0 t s candidates w :
  setup argv w0 = (Ok (t, s, candidates), w) ->
  Py.mem t blast_types = true /\
  exists listing,
    Os.listdir (fs w) (candidates_folder s) = Some listing /\
    candidates = List.filter (fun file => Py.endswith file ".fa") listing.
Proof.
  unfold setup. destruct (getopt argv) as [[opts args]|].
  2:{ destruct (usage_run w0) as (evs & Hu & _).
      rewrite (bind_ok _ _ _ _ _ Hu). discriminate. }
  intros H.
  apply bind_inv_ok in H as (s' & w1 & _ & H).
  apply bind_inv_ok in H as (? & w2 & _ & H).
  apply bind_inv_ok in H as (t' & w3 & Hc & H).
  apply bind_inv_ok in H as (? & ? & _ & H).
  apply bind_inv_ok in H as (? & ? & _ & H).
  apply bind_inv_ok in H as (? & ? & _ & H).
  apply bind_inv_ok in H as (? & ? & _ & H).
  apply bind_inv_ok in H as (files & w7 & _ & H).
  destruct (Os.listdir files (candidates_folder s')) as [first|];
    [|discriminate].
  apply bind_inv_ok in H as (? & w8 & _ & H).
  apply bind_inv_ok in H as (files' & w8' & [= <- <-] & H).
  destruct (Os.listdir (fs w8) (candidates_folder s')) as [listing|] eqn:El;
    [|discriminate].
  apply bind_inv_ok in H as (? & w9 & [= _ <-] & [= <- <- <- <-]).
  split.
  - assert (Hr := check_blast_type_run (blast_type s') w2).
    destruct (mode_accepted (blast_type s')) eqn:Ea.
    + destruct Hr as (t0 & Hs & Hr). rewrite Hr in Hc. injection Hc as <- _.
      rewrite Hs in Ea. exact Ea.
    + destruct Hr as (evs & Hr & _). rewrite Hr in Hc. discriminate.
  - exists listing. split; [exact El | reflexivity].
Qed.

Lemma filter_fa_endswith (listing : list string) (f : string) :
  In f (List.filter (fun file => Py.endswith file ".fa") listing) ->
  In f listing /\ Py.endswith f ".fa" = true.
Proof. intros H. apply List.filter_In in H. exact H. Qed.

(** C3.  The candidates handed to the main loop are the names of the
    candidates folder, listed after normalisation, that end in [.fa];
    every search of the run is the search of one of them and every
    final file is named after one of them.  A file whose name ends
    neither in [.gb] nor in [.fa] makes [prepare] log the record
    [File type not supported] and go on without an exception, and it is
    not among the candidates. *)
Theorem only_fa_files_are_searched (Ext : Externals) :
  (forall argv w0 t s candidates w r w',
     setup argv w0 = (Ok (t, s, candidates), w) ->
     main argv w0 = (r, w') ->
     (exists listing,
        Os.listdir (fs w) (candidates_folder s) = Some listing /\
        candidates = List.filter (fun file => Py.endswith file ".fa") listing) /\
     Forall (fun f => Py.endswith f ".fa" = true) candidates /\
     exists evs, trace w' = (trace w ++ evs)%list /\
                 Forall (batch_event t s candidates) evs) /\
  (forall folder gene w,
     Py.endswith gene ".gb" = false -> Py.endswith gene ".fa" = false ->
     prepare_gene folder gene w =
       (Ok tt, {| fs := fs w;
                  trace := (trace w ++
                    [ELog DEBUG ("File type not supported: " +:+ gene)])%list |})
     /\
     forall listing,
       ~ In gene (List.filter (fun file => Py.endswith file ".fa") listing)).
Proof.
  split.
  - intros argv w0 t s candidates w r w' Hsetup Hmain.
    destruct (setup_ok_inv _ _ _ _ _ _ _ Hsetup) as (_ & listing & Hl & ->).
    split; [now exists listing |]. split.
    + apply List.Forall_forall. intros f Hf. now apply filter_fa_endswith in Hf.
    + unfold main in Hmain. rewrite (bind_ok _ _ _ _ _ Hsetup) in Hmain.
      exact (batch_emits _ _ _ _ _ _ Hmain).
  - intros folder gene w Hgb Hfa. split.
    + now apply prepare_gene_other.
    + intros listing Hin. apply filter_fa_endswith in Hin as [_ Hin]. congruence.
Qed.

Lemma append_inj_l (a x y : string) : a +:+ x = a +:+ y -> x = y.
Proof.
  induction a as [|c a IH]; rewrite ?append_nil_l, ?append_cons; [tauto |].
  intros [= H]. now apply IH.
Qed.

Lemma append_inj_r (x y b : string) : x +:+ b = y +:+ b -> x = y.
Proof.
  revert y. induction x as [|c x IH]; intros [|d y];
    rewrite ?append_nil_l, ?append_cons; intros H.
  - reflexivity.
  - apply (f_equal String.length) in H. simpl in H.
    rewrite length_append in H. lia.
  - apply (f_equal String.length) in H. simpl in H.
    rewrite length_append in H. lia.
  - injection H as -> H. f_equal. now apply IH.
Qed.

(** Two genes have the same final file only if they have the same name. *)
Lemma final_path_inj (n1 n2 : string) :
  final_path n1 = final_path n2 -> n1 = n2.
Proof.
  unfold final_path, Os.path_join.
  change (String.eqb final_results_folder EmptyString
          || Py.endswith final_results_folder "/")%bool with false.
  cbv iota.
  destruct (Py.startswith (n1 +:+ ".fa") "/") eqn:E1;
    destruct (Py.startswith (n2 +:+ ".fa") "/") eqn:E2; intros H.
  - now apply append_inj_r in H.
  - rewrite H in E1. vm_compute in E1. discriminate.
  - rewrite <- H in E2. vm_compute in E2. discriminate.
  - apply append_inj_l, append_inj_l in H. now apply append_inj_r in H.
Qed.

(** C9.  The file that [prepare] creates for an annotation file has a
    name that ends in [.fasta], and such a name does not end in [.fa].
    So neither a file whose name ends in [.gb] nor its conversion is
    among the candidates of the main loop: no search of the run has one
    of them as its query, and when no file ending in [.fa] carries the
    gene name of the annotation file, no final file is written under
    that name. *)
Theorem annotation_only_candidate_is_dropped (Ext : Externals) :
  (forall p, Py.endswith (fasta_path p) ".fasta" = true /\
             Py.endswith (fasta_path p) ".fa" = false) /\
  (forall argv w0 t s candidates w r w' gene,
     setup argv w0 = (Ok (t, s, candidates), w) ->
     main argv w0 = (r, w') ->
     Py.endswith gene ".gb" = true ->
     ~ In gene candidates /\
     (forall name,
        Os.path_join (candidates_folder s) name =
          fasta_path (Os.path_join (candidates_folder s) gene) ->
        ~ In name candidates) /\
     exists evs,
       trace w' = (trace w ++ evs)%list /\
       (forall bt a, In (ESubprocess bt a) evs ->
          query a <> Os.path_join (candidates_folder s) gene /\
          query a <> fasta_path (Os.path_join (candidates_folder s) gene)) /\
       ((forall f, In f candidates ->
           name_in (candidates_folder s) f <> name_in (candidates_folder s) gene) ->
        forall c,
          ~ In (EWriteFinal (final_path (name_in (candidates_folder s) gene)) c)
               evs)).
Proof.
  split.
  { intros p. split; [apply fasta_path_endswith |].
    apply fasta_not_fa, fasta_path_endswith. }
  intros argv w0 t s candidates w r w' gene Hsetup Hmain Hgb.
  destruct (setup_ok_inv _ _ _ _ _ _ _ Hsetup) as (_ & listing & _ & Hc).
  assert (Hfa : forall f, In f candidates -> Py.endswith f ".fa" = true).
  { intros f Hf. rewrite Hc in Hf. now apply filter_fa_endswith in Hf. }
  split; [|split].
  - intros Hin. apply Hfa in Hin. rewrite (gb_not_fa _ Hgb) in Hin. discriminate.
  - intros name Hname Hin. apply Hfa in Hin.
    apply (endswith_path_join (candidates_folder s)) in Hin.
    rewrite Hname, (fasta_not_fa _ (fasta_path_endswith _)) in Hin. discriminate.
  - unfold main in Hmain. rewrite (bind_ok _ _ _ _ _ Hsetup) in Hmain.
    destruct (batch_emits _ _ _ _ _ _ Hmain) as (evs & Ht & Hall).
    exists evs. split; [exact Ht |].
    rewrite List.Forall_forall in Hall. split.
    + intros bt a Hin. destruct (Hall _ Hin) as (_ & f & Hf & ->). simpl.
      apply Hfa in Hf. apply (endswith_path_join (candidates_folder s)) in Hf.
      split; intros Heq; rewrite Heq in Hf.
      * apply (endswith_path_join (candidates_folder s)) in Hgb.
        rewrite (gb_not_fa _ Hgb) in Hf. discriminate.
      * rewrite (fasta_not_fa _ (fasta_path_endswith _)) in Hf. discriminate.
    + intros Honly c Hin. destruct (Hall _ Hin) as (f & Hf & Heq).
      apply final_path_inj in Heq. now apply (Honly f Hf).
Qed.

(** ** The final files, written and read again *)

Lemma split_line (a rest : string) :
  single_line a ->
  Py.split (ascii_of_nat 10) (a +:+ nl +:+ rest) =
  a :: Py.split (ascii_of_nat 10) rest.
Proof.
  unfold single_line. induction a as [|c a IH]; intros Ha.
  - reflexivity.
  - rewrite append_cons. cbn [Py.split]. cbn [Py.has_char] in Ha.
    destruct (Ascii.eqb c (ascii_of_nat 10)); [discriminate |].
    now rewrite (IH Ha).
Qed.

Lemma loci_text_lines (loci : list Locus) :
  Forall well_formed_locus loci ->
  Py.split (ascii_of_nat 10) (loci_text loci) =
  (flat_map (fun l => [String ">" (Liblast.id l); Liblast.sequence l;
                       EmptyString]) loci ++ [EmptyString])%list.
Proof.
  induction 1 as [|l loci [Hid Hseq] _ IH]; [reflexivity |].
  cbn [loci_text flat_map]. rewrite !append_assoc.
  change (">" +:+ Liblast.id l +:+ nl +:+ Liblast.sequence l +:+ nl +:+ nl
          +:+ loci_text loci)
    with (String ">" (Liblast.id l) +:+ nl +:+ Liblast.sequence l +:+ nl
          +:+ EmptyString +:+ nl +:+ loci_text loci).
  rewrite !split_line, IH; [reflexivity | reflexivity | exact Hseq |].
  unfold single_line. cbn [Py.has_char].
  change (Ascii.eqb ">" (ascii_of_nat 10)) with false. exact Hid.
Qed.

Lemma read_loci_text (loci : list Locus) :
  Forall well_formed_locus loci ->
  read_fasta (loci_text loci) =
  List.map (fun l => (Liblast.id l, Liblast.sequence l)) loci.
Proof.
  intros H. unfold read_fasta. rewrite (loci_text_lines _ H). clear H.
  induction loci as [|l loci IH]; [reflexivity |].
  cbn [flat_map List.map app read_records].
  change (Ascii.eqb ">" ">") with true. cbv iota. now rewrite IH.
Qed.

Lemma can_write_insert (files : FS) (p q c : string) :
  Os.can_write files q = true -> Os.can_write files p = true ->
  Os.can_write (<[q := Os.written (files !! q) c]> files) p = true.
Proof.
  unfold Os.can_write. intros Hq Hp.
  destruct (decide (p = q)) as [->|Hne].
  { rewrite lookup_insert_eq.
    destruct (files !! q) as [[c'|[] c'|]|]; reflexivity. }
  rewrite lookup_insert_ne by congruence.
  destruct (files !! p) as [[c'|[] c'|]|]; try assumption.
  unfold Os.parent_ok in *. destruct (String.eqb (Os.parent p) EmptyString);
    [reflexivity |].
  destruct (decide (Os.parent p = q)) as [Heq|Hne'].
  - rewrite Heq in Hp. destruct (files !! q) as [[c'|[] c'|]|]; discriminate.
  - now rewrite lookup_insert_ne by congruence.
Qed.

Lemma content_of_written (files : FS) (p : string) (old : option node)
    (c : string) :
  files !! p = Some (Os.written old c) -> Os.content files p = Some c.
Proof.
  unfold Os.content. intros ->. destruct old as [[c'|[] c'|]|]; reflexivity.
Qed.

(** What has been written can be opened for reading, unless it was
    written over a file that may be written but not read. *)
Lemma open_r_of_written (files : FS) (p : string) (old : option node)
    (c : string) :
  files !! p = Some (Os.written old c) ->
  (forall c', old <> Some (Restricted WriteOnly c')) ->
  Os.open_r files p = Some c.
Proof.
  unfold Os.open_r. intros -> Hold.
  destruct old as [[c'|[] c'|]|]; try reflexivity. now destruct (Hold c').
Qed.

(** The loop of lines 193-198 over items with distinct names, each of
    which can be opened for writing. *)
Lemma write_loci_run (items : list (string * Sequence)) (w : world) :
  NoDup (items.*1) ->
  (forall n g, In (n, g) items -> Os.can_write (fs w) (final_path n) = true) ->
  exists w',
    write_loci final_results_folder items w = (Ok tt, w') /\
    trace w' = (trace w ++ List.map final_write items)%list /\
    (forall n g, In (n, g) items ->
       fs w' !! final_path n =
       Some (Os.written (fs w !! final_path n) (loci_text (Liblast.loci g)))) /\
    (forall p, (forall n g, In (n, g) items -> p <> final_path n) ->
       fs w' !! p = fs w !! p).
Proof.
  revert w. induction items as [|[n g] rest IH]; intros w Hnd Hcw.
  - exists w. simpl. rewrite app_nil_r. repeat split; tauto.
  - apply NoDup_cons in Hnd as [Hn Hnd]. cbn [write_loci].
    fold (final_path n).
    assert (Hw : Os.can_write (fs w) (final_path n) = true)
      by (apply (Hcw n g); now left).
    set (w1 := {| fs := <[final_path n :=
                           Os.written (fs w !! final_path n)
                                      (loci_text (Liblast.loci g))]> (fs w);
                  trace := (trace w ++ [final_write (n, g)])%list |}).
    assert (Hrun : write_file EWriteFinal (final_path n)
                     (loci_text (Liblast.loci g)) w = (Ok tt, w1)).
    { unfold write_file. now rewrite Hw. }
    assert (Hfresh : forall n' g', In (n', g') rest ->
              final_path n <> final_path n').
    { intros n' g' Hin Heq. apply final_path_inj in Heq as <-.
      apply Hn. apply list_elem_of_In. apply in_map_iff.
      now exists (n, g'). }
    destruct (IH w1 Hnd) as (w' & Hrest & Ht & Hopen & Hframe).
    { intros n' g' Hin. apply can_write_insert; [exact Hw |].
      apply (Hcw n' g'). now right. }
    exists w'. split; [|split; [|split]].
    + now rewrite (bind_ok _ _ _ _ _ Hrun).
    + rewrite Ht. simpl. now rewrite <- app_assoc.
    + intros n' g' [[= <- <-]|Hin].
      * rewrite Hframe by exact Hfresh. simpl. now rewrite lookup_insert_eq.
      * rewrite (Hopen n' g' Hin). simpl.
        rewrite lookup_insert_ne; [reflexivity |]. now apply (Hfresh n' g').
    + intros p Hp. rewrite Hframe.
      * simpl. rewrite lookup_insert_ne; [reflexivity |].
        intros Heq. apply (Hp n g); [now left | now symmetry].
      * intros n' g' Hin. apply (Hp n' g'). now right.
Qed.

Lemma final_paths_NoDup (items : list (string * Sequence)) :
  NoDup (items.*1) ->
  NoDup (List.map (fun item => final_path item.1) items).
Proof.
  induction items as [|[n g] l IHl]; intros Hk; [constructor |].
  apply NoDup_cons in Hk as [Hn Hk]. simpl. constructor; [|now apply IHl].
  intros Hp. apply list_elem_of_In, in_map_iff in Hp as ([n' g'] & Heq & Hp).
  simpl in Heq. apply final_path_inj in Heq as ->.
  apply Hn. apply list_elem_of_In. apply in_map_iff. now exists (n, g').
Qed.

Lemma final_writes_are_writes (items : list (string * Sequence)) :
  List.filter is_write (List.map final_write items) = List.map final_write items.
Proof. induction items as [|item l IH]; simpl; [reflexivity | now rewrite IH]. Qed.

Lemma final_path_relative (name : string) :
  Py.startswith name "/" = false ->
  final_path name = "final_results/" +:+ name +:+ ".fa".
Proof.
  intros Hname. unfold final_path, Os.path_join.
  destruct name as [|c name]; [reflexivity |].
  rewrite append_cons. cbn [Py.startswith] in *.
  destruct (Ascii.eqb "/" c); [discriminate | reflexivity].
Qed.

(** The end of [main] (lines 190-200) after a set-up and a main loop
    that returned, when the final files can be opened for writing. *)
Lemma main_writes_final_files (Ext : Externals) (argv : list string)
    (w0 : world) (t : string) (s : settings) (candidates : list string)
    (w : world) (genes : gmap string Sequence) (w1 : world) :
  setup argv w0 = (Ok (t, s, candidates), w) ->
  blast_genes t (database s) (candidates_folder s) candidates_results_folder
    candidates ∅ w = (Ok genes, w1) ->
  (forall name gene, genes !! name = Some gene ->
     Os.can_write (fs w1) (final_path name) = true) ->
  exists w',
    main argv w0 = (Ok tt, w') /\
    trace w' =
      (trace w1 ++
       [ELog INFO ("Creating files at " +:+ final_results_folder +:+ "...")] ++
       List.map final_write (map_to_list genes) ++
       [ELog INFO "Done, bye!"])%list /\
    (forall name gene, genes !! name = Some gene ->
       fs w' !! final_path name =
       Some (Os.written (fs w1 !! final_path name)
                        (loci_text (Liblast.loci gene)))) /\
    (forall p, (forall name gene, genes !! name = Some gene ->
                  p <> final_path name) ->
       fs w' !! p = fs w1 !! p).
Proof.
  intros Hsetup Hloop Hcw.
  assert (Hin : forall n g, In (n, g) (map_to_list genes) <-> genes !! n = Some g).
  { intros n g. rewrite <- list_elem_of_In. apply elem_of_map_to_list. }
  set (w2 := {| fs := fs w1;
                trace := (trace w1 ++
                  [ELog INFO ("Creating files at " +:+ final_results_folder
                              +:+ "...")])%list |}).
  destruct (write_loci_run (map_to_list genes) w2)
    as (w3 & Hrun & Ht & Hopen & Hframe).
  { apply NoDup_fst_map_to_list. }
  { intros n g H. apply (Hcw n g). now apply Hin. }
  exists {| fs := fs w3; trace := (trace w3 ++ [ELog INFO "Done, bye!"])%list |}.
  split; [|split; [|split]].
  - unfold main. rewrite (bind_ok _ _ _ _ _ Hsetup). cbn [fst snd].
    unfold batch. rewrite (bind_ok _ _ _ _ _ Hloop).
    unfold bind at 1. unfold logger at 1. unfold emit. fold w2.
    now rewrite (bind_ok _ _ _ _ _ Hrun).
  - cbn [trace]. rewrite Ht. subst w2. cbn [trace].
    now rewrite <- !app_assoc.
  - intros name gene Hg. cbn [fs]. apply (Hopen name gene). now apply Hin.
  - intros p Hp. cbn [fs]. rewrite Hframe; [reflexivity |].
    intros n g H. apply (Hp n g). now apply Hin.
Qed.

(** C2.  In a run of [main] whose set-up and main loop return and whose
    final files can be opened for writing, [main] returns, and the files
    it writes after the loop are the final files of the genes of the
    dictionary, one write per gene, to paths that differ from gene to
    gene.  The file of a gene is [<gene_name>.fa] in the folder of the
    final results (for a name that does not start with a slash, as a
    name derived from a file name) and its content is, for each locus in
    order, the line [>id], the line [sequence] and an empty line; the
    file can be opened for reading unless it was written over a file
    that may be written but not read.  When
    the identifiers and the sequences are one line each, reading that
    content again gives as many records as the gene has loci, with the
    same identifiers and sequences in the same order. *)
Theorem final_files_round_trip (Ext : Externals) (argv : list string)
    (w0 : world) (t : string) (s : settings) (candidates : list string)
    (w : world) (genes : gmap string Sequence) (w1 : world) :
  setup argv w0 = (Ok (t, s, candidates), w) ->
  blast_genes t (database s) (candidates_folder s) candidates_results_folder
    candidates ∅ w = (Ok genes, w1) ->
  (forall name gene, genes !! name = Some gene ->
     Os.can_write (fs w1) (final_path name) = true) ->
  exists w' evs,
    main argv w0 = (Ok tt, w') /\
    trace w' = (trace w1 ++ evs)%list /\
    List.filter is_write evs = List.map final_write (map_to_list genes) /\
    NoDup (List.map (fun item => final_path item.1) (map_to_list genes)) /\
    forall name gene, genes !! name = Some gene ->
      Liblast.gene_name gene = name /\
      (Py.startswith name "/" = false ->
       final_path name = "final_results/" +:+ name +:+ ".fa") /\
      Os.content (fs w') (final_path name) =
        Some (loci_text (Liblast.loci gene)) /\
      ((forall c, fs w1 !! final_path name <> Some (Restricted WriteOnly c)) ->
       Os.open_r (fs w') (final_path name) =
         Some (loci_text (Liblast.loci gene))) /\
      (Forall well_formed_locus (Liblast.loci gene) ->
       read_fasta (loci_text (Liblast.loci gene)) =
         List.map (fun l => (Liblast.id l, Liblast.sequence l))
                  (Liblast.loci gene) /\
       length (read_fasta (loci_text (Liblast.loci gene))) =
         length (Liblast.loci gene)).
Proof.
  intros Hsetup Hloop Hcw.
  destruct (main_writes_final_files Ext argv w0 t s candidates w genes w1
              Hsetup Hloop Hcw) as (w' & Hmain & Ht & Hfile & _).
  exists w'. eexists. split; [exact Hmain |]. split; [exact Ht |]. split.
  { cbn [app List.filter is_write]. rewrite List.filter_app.
    rewrite final_writes_are_writes. cbn [List.filter is_write].
    apply app_nil_r. }
  split; [apply final_paths_NoDup, NoDup_fst_map_to_list |].
  intros name gene Hg. split; [|split; [|split; [|split]]].
  - assert (H := blast_genes_lookup _ _ _ _ _ _ _ _ _ Hloop name).
    destruct (last_named name (candidates_folder s) candidates) as [f|] eqn:E.
    + destruct H as [l Hl]. rewrite Hl in Hg. injection Hg as <-.
      now destruct (last_named_some _ _ _ _ E) as [_ <-].
    + rewrite Hg, lookup_empty in H. discriminate.
  - apply final_path_relative.
  - eapply content_of_written. exact (Hfile name gene Hg).
  - intros Hold. eapply open_r_of_written; [exact (Hfile name gene Hg) | exact Hold].
  - intros Hwf. rewrite (read_loci_text _ Hwf). split; [reflexivity |].
    now rewrite List.length_map.
Qed.

(** ** The cache of search results *)

(** A candidate that has been processed to the end is not searched when
    it is processed again: its result document is there. *)
Lemma blast_gene_twice (Ext : Externals) t db folder results genefile
    genes w g w1 genes' :
  blast_gene t db folder results genefile genes w = (Ok g, w1) ->
  exists r w2 evs,
    blast_gene t db folder results genefile genes' w1 = (r, w2) /\
    fs w2 = fs w1 /\
    trace w2 = (trace w1 ++ evs)%list /\
    Forall (fun ev => is_subprocess ev = false) evs.
Proof.
  intros Hrun. apply blast_gene_ok_inv in Hrun as [_ [xml Hopen]].
  rewrite (blast_gene_cached _ _ _ _ _ _ _ _ Hopen). simpl.
  destruct (parse_xml t xml); eexists; eexists; eexists;
    (split; [reflexivity |]); (split; [reflexivity |]);
    (split; [reflexivity |]); repeat constructor.
Qed.

(** C1, the code at the failing input.  The candidates are in
    [mygenes] and the result document [mygenes/results/geneA.xml] is
    there and can be opened; the run with [-c mygenes] starts the search
    tool all the same, with [out] in [candidates/results]: the folder of
    the results is the one of line 82, computed before the option is
    read. *)
Theorem results_folder_ignores_candidates_option :
  Os.open_r Scenario.custom_folder "mygenes/results/geneA.xml"
    = Some "<cached>" /\
  List.filter is_subprocess
    (trace (@main Mock.externals Scenario.argv_custom
              (start Scenario.custom_folder)).2)
  = [ESubprocess "blastn"
       {| query := "mygenes/geneA.fa";
          db := Some "db";
          out := "candidates/results/geneA.xml";
          outfmt := 5 |}].
Proof. split; vm_compute; reflexivity. Qed.

(** C6, the claim as it stands fails: with the help option alone the
    search mode is missing and the program exits with status 0. *)
Lemma help_without_mode_exits_0 :
  ~ (forall argv w,
       mode_accepted (selected_mode (@parsed_opts Mock.externals argv)) = false ->
       (@main Mock.externals argv w).1 = Exit 2%Z).
Proof.
  intros H. specialize (H ["-h"] (start ∅) eq_refl).
  vm_compute in H. discriminate H.
Qed.

(** C4, the claim as it stands fails: a conversion that is there but
    cannot be opened for reading is written over.  The annotation file
    [candidates/b.gb] stands next to [candidates/b.fasta], which holds
    [>old] and may be written but not read; [prepare] returns after one
    write there, and the file holds the new conversion. *)
Lemma unreadable_conversion_is_overwritten :
  Py.endswith "b.gb" ".gb" = true /\
  fasta_path (Os.path_join "candidates" "b.gb") = "candidates/b.fasta" /\
  Os.content Scenario.unreadable_conversion "candidates/b.fasta"
    = Some ">old" /\
  exists w',
    @prepare_gene Mock.externals "candidates" "b.gb"
      (start Scenario.unreadable_conversion) = (Ok tt, w') /\
    trace w' = [EWriteFasta "candidates/b.fasta"
                  (">record" +:+ nl +:+ "LOCUS b" +:+ nl)] /\
    Os.content (fs w') "candidates/b.fasta"
      = Some (">record" +:+ nl +:+ "LOCUS b" +:+ nl).
Proof.
  split; [reflexivity |]. split; [reflexivity |]. split; [reflexivity |].
  eexists. split; [vm_compute; reflexivity |].
  split; vm_compute; reflexivity.
Qed.

(** C2, the claim as it stands fails: a gene with one locus whose
    sequence has line breaks.  The run returns and writes the final
    file of the gene; the text of that file is also the text of two
    loci, and reading it again gives two records for the one locus. *)
Lemma line_break_breaks_round_trip :
  Liblast.loci <$> (Scenario.genes_two_in_one !! "geneA")
    = Some [Scenario.two_in_one] /\
  (exists w',
     @main Scenario.externals_two_in_one Scenario.argv
       (start Scenario.mixed_folder) = (Ok tt, w') /\
     Os.open_r (fs w') "final_results/geneA.fa"
       = Some (loci_text [Scenario.two_in_one])) /\
  loci_text [Scenario.two_in_one] = loci_text Scenario.two_loci /\
  read_fasta (loci_text [Scenario.two_in_one])
    = [("hit1", "AC"); ("hit2", "GT")] /\
  length (read_fasta (loci_text [Scenario.two_in_one]))
    <> length [Scenario.two_in_one].
Proof.
  split; [vm_compute; reflexivity |]. split.
  { eexists. split; vm_compute; reflexivity. }
  split; [reflexivity |]. split; [reflexivity |]. vm_compute. discriminate.
Qed.

(** ** The theorems at concrete runs *)

Lemma fasta_path_first_dot_witness :
  fasta_path (Os.path_join "candidates" ("gene" +:+ "." +:+ "v2.gb"))
    = Os.path_join "candidates" ("gene" +:+ ".fasta") /\
  fasta_path "candidates/gene.v1.gb" = fasta_path "candidates/gene.v2.gb" /\
  @prepare Mock.externals ["gene.v1.gb"; "gene.v2.gb"] "candidates"
    (start Scenario.two_versions)
  = (Ok tt,
     {| fs := <[fasta_path (Os.path_join "candidates" "gene.v1.gb") :=
                  File (">record" +:+ nl +:+ "LOCUS v1" +:+ nl)]>
                Scenario.two_versions;
        trace := [EWriteFasta
                    (fasta_path (Os.path_join "candidates" "gene.v1.gb"))
                    (">record" +:+ nl +:+ "LOCUS v1" +:+ nl)] |}).
Proof.
  destruct fasta_path_first_dot as (_ & Hstem & Hsame & Hboth).
  split; [|split].
  - apply Hstem; reflexivity.
  - apply Hsame. reflexivity.
  - apply (Hboth Mock.externals "candidates" "gene.v1.gb" "gene.v2.gb"
             (start Scenario.two_versions) "LOCUS v1" "LOCUS v2"
             (">record" +:+ nl +:+ "LOCUS v1" +:+ nl)
             (">record" +:+ nl +:+ "LOCUS v2" +:+ nl));
      vm_compute; reflexivity.
Defined.

Lemma prepare_gene_never_overwrites_witness :
  @prepare_gene Mock.externals "candidates" "b.gb" (start Scenario.mixed_folder)
  = (Ok tt,
     {| fs := <[fasta_path (Os.path_join "candidates" "b.gb") :=
                  File (">record" +:+ nl +:+ "LOCUS b" +:+ nl)]>
                Scenario.mixed_folder;
        trace := [EWriteFasta (fasta_path (Os.path_join "candidates" "b.gb"))
                    (">record" +:+ nl +:+ "LOCUS b" +:+ nl)] |}) /\
  fs (Scenario.prepared Scenario.mixed_folder "b.gb") !! "candidates/notes.txt"
    = Scenario.mixed_folder !! "candidates/notes.txt" /\
  (exists w2,
     @prepare_gene Mock.externals "candidates" "b.gb"
       (Scenario.prepared Scenario.mixed_folder "b.gb") = (Ok tt, w2) /\
     fs w2 = fs (Scenario.prepared Scenario.mixed_folder "b.gb")) /\
  fasta_path (Os.path_join "candidates" "b.gb")
    = Os.path_join "candidates" ("b" +:+ ".fasta").
Proof.
  destruct (prepare_gene_never_overwrites Mock.externals "candidates" "b.gb"
              eq_refl) as (Hmake & _ & Hother & _ & Htwice & Hstem).
  split; [|split; [|split]].
  - apply (Hmake (start Scenario.mixed_folder) "LOCUS b"); vm_compute; reflexivity.
  - apply (Hother (start Scenario.mixed_folder) (Ok tt));
      [vm_compute; reflexivity | discriminate].
  - apply (Htwice (start Scenario.mixed_folder)). vm_compute; reflexivity.
  - apply (Hstem "b"); reflexivity.
Defined.

Lemma only_fa_files_are_searched_witness :
  ((exists listing,
      Os.listdir (fs (Scenario.after_setup Scenario.mixed_folder)) "candidates"
        = Some listing /\
      ["geneA.fa"] = List.filter (fun file => Py.endswith file ".fa") listing) /\
   Forall (fun f => Py.endswith f ".fa" = true) ["geneA.fa"] /\
   exists evs,
     trace (Scenario.after_main Scenario.mixed_folder)
       = (trace (Scenario.after_setup Scenario.mixed_folder) ++ evs)%list /\
     Forall (@batch_event Mock.externals "blastn" Scenario.settings_of_argv
               ["geneA.fa"]) evs) /\
  @prepare_gene Mock.externals "candidates" "notes.txt"
    (start Scenario.mixed_folder)
  = (Ok tt,
     {| fs := Scenario.mixed_folder;
        trace := [ELog DEBUG ("File type not supported: " +:+ "notes.txt")] |}).
Proof.
  destruct (only_fa_files_are_searched Mock.externals) as [Hrun Hskip].
  split.
  - apply (Hrun Scenario.argv (start Scenario.mixed_folder) "blastn"
             Scenario.settings_of_argv ["geneA.fa"]
             (Scenario.after_setup Scenario.mixed_folder) (Ok tt)
             (Scenario.after_main Scenario.mixed_folder));
      vm_compute; reflexivity.
  - apply (Hskip "candidates" "notes.txt" (start Scenario.mixed_folder));
      reflexivity.
Defined.

Lemma annotation_only_candidate_is_dropped_witness :
  ~ In "b.gb" ["geneA.fa"] /\
  (forall name,
     Os.path_join "candidates" name =
       fasta_path (Os.path_join "candidates" "b.gb") ->
     ~ In name ["geneA.fa"]) /\
  exists evs,
    trace (Scenario.after_main Scenario.mixed_folder)
      = (trace (Scenario.after_setup Scenario.mixed_folder) ++ evs)%list /\
    (forall bt a, In (ESubprocess bt a) evs ->
       query a <> Os.path_join "candidates" "b.gb" /\
       query a <> fasta_path (Os.path_join "candidates" "b.gb")) /\
    ((forall f, In f ["geneA.fa"] ->
        @name_in Mock.externals "candidates" f
        <> @name_in Mock.externals "candidates" "b.gb") ->
     forall c,
       ~ In (EWriteFinal
               (final_path (@name_in Mock.externals "candidates" "b.gb")) c)
            evs).
Proof.
  apply (proj2 (annotation_only_candidate_is_dropped Mock.externals)
           Scenario.argv (start Scenario.mixed_folder) "blastn"
           Scenario.settings_of_argv ["geneA.fa"]
           (Scenario.after_setup Scenario.mixed_folder) (Ok tt)
           (Scenario.after_main Scenario.mixed_folder) "b.gb");
    vm_compute; reflexivity.
Defined.

Lemma later_file_overwrites_witness :
  exists c,
    Scenario.versions_genes
      !! @name_in (Mock.externals_named Mock.short_stem) "candidates" "a.v2.fa"
      = Some c /\
    Liblast.filepath c = Os.path_join "candidates" "a.v2.fa" /\
    Liblast.gene_name c
      = @name_in (Mock.externals_named Mock.short_stem) "candidates" "a.v2.fa".
Proof.
  apply (proj1 (later_file_overwrites (Mock.externals_named Mock.short_stem)
                  "blastn" None "candidates" "candidates/results"
                  Scenario.versions (start Scenario.empty_folders)
                  Scenario.versions_genes Scenario.versions_run.2
                  ltac:(vm_compute; reflexivity))
           [] "a.v1.fa" ["b.fa"] "a.v2.fa" []).
  - reflexivity.
  - reflexivity.
  - intros g [].
Defined.

Lemma candidate_error_aborts_batch_witness :
  @main Mock.externals Scenario.argv (start Scenario.corrupt_result)
    = (Raise ResultParseError,
       (Scenario.body_run Scenario.corrupt_result ["m.fa"] "a.fa").2) /\
  (exists evs,
     trace (Scenario.body_run Scenario.corrupt_result ["m.fa"] "a.fa").2
       = (trace (Scenario.after_setup Scenario.corrupt_result) ++ evs)%list /\
     Forall (@loop_event Mock.externals "blastn"
               (database Scenario.settings_of_argv) "candidates"
               candidates_results_folder (["m.fa"] ++ ["a.fa"])%list) evs /\
     Forall (fun ev => is_write ev = false) evs) /\
  (ResultParseError = ResultParseError \/
   exists fs',
     Mock.write_hits "blastn"
       (@search_arguments Mock.externals (database Scenario.settings_of_argv)
          "candidates" candidates_results_folder "a.fa")
       (fs (Scenario.loop_run Scenario.corrupt_result ["m.fa"]).2)
     = (fs', Some ResultParseError)).
Proof.
  apply (candidate_error_aborts_batch Mock.externals Scenario.argv
           (start Scenario.corrupt_result) "blastn" Scenario.settings_of_argv
           ["m.fa"] "a.fa" ["z.fa"]
           (Scenario.after_setup Scenario.corrupt_result)
           (Scenario.loop_genes Scenario.corrupt_result ["m.fa"])
           (Scenario.loop_run Scenario.corrupt_result ["m.fa"]).2
           ResultParseError
           (Scenario.body_run Scenario.corrupt_result ["m.fa"] "a.fa").2);
    vm_compute; reflexivity.
Defined.

Lemma missing_candidates_raises_witness :
  exists w' evs,
    @main Mock.externals Scenario.argv (start ∅)
      = (Raise (OSError candidates_results_folder), w') /\
    fs w' = ∅ /\
    trace w' = evs /\
    Forall (fun ev => is_critical ev = false) evs.
Proof.
  apply (missing_candidates_raises Mock.externals Scenario.argv
           [("-b", "blastn"); ("-d", "transcriptome.fasta")] [] (start ∅));
    reflexivity.
Defined.

Lemma rejected_mode_exits_witness :
  exists w' evs,
    @main Mock.externals ["-b"; "blastq"] (start Scenario.mixed_folder)
      = (Exit 2%Z, w') /\
    fs w' = Scenario.mixed_folder /\
    trace w' = evs /\
    Forall (fun ev => is_write ev = false /\ is_subprocess ev = false) evs.
Proof.
  apply (rejected_mode_exits Mock.externals ["-b"; "blastq"]
           (start Scenario.mixed_folder)).
  reflexivity.
Defined.

Lemma loop_genes_mixed_folder :
  Scenario.loop_genes Scenario.mixed_folder ["geneA.fa"] =
  <["geneA" := set_loci (@candidate_of Mock.externals "blastn"
                           (Some "transcriptome.fasta") "candidates"
                           candidates_results_folder "geneA.fa")
                 [ {| Liblast.id := "hit1"; Liblast.sequence := "ACGT" |} ]]>
    (∅ : gmap string Sequence).
Proof. vm_compute; reflexivity. Qed.

Lemma final_files_round_trip_witness :
  exists w' evs,
    @main Mock.externals Scenario.argv (start Scenario.mixed_folder)
      = (Ok tt, w') /\
    trace w' =
      (trace (Scenario.loop_run Scenario.mixed_folder ["geneA.fa"]).2
       ++ evs)%list /\
    List.filter is_write evs =
      List.map final_write
        (map_to_list (Scenario.loop_genes Scenario.mixed_folder ["geneA.fa"])) /\
    NoDup (List.map (fun item => final_path item.1)
             (map_to_list
                (Scenario.loop_genes Scenario.mixed_folder ["geneA.fa"]))) /\
    forall name gene,
      Scenario.loop_genes Scenario.mixed_folder ["geneA.fa"] !! name
        = Some gene ->
      Liblast.gene_name gene = name /\
      (Py.startswith name "/" = false ->
       final_path name = "final_results/" +:+ name +:+ ".fa") /\
      Os.content (fs w') (final_path name) =
        Some (loci_text (Liblast.loci gene)) /\
      ((forall c,
          fs (Scenario.loop_run Scenario.mixed_folder ["geneA.fa"]).2
            !! final_path name <> Some (Restricted WriteOnly c)) ->
       Os.open_r (fs w') (final_path name) =
         Some (loci_text (Liblast.loci gene))) /\
      (Forall well_formed_locus (Liblast.loci gene) ->
       read_fasta (loci_text (Liblast.loci gene)) =
         List.map (fun l => (Liblast.id l, Liblast.sequence l))
                  (Liblast.loci gene) /\
       length (read_fasta (loci_text (Liblast.loci gene))) =
         length (Liblast.loci gene)).
Proof.
  apply (final_files_round_trip Mock.externals Scenario.argv
           (start Scenario.mixed_folder) "blastn" Scenario.settings_of_argv
           ["geneA.fa"] (Scenario.after_setup Scenario.mixed_folder)
           (Scenario.loop_genes Scenario.mixed_folder ["geneA.fa"])
           (Scenario.loop_run Scenario.mixed_folder ["geneA.fa"]).2).
  - vm_compute; reflexivity.
  - vm_compute; reflexivity.
  - intros name gene Hg.
    destruct (decide (name = "geneA")) as [->|Hne]; [vm_compute; reflexivity |].
    exfalso. revert Hg. rewrite loop_genes_mixed_folder.
    rewrite lookup_insert_ne by congruence. now rewrite lookup_empty.
Defined.

(** The guard of lines 135-139 at work: [candidates] is there, the
    folder given with [-c] is not, and the run ends with a critical
    record and exit status 2. *)
Example missing_custom_folder_exits_2 :
  (@main Mock.externals ["-c"; "nowhere"; "-b"; "blastn"]
     (start Scenario.empty_folders)).1 = Exit 2%Z /\
  List.filter is_critical
    (trace (@main Mock.externals ["-c"; "nowhere"; "-b"; "blastn"]
              (start Scenario.empty_folders)).2)
  = [ELog CRITICAL ("Folder " +:+ dq +:+ "nowhere" +:+ dq +:+
                    " does not exist! Aborting...")].
Proof. split; vm_compute; reflexivity. Qed.


(** * Further properties of the script *)

(** ** The arguments *)

Lemma usage_prints (w : world) :
  usage w = (Ok tt, {| fs := fs w; trace := (trace w ++ usage_lines)%list |}).
Proof.
  unfold usage, bind, print, emit; simpl. now rewrite <- !app_assoc.
Qed.

(** X1.  When [getopt] rejects the arguments, [main] prints the usage,
    logs one critical record that quotes the arguments joined by
    spaces, and exits with status 2; the file system is as it was. *)
Theorem argument_error_exits_2 (Ext : Externals) (argv : list string)
    (w : world) :
  getopt argv = None ->
  main argv w =
    (Exit 2%Z,
     {| fs := fs w;
        trace := (trace w ++ usage_lines ++ [argument_error_record argv])%list |}).
Proof.
  intros Eg. unfold main. apply bind_exit. unfold setup. rewrite Eg.
  rewrite (bind_ok _ _ _ _ _ (usage_prints w)).
  unfold bind, logger, emit, sys_exit. simpl. now rewrite <- app_assoc.
Qed.

(** Decide the membership tests on string literals of the goal. *)
Ltac decide_mem :=
  repeat match goal with
         | |- context [Py.mem ?a ?l] =>
             let v := eval vm_compute in (Py.mem a l) in
             lazymatch v with
             | true => change (Py.mem a l) with true
             | false => change (Py.mem a l) with false
             end
         end.

Lemma last_value_step {A} (inj : string -> A) names opt arg opts (d : A) :
  last_value inj names ((opt, arg) :: opts) d =
  last_value inj names opts (if Py.mem opt names then inj arg else d).
Proof. reflexivity. Qed.

(** X2.  Without the help option the argument handler returns without
    a trace, and each of the three variables has the value of the last
    option that sets it, or the value it had: a later [-c], [-d] or [-b]
    overrides an earlier one, in the short or the long form. *)
Theorem handle_opts_last_wins (opts : list (string * string)) (s : settings)
    (w : world) :
  help_requested opts = false ->
  handle_opts opts s w = (Ok (read_settings opts s), w).
Proof.
  revert s. induction opts as [|[opt arg] opts IH]; intros s Hh.
  - now destruct s.
  - cbn [help_requested existsb fst] in Hh. fold (help_requested opts) in Hh.
    apply orb_false_iff in Hh as [Eh Hh].
    cbn [handle_opts]. rewrite Eh.
    unfold read_settings. rewrite !last_value_step.
    destruct (Py.mem opt ["-c"; "--candidates"]) eqn:Ec.
    { apply mem_inv in Ec as [->| ->]; decide_mem; now rewrite IH. }
    destruct (Py.mem opt ["-d"; "--database"]) eqn:Ed.
    { apply mem_inv in Ed as [->| ->]; decide_mem; now rewrite IH. }
    destruct (Py.mem opt ["-b"; "--blast"]) eqn:Eb; rewrite IH by exact Hh.
    + reflexivity.
    + now destruct s.
Qed.

Lemma handle_opts_help (opts : list (string * string)) (s : settings)
    (w : world) :
  help_requested opts = true ->
  handle_opts opts s w =
    (Exit 0%Z, {| fs := fs w; trace := (trace w ++ usage_lines)%list |}).
Proof.
  revert s. induction opts as [|[opt arg] opts IH]; intros s Hh; [discriminate |].
  cbn [help_requested existsb fst] in Hh. fold (help_requested opts) in Hh.
  cbn [handle_opts].
  destruct (Py.mem opt ["-h"; "--help"]) eqn:Eh.
  - now rewrite (bind_ok _ _ _ _ _ (usage_prints w)).
  - cbn [orb] in Hh.
    destruct (Py.mem opt ["-c"; "--candidates"]); [now apply IH |].
    destruct (Py.mem opt ["-d"; "--database"]); [now apply IH |].
    destruct (Py.mem opt ["-b"; "--blast"]); now apply IH.
Qed.

(** X3.  When the help option is among the options, wherever it
    stands, [main] prints the usage and exits with status 0: the
    options before it leave no trace, the ones after it are not read,
    the search mode is not checked and nothing is made or written. *)
Theorem help_exits_0 (Ext : Externals) (argv : list string)
    (opts : list (string * string)) (args : list string) (w : world) :
  getopt argv = Some (opts, args) ->
  help_requested opts = true ->
  main argv w =
    (Exit 0%Z, {| fs := fs w; trace := (trace w ++ usage_lines)%list |}).
Proof.
  intros Eg Hh. unfold main. apply bind_exit. unfold setup. rewrite Eg.
  apply bind_exit. now apply handle_opts_help.
Qed.

(** ** The folders of the results and the candidates folder *)

(** Past the arguments: with options that [getopt] accepts, without the
    help option and with one of the five commands, the set-up logs the
    arguments and goes on to the folders. *)
Lemma setup_after_check (Ext : Externals) argv opts args w :
  getopt argv = Some (opts, args) ->
  help_requested opts = false ->
  mode_accepted (selected_mode opts) = true ->
  exists t,
    blast_type (read_settings opts defaults) = Some t /\
    Py.mem t blast_types = true /\
    setup argv w =
      make_folders t (read_settings opts defaults)
        {| fs := fs w;
           trace := (trace w ++
             [arguments_record (read_settings opts defaults)])%list |}.
Proof.
  intros Eg Hh Hacc.
  set (s := read_settings opts defaults).
  set (w1 := {| fs := fs w; trace := (trace w ++ [arguments_record s])%list |}).
  assert (Hc := check_blast_type_run (blast_type s) w1).
  change (blast_type s) with (selected_mode opts) in Hc.
  rewrite Hacc in Hc. destruct Hc as (t & Ht & Hc).
  exists t. split; [exact Ht |]. split.
  - rewrite Ht in Hacc. exact Hacc.
  - unfold setup. rewrite Eg.
    rewrite (bind_ok _ _ _ _ _ (handle_opts_last_wins opts defaults w Hh)).
    fold s. unfold bind at 1. unfold logger, emit. fold (arguments_record s).
    fold w1. change (blast_type s) with (selected_mode opts).
    now rewrite (bind_ok _ _ _ _ _ Hc).
Qed.

(** Lines 128-129 (and 131-132): the folder is made unless it is there;
    [os.mkdir] raises when it cannot be made. *)
Lemma ensure_run (p : string) (w : world) :
  (if negb (Os.isdir (fs w) p) then os_mkdir p else ret tt) w =
  if folder_ready (fs w) p
  then (Ok tt, {| fs := ensure_dir (fs w) p;
                  trace := (trace w ++ ensure_events (fs w) p)%list |})
  else (Raise (OSError p), w).
Proof.
  unfold folder_ready, ensure_dir, ensure_events, os_mkdir, ret.
  destruct (Os.isdir (fs w) p); cbn [negb orb].
  - destruct w; simpl. now rewrite app_nil_r.
  - destruct (Os.can_mkdir (fs w) p); reflexivity.
Qed.

Lemma make_folders_run (Ext : Externals) t s (w : world) :
  folder_ready (fs w) candidates_results_folder = true ->
  folder_ready (ensure_dir (fs w) candidates_results_folder)
    final_results_folder = true ->
  make_folders t s w =
    list_candidates t s
      {| fs := with_result_folders (fs w);
         trace := (trace w ++
           ensure_events (fs w) candidates_results_folder ++
           ensure_events (ensure_dir (fs w) candidates_results_folder)
             final_results_folder)%list |}.
Proof.
  intros H1 H2. unfold make_folders.
  unfold bind at 1. unfold get_fs at 1.
  unfold bind at 1. rewrite ensure_run, H1.
  unfold bind at 1. unfold get_fs at 1. unfold bind at 1. cbn [fs].
  set (w1 := {| fs := ensure_dir (fs w) candidates_results_folder;
                trace := (trace w ++
                  ensure_events (fs w) candidates_results_folder)%list |}).
  change (ensure_dir (fs w) candidates_results_folder) with (fs w1) at 1.
  rewrite (ensure_run final_results_folder w1). subst w1. cbn [fs trace].
  rewrite H2. now rewrite <- app_assoc.
Qed.

(** X4.  The guard of lines 135-139.  When the two folders of the
    results are there or can be made and the candidates folder is still
    not a directory, [main] logs the critical record that names the
    folder and exits with status 2.  The folders of the results have
    been made by then and stay. *)
Theorem missing_folder_exits_2 (Ext : Externals) (argv : list string)
    (opts : list (string * string)) (args : list string) (w : world) :
  getopt argv = Some (opts, args) ->
  help_requested opts = false ->
  mode_accepted (selected_mode opts) = true ->
  folder_ready (fs w) candidates_results_folder = true ->
  folder_ready (ensure_dir (fs w) candidates_results_folder)
    final_results_folder = true ->
  Os.isdir (with_result_folders (fs w))
    (candidates_folder (read_settings opts defaults)) = false ->
  main argv w =
    (Exit 2%Z,
     {| fs := with_result_folders (fs w);
        trace := (trace w ++
          [arguments_record (read_settings opts defaults)] ++
          ensure_events (fs w) candidates_results_folder ++
          ensure_events (ensure_dir (fs w) candidates_results_folder)
            final_results_folder ++
          [missing_folder_record
             (candidates_folder (read_settings opts defaults))])%list |}).
Proof.
  intros Eg Hh Hacc H1 H2 Hdir.
  destruct (setup_after_check Ext argv opts args w Eg Hh Hacc)
    as (t & _ & _ & Hsetup).
  unfold main. apply bind_exit. rewrite Hsetup.
  rewrite make_folders_run by assumption.
  unfold list_candidates, bind, get_fs, Os.listdir. cbn [fs].
  rewrite Hdir. unfold logger, emit, sys_exit. cbn [fs trace].
  unfold missing_folder_record. now rewrite <- !app_assoc.
Qed.

(** X5.  When one of the two folders of the results is not a directory
    and cannot be made (a file stands in its place, or the directory it
    belongs in is missing), [main] ends with the [OSError] of its
    [os.mkdir], which nothing catches.  For the folder of the final
    results this happens after the other folder has been made. *)
Theorem unmakeable_folder_raises (Ext : Externals) (argv : list string)
    (opts : list (string * string)) (args : list string) (w : world) :
  getopt argv = Some (opts, args) ->
  help_requested opts = false ->
  mode_accepted (selected_mode opts) = true ->
  (folder_ready (fs w) candidates_results_folder = false ->
   main argv w =
     (Raise (OSError candidates_results_folder),
      {| fs := fs w;
         trace := (trace w ++
           [arguments_record (read_settings opts defaults)])%list |})) /\
  (folder_ready (fs w) candidates_results_folder = true ->
   folder_ready (ensure_dir (fs w) candidates_results_folder)
     final_results_folder = false ->
   main argv w =
     (Raise (OSError final_results_folder),
      {| fs := ensure_dir (fs w) candidates_results_folder;
         trace := (trace w ++
           [arguments_record (read_settings opts defaults)] ++
           ensure_events (fs w) candidates_results_folder)%list |})).
Proof.
  intros Eg Hh Hacc.
  destruct (setup_after_check Ext argv opts args w Eg Hh Hacc)
    as (t & _ & _ & Hsetup).
  split.
  - intros H1. unfold main. apply bind_raise. rewrite Hsetup.
    unfold make_folders. unfold bind at 1. unfold get_fs at 1.
    apply bind_raise. rewrite ensure_run. cbn [fs]. now rewrite H1.
  - intros H1 H2. unfold main. apply bind_raise. rewrite Hsetup.
    unfold make_folders. unfold bind at 1. unfold get_fs at 1.
    unfold bind at 1. rewrite ensure_run. cbn [fs]. rewrite H1.
    unfold bind at 1. unfold get_fs at 1.
    apply bind_raise. cbn [fs trace].
    set (w1 := {| fs := ensure_dir (fs w) candidates_results_folder;
                  trace := ((trace w ++
                    [arguments_record (read_settings opts defaults)]) ++
                    ensure_events (fs w) candidates_results_folder)%list |}).
    change (ensure_dir (fs w) candidates_results_folder) with (fs w1) at 1.
    rewrite (ensure_run final_results_folder w1). subst w1. cbn [fs trace].
    rewrite H2. now rewrite <- app_assoc.
Qed.

(** ** The normaliser over a whole listing *)

Section Normaliser_runs.

Context {Ext : Externals}.

Lemma prepare_app (l1 l2 : list string) (folder : string) (w : world) :
  prepare (l1 ++ l2) folder w =
  bind (prepare l1 folder) (fun _ => prepare l2 folder) w.
Proof.
  revert w. induction l1 as [|g l1 IH]; intros w; simpl; [reflexivity |].
  unfold bind in *. destruct (prepare_gene folder g w) as [[[]|c|e] w1];
    [apply IH | reflexivity | reflexivity].
Qed.

(** What a run of [prepare] on an annotation file that returns tells:
    the file was read and converted, and afterwards its conversion can
    be opened for reading or is a file that may be written but not
    read. *)
Lemma prepare_gene_gb_ok_inv (folder gene : string) (w wa : world) :
  Py.endswith gene ".gb" = true ->
  prepare_gene folder gene w = (Ok tt, wa) ->
  (exists c record,
     Os.open_r (fs w) (Os.path_join folder gene) = Some c /\
     genbank_to_fasta c = Some record) /\
  ((exists c', Os.open_r (fs wa) (fasta_path (Os.path_join folder gene))
               = Some c') \/
   (exists c', fs wa !! fasta_path (Os.path_join folder gene)
               = Some (Restricted WriteOnly c'))).
Proof.
  intros Hgb. rewrite (prepare_gene_gb folder gene w Hgb).
  destruct (Os.open_r (fs w) (Os.path_join folder gene)) as [c|] eqn:Eo;
    [|discriminate].
  destruct (genbank_to_fasta c) as [record|] eqn:Eg; [|discriminate].
  destruct (Os.open_r (fs w) (fasta_path (Os.path_join folder gene)))
    as [c'|] eqn:Ef.
  - intros [= <-]. split; [now exists c, record |]. left. now exists c'.
  - unfold write_file.
    destruct (Os.can_write (fs w) (fasta_path (Os.path_join folder gene)))
      eqn:Ew; [|discriminate].
    intros [= <-]. split; [now exists c, record |]. cbn [fs].
    destruct (unreadable_writable _ _ Ef Ew) as [Hnone|[c' Hwo]].
    + left. exists record. rewrite Hnone. apply open_r_insert_eq.
    + right. exists record. now rewrite Hwo, lookup_insert_eq.
Qed.

Lemma kept_refl (n : node) : kept n n.
Proof. unfold kept. now destruct (write_only n) eqn:E. Qed.

Lemma kept_trans (n1 n2 n3 : node) : kept n1 n2 -> kept n2 n3 -> kept n1 n3.
Proof.
  unfold kept. destruct (write_only n1) eqn:E1.
  - intros ->. exact id.
  - intros ->. now rewrite E1.
Qed.

Lemma kept_fs_refl (files : FS) : kept_fs files files.
Proof. intros q n Hq. exists n. split; [exact Hq | apply kept_refl]. Qed.

Lemma kept_fs_trans (f1 f2 f3 : FS) :
  kept_fs f1 f2 -> kept_fs f2 f3 -> kept_fs f1 f3.
Proof.
  intros H12 H23 q n Hq. destruct (H12 q n Hq) as (n2 & Hq2 & Hk2).
  destruct (H23 q n2 Hq2) as (n3 & Hq3 & Hk3).
  exists n3. split; [exact Hq3 | now apply (kept_trans n n2 n3)].
Qed.

Lemma kept_fs_open_r (files files' : FS) (p c : string) :
  kept_fs files files' -> Os.open_r files p = Some c ->
  Os.open_r files' p = Some c.
Proof.
  unfold Os.open_r. intros Hk Hp.
  destruct (files !! p) as [n|] eqn:E; [|discriminate].
  destruct (Hk p n E) as (n' & -> & Hn).
  destruct n as [c0|[] c0|]; try discriminate; unfold kept in Hn;
    simpl in Hn; now subst n'.
Qed.

Lemma kept_fs_write_only (files files' : FS) (p c : string) :
  kept_fs files files' -> files !! p = Some (Restricted WriteOnly c) ->
  exists c', files' !! p = Some (Restricted WriteOnly c').
Proof.
  intros Hk Hp. destruct (Hk p _ Hp) as (n' & Hp' & Hn).
  unfold kept in Hn. simpl in Hn.
  destruct n' as [c'|[] c'|]; try discriminate. now exists c'.
Qed.

(** A write over a file that may be written but not read keeps every
    entry. *)
Lemma kept_fs_rewrite (files : FS) (p c c' : string) :
  files !! p = Some (Restricted WriteOnly c) ->
  kept_fs files (<[p := Restricted WriteOnly c']> files).
Proof.
  intros Hp q n Hq. destruct (decide (q = p)) as [->|Hne].
  - rewrite lookup_insert_eq. eexists. split; [reflexivity |].
    rewrite Hp in Hq. injection Hq as <-. reflexivity.
  - rewrite lookup_insert_ne by congruence.
    exists n. split; [exact Hq | apply kept_refl].
Qed.

(** A new entry keeps every entry. *)
Lemma kept_fs_create (files : FS) (p : string) (n : node) :
  files !! p = None -> kept_fs files (<[p := n]> files).
Proof.
  intros Hp q n' Hq. rewrite lookup_insert_ne by congruence.
  exists n'. split; [exact Hq | apply kept_refl].
Qed.

Lemma prepare_gene_keeps (folder gene : string) : keeps (prepare_gene folder gene).
Proof.
  intros w r w' Hrun.
  destruct (Py.endswith gene ".gb") eqn:Hgb.
  - destruct (prepare_gene_gb_run _ _ _ _ _ Hgb Hrun)
      as [->|(c & rec & _ & _ & _ & Hno & Hw & ->)]; [apply kept_fs_refl |].
    cbn [fs]. destruct (unreadable_writable _ _ Hno Hw) as [Hnone|[c' Hwo]].
    + now apply kept_fs_create.
    + rewrite Hwo. cbn [Os.written]. now apply (kept_fs_rewrite _ _ c').
  - destruct (Py.endswith gene ".fa") eqn:Hfa.
    + rewrite (prepare_gene_fa folder gene w Hgb Hfa) in Hrun.
      injection Hrun as <- <-. apply kept_fs_refl.
    + rewrite (prepare_gene_other folder gene w Hgb Hfa) in Hrun.
      injection Hrun as <- <-. apply kept_fs_refl.
Qed.

Lemma prepare_keeps (candidates : list string) (folder : string) :
  keeps (prepare candidates folder).
Proof.
  induction candidates as [|g rest IH]; intros w r w' Hrun.
  - injection Hrun as <- <-. apply kept_fs_refl.
  - simpl in Hrun. unfold bind in Hrun.
    destruct (prepare_gene folder g w) as [[[]|c|e] w1] eqn:Eg.
    + eapply kept_fs_trans; [eapply prepare_gene_keeps; eauto |].
      eapply IH; eauto.
    + injection Hrun as <- <-. eapply prepare_gene_keeps; eauto.
    + injection Hrun as <- <-. eapply prepare_gene_keeps; eauto.
Qed.

(** X6.  On a listing without a name that ends in [.gb], [prepare]
    reads and writes no file and raises nothing: it returns after one
    [File type not supported] record for each name that does not end in
    [.fa] either, in the order of the listing. *)
Theorem prepare_without_annotation (candidates : list string)
    (folder : string) (w : world) :
  Forall (fun gene => Py.endswith gene ".gb" = false) candidates ->
  prepare candidates folder w =
    (Ok tt,
     {| fs := fs w;
        trace := (trace w ++
          List.map unsupported_record
            (List.filter unsupported candidates))%list |}).
Proof.
  intros H. revert w. induction H as [|g rest Hgb _ IH]; intros w.
  - simpl. destruct w; simpl. now rewrite app_nil_r.
  - cbn [prepare List.filter]. unfold unsupported at 1. rewrite Hgb.
    destruct (Py.endswith g ".fa") eqn:Hfa; cbn [negb andb].
    + rewrite (bind_ok _ _ _ _ _ (prepare_gene_fa folder g w Hgb Hfa)).
      apply IH.
    + rewrite (bind_ok _ _ _ _ _ (prepare_gene_other folder g w Hgb Hfa)).
      rewrite IH. cbn [fs trace List.map]. unfold unsupported_record at 2.
      now rewrite <- app_assoc.
Qed.

(** X7.  An annotation file that cannot be read, or whose content is
    not one annotation record, ends [prepare] with the exception of
    [SeqIO.read]: the file is parsed before the conversion is looked
    for, so this happens also when the converted file is already there.
    The files that follow in the listing are not looked at. *)
Theorem prepare_bad_annotation_aborts (before : list string) (gene : string)
    (after : list string) (folder : string) (w w1 : world) :
  prepare before folder w = (Ok tt, w1) ->
  Py.endswith gene ".gb" = true ->
  (Os.open_r (fs w1) (Os.path_join folder gene) = None ->
   prepare (before ++ gene :: after) folder w =
     (Raise (IOError (Os.path_join folder gene)), w1)) /\
  (forall c,
     Os.open_r (fs w1) (Os.path_join folder gene) = Some c ->
     genbank_to_fasta c = None ->
     prepare (before ++ gene :: after) folder w =
       (Raise ConversionError, w1)).
Proof.
  intros Hbefore Hgb. split.
  - intros Hopen. rewrite prepare_app, (bind_ok _ _ _ _ _ Hbefore).
    cbn [prepare]. apply bind_raise.
    now rewrite (prepare_gene_gb folder gene w1 Hgb), Hopen.
  - intros c Hopen Hbad. rewrite prepare_app, (bind_ok _ _ _ _ _ Hbefore).
    cbn [prepare]. apply bind_raise.
    now rewrite (prepare_gene_gb folder gene w1 Hgb), Hopen, Hbad.
Qed.

(** A run of [prepare] that returned is repeated on any file system
    that still has what the first run left: the second run returns,
    creates nothing, and writes only over files that may be written but
    not read. *)
Lemma prepare_again (candidates : list string) (folder : string)
    (w w1 : world) :
  prepare candidates folder w = (Ok tt, w1) ->
  forall wb, kept_fs (fs w1) (fs wb) ->
  exists wb',
    prepare candidates folder wb = (Ok tt, wb') /\
    kept_fs (fs wb) (fs wb') /\
    (forall q, fs wb !! q = None -> fs wb' !! q = None) /\
    ((forall q n, fs wb !! q = Some n -> write_only n = false) ->
     wb' = {| fs := fs wb;
              trace := (trace wb ++
                List.map unsupported_record
                  (List.filter unsupported candidates))%list |}).
Proof.
  revert w. induction candidates as [|g rest IH]; intros w Hrun wb Hsub.
  - exists wb. split; [reflexivity |]. split; [apply kept_fs_refl |].
    split; [tauto |]. intros _. destruct wb; simpl. now rewrite app_nil_r.
  - cbn [prepare] in Hrun.
    apply bind_inv_ok in Hrun as ([] & wa & Hg & Hrest).
    assert (Hkeep := prepare_keeps rest folder wa _ w1 Hrest).
    assert (Hstep := prepare_gene_keeps folder g w _ wa Hg).
    assert (Hab : kept_fs (fs wa) (fs wb))
      by exact (kept_fs_trans _ _ _ Hkeep Hsub).
    cbn [prepare List.filter]. unfold unsupported at 1.
    destruct (Py.endswith g ".gb") eqn:Hgb; cbn [negb andb].
    + destruct (prepare_gene_gb_ok_inv folder g w wa Hgb Hg)
        as ((c & record & Hc & Hrec) & Hconv).
      assert (Hc' : Os.open_r (fs wb) (Os.path_join folder g) = Some c).
      { apply (kept_fs_open_r (fs wa)); [exact Hab |].
        now apply (kept_fs_open_r (fs w)). }
      destruct Hconv as [[c' Hread]|[c' Hwo]].
      * assert (Hg2 : prepare_gene folder g wb = (Ok tt, wb)).
        { rewrite (prepare_gene_gb folder g wb Hgb), Hc', Hrec.
          now rewrite (kept_fs_open_r _ _ _ _ Hab Hread). }
        rewrite (bind_ok _ _ _ _ _ Hg2). now apply (IH wa).
      * destruct (kept_fs_write_only _ _ _ _ Hab Hwo) as [c2 Hwb].
        set (wb2 := {| fs := <[fasta_path (Os.path_join folder g) :=
                                 Restricted WriteOnly record]> (fs wb);
                       trace := (trace wb ++
                         [EWriteFasta (fasta_path (Os.path_join folder g))
                                      record])%list |}).
        assert (Hg2 : prepare_gene folder g wb = (Ok tt, wb2)).
        { rewrite (prepare_gene_gb folder g wb Hgb), Hc', Hrec.
          unfold Os.open_r at 1. rewrite Hwb.
          unfold write_file, Os.can_write. now rewrite Hwb. }
        assert (Hb2 : kept_fs (fs wb) (fs wb2))
          by exact (kept_fs_rewrite _ _ c2 record Hwb).
        destruct (IH wa Hrest wb2 (kept_fs_trans _ _ _ Hsub Hb2))
          as (wb' & Hrun2 & Hk2 & Hnone2 & _).
        exists wb'. rewrite (bind_ok _ _ _ _ _ Hg2).
        split; [exact Hrun2 |].
        split; [exact (kept_fs_trans _ _ _ Hb2 Hk2) |]. split.
        -- intros q Hq. apply Hnone2. subst wb2. cbn [fs].
           rewrite lookup_insert_ne; [exact Hq | congruence].
        -- intros Hall. now specialize (Hall _ _ Hwb).
    + destruct (Py.endswith g ".fa") eqn:Hfa; cbn [negb].
      * rewrite (bind_ok _ _ _ _ _ (prepare_gene_fa folder g wb Hgb Hfa)).
        now apply (IH wa).
      * rewrite (bind_ok _ _ _ _ _ (prepare_gene_other folder g wb Hgb Hfa)).
        destruct (IH wa Hrest
                    {| fs := fs wb;
                       trace := (trace wb ++
                         [ELog DEBUG ("File type not supported: " +:+ g)])%list |}
                    Hsub) as (wb' & Hrun2 & Hk2 & Hnone2 & Hsame).
        exists wb'. split; [exact Hrun2 |]. split; [exact Hk2 |].
        split; [exact Hnone2 |]. intros Hall. rewrite (Hsame Hall).
        cbn [fs trace List.map]. unfold unsupported_record at 2.
        now rewrite <- app_assoc.
Qed.

(** X8.  [prepare] run a second time on the same listing, after a run
    that returned, returns again.  It creates nothing and leaves every
    directory and every file as the first run left it, except that it
    may write again over a conversion that may be written but not read.
    When the first run left no such file, the second run writes nothing
    at all: it only logs again the records of the names it does not
    support. *)
Theorem prepare_twice (candidates : list string) (folder : string)
    (w w1 : world) :
  prepare candidates folder w = (Ok tt, w1) ->
  exists w2,
    prepare candidates folder w1 = (Ok tt, w2) /\
    (forall q, fs w1 !! q = None -> fs w2 !! q = None) /\
    (forall q n, fs w1 !! q = Some n -> write_only n = false ->
       fs w2 !! q = Some n) /\
    (forall q n, fs w1 !! q = Some n -> write_only n = true ->
       exists c, fs w2 !! q = Some (Restricted WriteOnly c)) /\
    ((forall q n, fs w1 !! q = Some n -> write_only n = false) ->
     w2 = {| fs := fs w1;
             trace := (trace w1 ++
               List.map unsupported_record
                 (List.filter unsupported candidates))%list |}).
Proof.
  intros Hrun.
  destruct (prepare_again candidates folder w w1 Hrun w1 (kept_fs_refl _))
    as (w2 & Hrun2 & Hk & Hnone & Hsame).
  exists w2. split; [exact Hrun2 |]. split; [exact Hnone |].
  split; [|split; [|exact Hsame]].
  - intros q n Hq Hn. destruct (Hk q n Hq) as (n' & Hq' & Hkept).
    unfold kept in Hkept. rewrite Hn in Hkept. now subst n'.
  - intros q n Hq Hn. destruct (Hk q n Hq) as (n' & Hq' & Hkept).
    unfold kept in Hkept. rewrite Hn in Hkept.
    destruct n' as [c'|[] c'|]; try discriminate. now exists c'.
Qed.

End Normaliser_runs.

(** ** What the set-up leaves alone *)

Lemma keeps_same_fs {A} (m : M A) :
  (forall w, fs (m w).2 = fs w) -> keeps m.
Proof.
  intros H w r w' Hrun. specialize (H w). rewrite Hrun in H.
  simpl in H. rewrite H. apply kept_fs_refl.
Qed.

Lemma keeps_bind {A B} (m : M A) (k : A -> M B) :
  keeps m -> (forall a, keeps (k a)) -> keeps (bind m k).
Proof.
  intros Hm Hk w r w' Hrun. unfold bind in Hrun.
  destruct (m w) as [[a|c|e] w1] eqn:Em.
  - eapply kept_fs_trans; [eapply Hm; eauto | eapply Hk; eauto].
  - injection Hrun as <- <-. eapply Hm; eauto.
  - injection Hrun as <- <-. eapply Hm; eauto.
Qed.

Lemma keeps_os_mkdir (p : string) : keeps (os_mkdir p).
Proof.
  intros w r w' Hrun. unfold os_mkdir, Os.can_mkdir in Hrun.
  destruct (fs w !! p) eqn:Ep;
    [injection Hrun as <- <-; apply kept_fs_refl |].
  destruct (Os.parent_ok (fs w) p); injection Hrun as <- <-;
    [|apply kept_fs_refl].
  simpl. now apply kept_fs_create.
Qed.

Lemma keeps_handle_opts (opts : list (string * string)) (s : settings) :
  keeps (handle_opts opts s).
Proof.
  apply keeps_same_fs. intros w. destruct (help_requested opts) eqn:Hh.
  - now rewrite handle_opts_help.
  - now rewrite handle_opts_last_wins.
Qed.

Lemma keeps_check_blast_type (m : option string) : keeps (check_blast_type m).
Proof.
  apply keeps_same_fs. intros w. assert (H := check_blast_type_run m w).
  destruct (mode_accepted m).
  - destruct H as (t & _ & ->). reflexivity.
  - destruct H as (evs & -> & _). reflexivity.
Qed.

(** X9.  Whatever the arguments and however it ends, the first part of
    [main] (the arguments, the two folders, the normalisation of the
    candidates) leaves every directory and every file that it found as
    it was, with one exception: a file that may be written but not read
    is still such a file afterwards, but may have been written over (as
    the conversion of an annotation file).  Apart from that it only adds
    directories and converted files. *)
Theorem setup_keeps_files (Ext : Externals) (argv : list string)
    (w : world) (r : result (string * settings * list string)) (w' : world)
    (q : string) (n : node) :
  setup argv w = (r, w') ->
  fs w !! q = Some n ->
  (write_only n = false -> fs w' !! q = Some n) /\
  (write_only n = true ->
   exists c, fs w' !! q = Some (Restricted WriteOnly c)).
Proof.
  intros Hrun Hq.
  assert (Hk : kept_fs (fs w) (fs w')).
  2:{ destruct (Hk q n Hq) as (n' & Hq' & Hkept). unfold kept in Hkept.
      split; intros Hn; rewrite Hn in Hkept; [now subst n' |].
      destruct n' as [c'|[] c'|]; try discriminate. now exists c'. }
  refine (_ w r w' Hrun). clear.
  change (keeps (setup argv)).
  unfold setup. destruct (getopt argv) as [[opts args]|].
  - apply keeps_bind; [apply keeps_handle_opts |]. intros s.
    apply keeps_bind; [now apply keeps_same_fs |]. intros _.
    apply keeps_bind; [apply keeps_check_blast_type |]. intros t.
    apply keeps_bind; [now apply keeps_same_fs |]. intros files.
    apply keeps_bind.
    { destruct (negb _); [apply keeps_os_mkdir | now apply keeps_same_fs]. }
    intros _.
    apply keeps_bind; [now apply keeps_same_fs |]. intros files'.
    apply keeps_bind.
    { destruct (negb _); [apply keeps_os_mkdir | now apply keeps_same_fs]. }
    intros _.
    apply keeps_bind; [now apply keeps_same_fs |]. intros files''.
    destruct (Os.listdir files'' (candidates_folder s)) as [candidates|].
    + apply keeps_bind; [apply prepare_keeps |]. intros _.
      apply keeps_bind; [now apply keeps_same_fs |]. intros files3.
      destruct (Os.listdir files3 (candidates_folder s)) as [listing|];
        now apply keeps_same_fs.
    + now apply keeps_same_fs.
  - apply keeps_same_fs. intros w.
    rewrite (bind_ok _ _ _ _ _ (usage_prints w)). reflexivity.
Qed.

(** ** The searches of a run *)

Lemma searches_app (a b : list event) :
  searches (a ++ b) = (searches a ++ searches b)%list.
Proof. apply List.filter_app. Qed.

Section Searches.

Context {Ext : Externals}.

(** X10.  When the result document of every candidate is there and
    parses, the main loop starts no search and leaves the file system
    as it is; it returns the dictionary with one more name per gene
    name of the candidates. *)
Theorem cached_batch_starts_no_search (t : string) (db : option string)
    (folder results : string) (candidates : list string)
    (genes : gmap string Sequence) (w : world) :
  (forall f, In f candidates ->
     exists xml l,
       Os.open_r (fs w) (output_filepath folder results f) = Some xml /\
       parse_xml t xml = Some l) ->
  exists g evs,
    blast_genes t db folder results candidates genes w =
      (Ok g, {| fs := fs w; trace := (trace w ++ evs)%list |}) /\
    searches evs = [] /\
    dom g = dom genes ∪ list_to_set (name_in folder <$> candidates).
Proof.
  revert genes w. induction candidates as [|f rest IH]; intros genes w Hall.
  - exists genes, []. simpl. rewrite app_nil_r, (right_id_L ∅ (∪)).
    destruct w; now repeat split.
  - destruct (Hall f) as (xml & l & Hopen & Hparse); [now left |].
    assert (Hf := blast_gene_cached t db folder results f genes w xml Hopen).
    cbv zeta in Hf. rewrite Hparse in Hf.
    edestruct (IH (<[name_in folder f :=
                       set_loci (candidate_of t db folder results f) l]> genes)
                  {| fs := fs w;
                     trace := (trace w ++ announced db f ++ [parsing])%list |})
      as (g & evs & Hrest & Hno & Hdom).
    { intros f' Hin. apply Hall. now right. }
    exists g, (announced db f ++ [parsing] ++ evs)%list.
    split; [|split].
    + cbn [blast_genes]. rewrite (bind_ok _ _ _ _ _ Hf), Hrest.
      cbn [fs trace]. now rewrite <- !app_assoc.
    + rewrite !searches_app, Hno. reflexivity.
    + rewrite Hdom, dom_insert_L, fmap_cons, list_to_set_cons.
      now rewrite (comm_L (∪) {[name_in folder f]} (dom genes)), (assoc_L (∪)).
Qed.

(** X11.  The result document is found by the gene name alone.  After
    a candidate has been processed to the end, a file with the same
    gene name is not searched, whatever the BLAST command and the
    database it is processed with: the document of the first is parsed
    for it, and the file system stays as it is. *)
Theorem same_name_shares_result (t : string) (db : option string)
    (folder results f1 f2 : string) (genes : gmap string Sequence)
    (w : world) (g : gmap string Sequence) (w1 : world) :
  name_in folder f1 = name_in folder f2 ->
  blast_gene t db folder results f1 genes w = (Ok g, w1) ->
  forall t' db' genes',
  exists r evs,
    blast_gene t' db' folder results f2 genes' w1 =
      (r, {| fs := fs w1; trace := (trace w1 ++ evs)%list |}) /\
    searches evs = [].
Proof.
  intros Hname Hrun t' db' genes'.
  apply blast_gene_ok_inv in Hrun as [_ [xml Hopen]].
  unfold output_filepath in Hopen. rewrite Hname in Hopen.
  rewrite (blast_gene_cached t' db' folder results f2 genes' w1 xml Hopen).
  simpl. destruct (parse_xml t' xml); eexists; eexists; now split.
Qed.

Lemma blast_gene_one_search t db folder results genefile genes w r w' :
  blast_gene t db folder results genefile genes w = (r, w') ->
  exists evs,
    trace w' = (trace w ++ evs)%list /\
    length (searches evs) <= 1 /\
    forall q,
      length (searches_of q evs) <= length (candidates_at q folder [genefile]).
Proof.
  assert (Hquiet : forall q,
            searches_of q (announced db genefile ++ [parsing])%list = []).
  { reflexivity. }
  assert (Hone : forall q tail,
            (forall ev, In ev tail -> is_subprocess ev = false) ->
            length (searches_of q
                      (announced db genefile ++
                       ESubprocess t (search_arguments db folder results genefile)
                       :: tail)%list)
            <= length (candidates_at q folder [genefile])).
  { intros q tail Htail. unfold searches_of, candidates_at.
    cbn [announced app List.filter query search_arguments].
    assert (Hnil : List.filter
                     (fun ev => match ev with
                                | ESubprocess _ a => String.eqb (query a) q
                                | _ => false
                                end) tail = []).
    { induction tail as [|ev tail IH]; [reflexivity |]. cbn [List.filter].
      assert (Hev := Htail ev (or_introl eq_refl)).
      destruct ev; try discriminate; apply IH; intros; apply Htail; now right. }
    rewrite Hnil.
    destruct (String.eqb (Os.path_join folder genefile) q); simpl; lia. }
  destruct (Os.open_r (fs w) (output_filepath folder results genefile))
    as [xml|] eqn:Hopen.
  - rewrite (blast_gene_cached _ _ _ _ _ _ _ _ Hopen). simpl.
    intros Hrun. exists (announced db genefile ++ [parsing])%list. split.
    + destruct (parse_xml t xml); injection Hrun as <- <-; reflexivity.
    + split; [simpl; lia |]. intros q. rewrite Hquiet. simpl. lia.
  - rewrite (blast_gene_searches _ _ _ _ _ _ _ Hopen). simpl.
    destruct (run_blast t _ (fs w)) as [fs' [e|]].
    + intros [= <- <-].
      exists (announced db genefile ++
              [ESubprocess t (search_arguments db folder results genefile)])%list.
      split; [reflexivity |]. split; [simpl; lia |].
      intros q. apply Hone. intros ev [].
    + intros Hrun.
      exists (announced db genefile ++
              [ESubprocess t (search_arguments db folder results genefile);
               parsing])%list.
      split; [|split; [simpl; lia |]].
      * destruct (Os.open_r fs' _) as [xml|];
          [destruct (parse_xml t xml) |]; injection Hrun as <- <-; simpl;
          now rewrite <- !app_assoc.
      * intros q. apply Hone. intros ev [<-|[]]. reflexivity.
Qed.

Lemma searches_of_app (q : string) (a b : list event) :
  searches_of q (a ++ b) = (searches_of q a ++ searches_of q b)%list.
Proof. apply List.filter_app. Qed.

(** Among candidates whose paths differ, at most one is at a given
    path. *)
Lemma candidates_at_NoDup (q folder : string) (candidates : list string) :
  NoDup (Os.path_join folder <$> candidates) ->
  length (candidates_at q folder candidates) <= 1.
Proof.
  induction candidates as [|f rest IH]; intros Hnd; [simpl; lia |].
  rewrite fmap_cons in Hnd. apply NoDup_cons in Hnd as [Hf Hnd].
  unfold candidates_at in *. cbn [List.filter].
  destruct (String.eqb_spec (Os.path_join folder f) q) as [Heq|Hne];
    [|now apply IH].
  assert (Hnil : List.filter
                   (fun f' => String.eqb (Os.path_join folder f') q) rest = []).
  { clear IH Hnd. induction rest as [|f' rest IH]; [reflexivity |].
    cbn [List.filter].
    destruct (String.eqb_spec (Os.path_join folder f') q) as [Heq'|Hne'].
    - exfalso. apply Hf. rewrite fmap_cons, Heq, <- Heq'. now left.
    - apply IH. intros Hin. apply Hf. rewrite fmap_cons. now right. }
  rewrite Hnil. simpl. lia.
Qed.

(** X13.  However the main loop ends, it has started at most one
    search for each candidate file: for every path, the searches whose
    query is that path are no more than the candidates of the list that
    are at that path.  So a file that is listed once is searched at most
    once, and a path that is not the one of a candidate is never
    searched. *)
Theorem at_most_one_search_per_candidate (t : string) (db : option string)
    (folder results : string) (candidates : list string)
    (genes : gmap string Sequence) (w : world)
    (r : result (gmap string Sequence)) (w' : world) :
  blast_genes t db folder results candidates genes w = (r, w') ->
  exists evs,
    trace w' = (trace w ++ evs)%list /\
    length (searches evs) <= length candidates /\
    (forall q,
       length (searches_of q evs)
       <= length (candidates_at q folder candidates)) /\
    (NoDup (Os.path_join folder <$> candidates) ->
     forall q, length (searches_of q evs) <= 1) /\
    (forall q, (forall f, In f candidates -> Os.path_join folder f <> q) ->
               searches_of q evs = []).
Proof.
  intros Hrun.
  assert (Hmain : exists evs,
            trace w' = (trace w ++ evs)%list /\
            length (searches evs) <= length candidates /\
            forall q, length (searches_of q evs)
                      <= length (candidates_at q folder candidates)).
  { revert genes w Hrun.
    induction candidates as [|f rest IH]; intros genes w.
    - intros [= <- <-]. exists []. rewrite app_nil_r.
      split; [reflexivity |]. split; [simpl; lia |]. intros q. simpl. lia.
    - cbn [blast_genes]. unfold bind.
      destruct (blast_gene t db folder results f genes w) as [[g1|c|e] w1] eqn:Ef;
        destruct (blast_gene_one_search _ _ _ _ _ _ _ _ _ Ef)
          as (evs1 & Ht1 & Hn1 & Hq1).
      + intros Hrest. destruct (IH _ _ Hrest) as (evs2 & Ht2 & Hn2 & Hq2).
        exists (evs1 ++ evs2)%list. split; [|split].
        * now rewrite Ht2, Ht1, app_assoc.
        * rewrite searches_app, length_app. simpl. lia.
        * intros q. rewrite searches_of_app, length_app.
          specialize (Hq1 q). specialize (Hq2 q).
          unfold candidates_at in *. cbn [List.filter] in *.
          destruct (String.eqb (Os.path_join folder f) q); simpl in *; lia.
      + intros [= <- <-]. exists evs1. split; [exact Ht1 |].
        split; [simpl; lia |]. intros q. specialize (Hq1 q).
        unfold candidates_at in *. cbn [List.filter] in *.
        destruct (String.eqb (Os.path_join folder f) q); simpl in *; lia.
      + intros [= <- <-]. exists evs1. split; [exact Ht1 |].
        split; [simpl; lia |]. intros q. specialize (Hq1 q).
        unfold candidates_at in *. cbn [List.filter] in *.
        destruct (String.eqb (Os.path_join folder f) q); simpl in *; lia. }
  destruct Hmain as (evs & Ht & Hn & Hq).
  exists evs. split; [exact Ht |]. split; [exact Hn |]. split; [exact Hq |].
  split.
  - intros Hnd q. specialize (Hq q).
    assert (H1 := candidates_at_NoDup q folder candidates Hnd). lia.
  - intros q Hnone. specialize (Hq q).
    assert (Hnil : candidates_at q folder candidates = []).
    { unfold candidates_at. clear Hq Hrun Hn.
      induction candidates as [|f rest IH]; [reflexivity |].
      cbn [List.filter].
      destruct (String.eqb_spec (Os.path_join folder f) q) as [Heq|Hne].
      - exfalso. apply (Hnone f); [now left | exact Heq].
      - apply IH. intros f' Hin. apply Hnone. now right. }
    rewrite Hnil in Hq. simpl in Hq.
    destruct (searches_of q evs); [reflexivity | simpl in Hq; lia].
Qed.

(** X16.  After the main loop every record of the dictionary is stored
    under its own gene name and carries the BLAST command and the
    database of the run, the path of a candidate file with that gene
    name, and the path of its result document, [<gene_name>.xml] in the
    folder of the results. *)
Theorem records_carry_the_run (t : string) (db : option string)
    (folder results : string) (candidates : list string) (w : world)
    (genes : gmap string Sequence) (w' : world) (name : string)
    (c : Sequence) :
  blast_genes t db folder results candidates ∅ w = (Ok genes, w') ->
  genes !! name = Some c ->
  Liblast.gene_name c = name /\
  Liblast.blast_type c = Some t /\
  Liblast.database c = db /\
  Liblast.blast_output c = Some (Os.path_join results (name +:+ ".xml")) /\
  exists f, In f candidates /\ name_in folder f = name /\
            Liblast.filepath c = Os.path_join folder f.
Proof.
  intros Hrun Hc.
  assert (H := blast_genes_lookup _ _ _ _ _ _ _ _ _ Hrun name).
  destruct (last_named name folder candidates) as [f|] eqn:E.
  - destruct H as [l Hl]. rewrite Hl in Hc. injection Hc as <-.
    destruct (last_named_some _ _ _ _ E) as [Hin <-].
    repeat split; try reflexivity. now exists f.
  - rewrite Hc, lookup_empty in H. discriminate.
Qed.

End Searches.

Lemma mem_In (x : string) (l : list string) : Py.mem x l = true -> In x l.
Proof.
  unfold Py.mem. intros H. apply existsb_exists in H as (y & Hy & Heq).
  apply String.eqb_eq in Heq. now subst.
Qed.

Lemma quiet_setup_event (ev : event) :
  is_write ev = false -> is_subprocess ev = false -> setup_event ev.
Proof. destruct ev; simpl; intros; try discriminate; exact I. Qed.

Section Setup_events.

Context {Ext : Externals}.

Lemma prepare_emits (candidates : list string) (folder : string) :
  emits setup_event (prepare candidates folder).
Proof.
  induction candidates as [|g rest IH]; simpl; [apply emits_ret |].
  apply emits_bind; [|intros _ _ _ _; exact IH].
  unfold prepare_gene. destruct (Py.endswith g ".gb").
  - apply emits_bind.
    + apply emits_nothing. intros w. unfold SeqIO_read.
      destruct (Os.open_r (fs w) _) as [c|]; [|reflexivity].
      destruct (genbank_to_fasta c); reflexivity.
    + intros _ record _ _. apply emits_bind; [apply emits_get_fs |].
      intros _ files _ _. destruct (Os.open_r files _).
      * apply emits_ret.
      * now apply emits_write_file.
  - destruct (Py.endswith g ".fa"); [apply emits_ret | now apply emits_emit].
Qed.

Lemma setup_emits (argv : list string) : emits setup_event (setup argv).
Proof.
  unfold setup. destruct (getopt argv) as [[opts args]|].
  - apply emits_bind.
    { intros w r w' Hrun. destruct (help_requested opts) eqn:Hh.
      - rewrite (handle_opts_help opts defaults w Hh) in Hrun.
        injection Hrun as <- <-. exists usage_lines.
        split; [reflexivity |]. repeat (constructor; [exact I |]). constructor.
      - rewrite (handle_opts_last_wins opts defaults w Hh) in Hrun.
        injection Hrun as <- <-. exists []. now rewrite app_nil_r. }
    intros _ s _ _. apply emits_bind; [now apply emits_emit |].
    intros _ _ _ _. apply emits_bind.
    { intros w r w' Hrun.
      assert (H := check_blast_type_run (blast_type s) w).
      destruct (mode_accepted (blast_type s)).
      - destruct H as (t & _ & H). rewrite H in Hrun.
        injection Hrun as <- <-. exists []. now rewrite app_nil_r.
      - destruct H as (evs & H & Hall). rewrite H in Hrun.
        injection Hrun as <- <-. exists evs. split; [reflexivity |].
        eapply Forall_impl; [exact Hall |].
        intros ev [? ?]. now apply quiet_setup_event. }
    intros _ t _ _. apply emits_bind; [apply emits_get_fs |].
    intros _ files _ _. apply emits_bind.
    { destruct (negb _); [now apply emits_os_mkdir | apply emits_ret]. }
    intros _ _ _ _. apply emits_bind; [apply emits_get_fs |].
    intros _ files' _ _. apply emits_bind.
    { destruct (negb _); [now apply emits_os_mkdir | apply emits_ret]. }
    intros _ _ _ _. apply emits_bind; [apply emits_get_fs |].
    intros _ files'' _ _.
    destruct (Os.listdir files'' (candidates_folder s)) as [candidates|].
    + apply emits_bind; [apply prepare_emits |]. intros _ _ _ _.
      apply emits_bind; [apply emits_get_fs |]. intros _ files3 _ _.
      destruct (Os.listdir files3 (candidates_folder s)) as [listing|].
      * apply emits_bind; [now apply emits_emit | intros; apply emits_ret].
      * apply emits_raise.
    + apply emits_bind; [now apply emits_emit | intros; apply emits_sys_exit].
  - apply emits_bind.
    { intros w r w' Hrun. rewrite usage_prints in Hrun.
      injection Hrun as <- <-. exists usage_lines.
      split; [reflexivity |]. repeat (constructor; [exact I |]). constructor. }
    intros _ _ _ _.
    apply emits_bind; [now apply emits_emit | intros; apply emits_sys_exit].
Qed.

(** X12.  Whatever the arguments, the file system and the way the run
    ends, every sub-process that [main] starts is one of the five BLAST
    commands, asks for output format 5, has as its query a path that
    ends in [.fa], and writes to the path that line 166 joins from
    [candidates/results] and the gene name of its query followed by
    [.xml]: the file [<gene_name>.xml] inside [candidates/results]
    whenever the gene name does not start with a slash. *)
Theorem every_search_is_well_formed (argv : list string) (w : world)
    (r : result unit) (w' : world) :
  main argv w = (r, w') ->
  exists evs,
    trace w' = (trace w ++ evs)%list /\
    forall t a, In (ESubprocess t a) evs ->
      In t blast_types /\
      outfmt a = 5%Z /\
      Py.endswith (query a) ".fa" = true /\
      out a = Os.path_join candidates_results_folder
                (gene_name_of (query a) +:+ ".xml") /\
      (Py.startswith (gene_name_of (query a)) "/" = false ->
       out a = "candidates/results/" +:+ gene_name_of (query a) +:+ ".xml").
Proof.
  unfold main, bind.
  destruct (setup argv w) as [[[[t s] candidates]|c|e] w1] eqn:Es;
    destruct (setup_emits argv _ _ _ Es) as (evs1 & Ht1 & Hall1);
    rewrite List.Forall_forall in Hall1.
  - cbn [fst snd]. intros Hbatch.
    destruct (batch_emits _ _ _ _ _ _ Hbatch) as (evs2 & Ht2 & Hall2).
    rewrite List.Forall_forall in Hall2.
    destruct (setup_ok_inv _ _ _ _ _ _ _ Es) as (Hmem & listing & _ & Hc).
    exists (evs1 ++ evs2)%list. split; [now rewrite Ht2, Ht1, app_assoc |].
    intros t' a Hin. apply in_app_or in Hin as [Hin|Hin].
    + destruct (Hall1 _ Hin).
    + destruct (Hall2 _ Hin) as (-> & f & Hf & ->).
      split; [now apply mem_In |]. split; [reflexivity |]. split; [|split].
      * simpl. apply endswith_path_join. rewrite Hc in Hf.
        now apply filter_fa_endswith in Hf.
      * reflexivity.
      * cbn [out query search_arguments]. unfold output_filepath, name_in.
        generalize (gene_name_of (Os.path_join (candidates_folder s) f)).
        intros name Hname. unfold candidates_results_folder, Os.path_join.
        destruct name as [|c name]; [reflexivity |].
        rewrite append_cons. cbn [Py.startswith] in *.
        destruct (Ascii.eqb "/" c); [discriminate | reflexivity].
  - intros [= <- <-]. exists evs1. split; [exact Ht1 |].
    intros t' a Hin. destruct (Hall1 _ Hin).
  - intros [= <- <-]. exists evs1. split; [exact Ht1 |].
    intros t' a Hin. destruct (Hall1 _ Hin).
Qed.

End Setup_events.

(** ** The final files *)

Lemma write_loci_app (l1 l2 : list (string * Sequence)) (w : world) :
  write_loci final_results_folder (l1 ++ l2) w =
  bind (write_loci final_results_folder l1)
       (fun _ => write_loci final_results_folder l2) w.
Proof.
  revert w. induction l1 as [|[n g] l1 IH]; intros w; simpl; [reflexivity |].
  unfold bind in *.
  destruct (write_file EWriteFinal _ _ w) as [[[]|c|e] w1];
    [apply IH | reflexivity | reflexivity].
Qed.

(** X14.  The final files are written one after the other and nothing
    is undone.  When a directory stands at the path of the final file
    of one gene, the loop ends there with [IOError]: the files of the
    genes before it have been written and stay (and can be opened for
    reading, unless written over a file that may be written but not
    read), those of the genes after it are not written. *)
Theorem final_files_no_rollback (before : list (string * Sequence))
    (name : string) (gene : Sequence) (after : list (string * Sequence))
    (w : world) :
  NoDup ((before ++ (name, gene) :: after)%list.*1) ->
  (forall n g, In (n, g) before ->
     Os.can_write (fs w) (final_path n) = true) ->
  Os.isdir (fs w) (final_path name) = true ->
  exists w1,
    write_loci final_results_folder (before ++ (name, gene) :: after)%list w =
      (Raise (IOError (final_path name)), w1) /\
    trace w1 = (trace w ++ List.map final_write before)%list /\
    (forall n g, In (n, g) before ->
       Os.content (fs w1) (final_path n) = Some (loci_text (Liblast.loci g)) /\
       ((forall c, fs w !! final_path n <> Some (Restricted WriteOnly c)) ->
        Os.open_r (fs w1) (final_path n)
          = Some (loci_text (Liblast.loci g)))) /\
    (forall n g, In (n, g) after ->
       fs w1 !! final_path n = fs w !! final_path n).
Proof.
  intros Hnd Hcw Hdir.
  rewrite fmap_app, fmap_cons in Hnd. cbn [fst] in Hnd.
  apply NoDup_app in Hnd as (Hnd1 & Hdisj & Hnd2).
  apply NoDup_cons in Hnd2 as [Hname _].
  destruct (write_loci_run before w Hnd1 Hcw) as (w1 & Hrun & Ht & Hopen & Hframe).
  assert (Hother : forall n g, In (n, g) before -> forall n',
            (n' = name \/ exists g', In (n', g') after) ->
            final_path n' <> final_path n).
  { intros n g Hin n' Hn' Heq. apply final_path_inj in Heq as ->.
    apply (Hdisj n).
    - apply list_elem_of_In, in_map_iff. now exists (n, g).
    - destruct Hn' as [->|[g' Hg']]; [now left | right].
      apply list_elem_of_In, in_map_iff. now exists (n, g'). }
  exists w1. split; [|split; [exact Ht | split]].
  - rewrite write_loci_app, (bind_ok _ _ _ _ _ Hrun). cbn [write_loci].
    apply bind_raise. fold (final_path name).
    unfold write_file, Os.can_write. rewrite Hframe.
    + unfold Os.isdir in Hdir.
      destruct (fs w !! final_path name) as [[c|[] c|]|]; try discriminate.
      reflexivity.
    + intros n g Hin. apply (Hother n g Hin). now left.
  - intros n g Hin. split.
    + eapply content_of_written. exact (Hopen n g Hin).
    + intros Hold. eapply open_r_of_written; [exact (Hopen n g Hin) | exact Hold].
  - intros n g Hin. apply Hframe. intros n' g' Hin'.
    apply (Hother n' g' Hin'). right. now exists g.
Qed.

(** X15.  On loci whose identifiers and sequences are one line each,
    the text of lines 195-197 determines the loci: two lists of loci
    with the same text are the same list. *)
Theorem loci_text_injective (l1 l2 : list Locus) :
  Forall well_formed_locus l1 -> Forall well_formed_locus l2 ->
  loci_text l1 = loci_text l2 -> l1 = l2.
Proof.
  intros H1 H2 Heq. apply (f_equal read_fasta) in Heq.
  rewrite (read_loci_text _ H1), (read_loci_text _ H2) in Heq. clear H1 H2.
  revert l2 Heq. induction l1 as [|[i1 s1] l1 IH]; intros [|[i2 s2] l2];
    simpl; intros Heq; try discriminate; [reflexivity |].
  injection Heq as -> -> Heq. f_equal. now apply IH.
Qed.

(** ** A run to its end *)

(** X17.  A run whose set-up and main loop return, and whose final
    files can be opened for writing, returns: after the loop [main]
    logs that it creates the files, writes the final file of every gene
    of the dictionary (replacing one that was there; the file can then
    be opened for reading, unless it was written over a file that may be
    written but not read), logs [Done, bye!] and touches nothing
    else. *)
Theorem run_to_the_end (Ext : Externals) (argv : list string) (w0 : world)
    (t : string) (s : settings) (candidates : list string) (w : world)
    (genes : gmap string Sequence) (w1 : world) :
  setup argv w0 = (Ok (t, s, candidates), w) ->
  blast_genes t (database s) (candidates_folder s) candidates_results_folder
    candidates ∅ w = (Ok genes, w1) ->
  (forall name gene, genes !! name = Some gene ->
     Os.can_write (fs w1) (final_path name) = true) ->
  exists w',
    main argv w0 = (Ok tt, w') /\
    trace w' =
      (trace w1 ++
       [ELog INFO ("Creating files at " +:+ final_results_folder +:+ "...")] ++
       List.map final_write (map_to_list genes) ++
       [ELog INFO "Done, bye!"])%list /\
    (forall name gene, genes !! name = Some gene ->
       Os.content (fs w') (final_path name)
         = Some (loci_text (Liblast.loci gene)) /\
       ((forall c, fs w1 !! final_path name <> Some (Restricted WriteOnly c)) ->
        Os.open_r (fs w') (final_path name)
          = Some (loci_text (Liblast.loci gene)))) /\
    (forall p, (forall name gene, genes !! name = Some gene ->
                  p <> final_path name) ->
       fs w' !! p = fs w1 !! p).
Proof.
  intros Hsetup Hloop Hcw.
  destruct (main_writes_final_files Ext argv w0 t s candidates w genes w1
              Hsetup Hloop Hcw) as (w' & Hmain & Ht & Hfile & Hframe).
  exists w'. split; [exact Hmain |]. split; [exact Ht |].
  split; [|exact Hframe].
  intros name gene Hg. split.
  - eapply content_of_written. exact (Hfile name gene Hg).
  - intros Hold.
    eapply open_r_of_written; [exact (Hfile name gene Hg) | exact Hold].
Qed.

(** ** The further properties at concrete runs *)

Lemma argument_error_exits_2_witness :
  @main Mock.externals ["-x"] (start ∅) =
    (Exit 2%Z,
     {| fs := ∅;
        trace := (usage_lines ++ [argument_error_record ["-x"]])%list |}).
Proof.
  apply (argument_error_exits_2 Mock.externals ["-x"] (start ∅)).
  reflexivity.
Defined.

Lemma handle_opts_last_wins_witness :
  handle_opts Runs.repeated_opts defaults (start ∅) =
    (Ok {| candidates_folder := "candidates";
           database := Some "db";
           blast_type := Some "tblastx" |}, start ∅).
Proof.
  apply (handle_opts_last_wins Runs.repeated_opts defaults (start ∅)).
  reflexivity.
Defined.

Lemma help_exits_0_witness :
  @main Mock.externals Runs.argv_help (start Scenario.mixed_folder) =
    (Exit 0%Z, {| fs := Scenario.mixed_folder; trace := usage_lines |}).
Proof.
  apply (help_exits_0 Mock.externals Runs.argv_help Runs.opts_help []
           (start Scenario.mixed_folder)); reflexivity.
Defined.

Lemma missing_folder_exits_2_witness :
  @main Mock.externals Runs.argv_nowhere (start Scenario.mixed_folder) =
    (Exit 2%Z,
     {| fs := with_result_folders Scenario.mixed_folder;
        trace :=
          [arguments_record (read_settings Runs.opts_nowhere defaults);
           EMkdir candidates_results_folder;
           EMkdir final_results_folder;
           missing_folder_record "nowhere"] |}).
Proof.
  apply (missing_folder_exits_2 Mock.externals Runs.argv_nowhere
           Runs.opts_nowhere [] (start Scenario.mixed_folder));
    vm_compute; reflexivity.
Defined.

Lemma unmakeable_folder_raises_witness :
  @main Mock.externals Scenario.argv (start ∅) =
    (Raise (OSError candidates_results_folder),
     {| fs := ∅;
        trace := [arguments_record (read_settings Runs.opts_of_argv defaults)] |})
  /\
  @main Mock.externals Scenario.argv (start Runs.final_is_file) =
    (Raise (OSError final_results_folder),
     {| fs := ensure_dir Runs.final_is_file candidates_results_folder;
        trace := [arguments_record (read_settings Runs.opts_of_argv defaults);
                  EMkdir candidates_results_folder] |}).
Proof.
  split.
  - apply (proj1 (unmakeable_folder_raises Mock.externals Scenario.argv
                    Runs.opts_of_argv [] (start ∅)
                    eq_refl eq_refl eq_refl)).
    vm_compute; reflexivity.
  - apply (proj2 (unmakeable_folder_raises Mock.externals Scenario.argv
                    Runs.opts_of_argv [] (start Runs.final_is_file)
                    eq_refl eq_refl eq_refl));
      vm_compute; reflexivity.
Defined.

Lemma prepare_without_annotation_witness :
  @prepare Mock.externals ["geneA.fa"; "notes.txt"; "results"] "candidates"
    (start Scenario.mixed_folder) =
    (Ok tt,
     {| fs := Scenario.mixed_folder;
        trace := [unsupported_record "notes.txt";
                  unsupported_record "results"] |}).
Proof.
  apply (@prepare_without_annotation Mock.externals
           ["geneA.fa"; "notes.txt"; "results"] "candidates"
           (start Scenario.mixed_folder)).
  repeat constructor.
Defined.

Lemma prepare_bad_annotation_aborts_witness :
  @prepare Mock.externals ["missing.gb"; "next.gb"] "candidates"
    (start Runs.bad_annotation) =
    (Raise (IOError (Os.path_join "candidates" "missing.gb")),
     start Runs.bad_annotation) /\
  @prepare Mock.externals ["bad.gb"; "next.gb"] "candidates"
    (start Runs.bad_annotation) =
    (Raise ConversionError, start Runs.bad_annotation).
Proof.
  split.
  - apply (proj1 (@prepare_bad_annotation_aborts Mock.externals []
                    "missing.gb" ["next.gb"] "candidates"
                    (start Runs.bad_annotation) (start Runs.bad_annotation)
                    eq_refl eq_refl)).
    vm_compute; reflexivity.
  - apply (proj2 (@prepare_bad_annotation_aborts Mock.externals []
                    "bad.gb" ["next.gb"] "candidates"
                    (start Runs.bad_annotation) (start Runs.bad_annotation)
                    eq_refl eq_refl) "garbage");
      vm_compute; reflexivity.
Defined.

Lemma prepare_twice_witness :
  @prepare Mock.externals Runs.mixed_listing "candidates" Runs.prepared_all =
    (Ok tt,
     {| fs := fs Runs.prepared_all;
        trace := (trace Runs.prepared_all ++
                  [unsupported_record "notes.txt"])%list |}).
Proof.
  destruct (@prepare_twice Mock.externals Runs.mixed_listing "candidates"
              (start Scenario.mixed_folder) Runs.prepared_all)
    as (w2 & Hrun & _ & _ & _ & Hsame).
  - vm_compute; reflexivity.
  - rewrite Hrun. f_equal. apply Hsame. intros q n Hq.
    apply (map_Forall_lookup_1 (fun _ n => write_only n = false)
             (fs Runs.prepared_all) q n); [|exact Hq].
    apply (bool_decide_unpack _). vm_compute. exact I.
Defined.

Lemma setup_keeps_files_witness :
  fs (Scenario.after_setup Scenario.mixed_folder) !! "candidates/notes.txt"
    = Some (File "hello") /\
  exists c,
    fs (Scenario.after_setup Scenario.unreadable_conversion)
      !! "candidates/b.fasta" = Some (Restricted WriteOnly c).
Proof.
  split.
  - apply (proj1 (setup_keeps_files Mock.externals Scenario.argv
                    (start Scenario.mixed_folder)
                    (@setup Mock.externals Scenario.argv
                       (start Scenario.mixed_folder)).1
                    (Scenario.after_setup Scenario.mixed_folder)
                    "candidates/notes.txt" (File "hello")
                    ltac:(vm_compute; reflexivity)
                    ltac:(vm_compute; reflexivity))).
    reflexivity.
  - apply (proj2 (setup_keeps_files Mock.externals Scenario.argv
                    (start Scenario.unreadable_conversion)
                    (@setup Mock.externals Scenario.argv
                       (start Scenario.unreadable_conversion)).1
                    (Scenario.after_setup Scenario.unreadable_conversion)
                    "candidates/b.fasta" (Restricted WriteOnly ">old")
                    ltac:(vm_compute; reflexivity)
                    ltac:(vm_compute; reflexivity))).
    reflexivity.
Defined.

Lemma cached_batch_starts_no_search_witness :
  exists g evs,
    @blast_genes Mock.externals "blastn" None "candidates"
      "candidates/results" ["a.fa"; "m.fa"] ∅ (start Runs.all_cached) =
      (Ok g, {| fs := Runs.all_cached; trace := evs |}) /\
    searches evs = [] /\
    dom g = dom (∅ : gmap string Sequence)
            ∪ list_to_set (@name_in Mock.externals "candidates"
                             <$> ["a.fa"; "m.fa"]).
Proof.
  apply (@cached_batch_starts_no_search Mock.externals "blastn" None
           "candidates" "candidates/results" ["a.fa"; "m.fa"] ∅
           (start Runs.all_cached)).
  intros f [<-|[<-|[]]].
  - exists "<hits of a>",
      [ {| Liblast.id := "hit1"; Liblast.sequence := "ACGT" |} ].
    split; vm_compute; reflexivity.
  - exists "<hits of m>",
      [ {| Liblast.id := "hit1"; Liblast.sequence := "ACGT" |} ].
    split; vm_compute; reflexivity.
Defined.

Lemma same_name_shares_result_witness :
  exists r evs,
    @blast_gene (Mock.externals_named Mock.short_stem) "tblastx"
      (Some "other") "candidates" "candidates/results" "a.v2.fa" ∅
      Runs.first_version.2 =
      (r, {| fs := fs Runs.first_version.2;
             trace := (trace Runs.first_version.2 ++ evs)%list |}) /\
    searches evs = [].
Proof.
  apply (@same_name_shares_result (Mock.externals_named Mock.short_stem)
           "blastn" None "candidates" "candidates/results"
           "a.v1.fa" "a.v2.fa" ∅ (start Scenario.empty_folders)
           Runs.first_version_genes Runs.first_version.2);
    vm_compute; reflexivity.
Defined.

Lemma every_search_is_well_formed_witness :
  exists evs,
    trace (Scenario.after_main Scenario.mixed_folder) = evs /\
    forall t a, In (ESubprocess t a) evs ->
      In t blast_types /\
      outfmt a = 5%Z /\
      Py.endswith (query a) ".fa" = true /\
      out a = Os.path_join candidates_results_folder
                (Mock.file_stem (query a) +:+ ".xml") /\
      (Py.startswith (Mock.file_stem (query a)) "/" = false ->
       out a = "candidates/results/" +:+ Mock.file_stem (query a) +:+ ".xml").
Proof.
  apply (@every_search_is_well_formed Mock.externals Scenario.argv
           (start Scenario.mixed_folder) (Ok tt)
           (Scenario.after_main Scenario.mixed_folder)).
  vm_compute; reflexivity.
Defined.

Lemma at_most_one_search_per_candidate_witness :
  exists evs,
    trace Scenario.versions_run.2 = evs /\
    length (searches evs) <= 3 /\
    (forall q,
       length (searches_of q evs)
       <= length (candidates_at q "candidates" Scenario.versions)) /\
    (NoDup (Os.path_join "candidates" <$> Scenario.versions) ->
     forall q, length (searches_of q evs) <= 1) /\
    (forall q,
       (forall f, In f Scenario.versions -> Os.path_join "candidates" f <> q) ->
       searches_of q evs = []).
Proof.
  apply (@at_most_one_search_per_candidate
           (Mock.externals_named Mock.short_stem) "blastn" None
           "candidates" "candidates/results" Scenario.versions ∅
           (start Scenario.empty_folders)
           (Ok Scenario.versions_genes) Scenario.versions_run.2).
  vm_compute; reflexivity.
Defined.

Lemma records_carry_the_run_witness :
  Liblast.gene_name Runs.record_a = "a" /\
  Liblast.blast_type Runs.record_a = Some "blastn" /\
  Liblast.database Runs.record_a = None /\
  Liblast.blast_output Runs.record_a
    = Some (Os.path_join "candidates/results" ("a" +:+ ".xml")) /\
  exists f, In f Scenario.versions /\
            @name_in (Mock.externals_named Mock.short_stem) "candidates" f
              = "a" /\
            Liblast.filepath Runs.record_a = Os.path_join "candidates" f.
Proof.
  apply (@records_carry_the_run (Mock.externals_named Mock.short_stem)
           "blastn" None "candidates" "candidates/results" Scenario.versions
           (start Scenario.empty_folders) Scenario.versions_genes
           Scenario.versions_run.2 "a" Runs.record_a);
    vm_compute; reflexivity.
Defined.

Lemma final_files_no_rollback_witness :
  exists w1,
    write_loci final_results_folder
      [("geneA", Scenario.geneA); ("blocked", Scenario.geneA);
       ("z", Scenario.geneA)] (start Runs.blocked_final) =
      (Raise (IOError (final_path "blocked")), w1) /\
    trace w1 = [final_write ("geneA", Scenario.geneA)] /\
    (forall n g, In (n, g) [("geneA", Scenario.geneA)] ->
       Os.content (fs w1) (final_path n) = Some (loci_text (Liblast.loci g)) /\
       ((forall c,
           Runs.blocked_final !! final_path n <> Some (Restricted WriteOnly c)) ->
        Os.open_r (fs w1) (final_path n)
          = Some (loci_text (Liblast.loci g)))) /\
    (forall n g, In (n, g) [("z", Scenario.geneA)] ->
       fs w1 !! final_path n = Runs.blocked_final !! final_path n).
Proof.
  apply (final_files_no_rollback [("geneA", Scenario.geneA)] "blocked"
           Scenario.geneA [("z", Scenario.geneA)] (start Runs.blocked_final)).
  - apply (bool_decide_unpack _). vm_compute. exact I.
  - intros n g [[= <- <-]|[]]. vm_compute; reflexivity.
  - vm_compute; reflexivity.
Defined.

Lemma loci_text_injective_witness :
  [ {| Liblast.id := "hit1"; Liblast.sequence := "ACGT" |} ]
  = Liblast.loci Scenario.geneA.
Proof.
  apply loci_text_injective; repeat constructor.
Defined.

Lemma run_to_the_end_witness :
  exists w',
    @main Mock.externals Scenario.argv (start Scenario.mixed_folder)
      = (Ok tt, w') /\
    trace w' =
      (trace (Scenario.loop_run Scenario.mixed_folder ["geneA.fa"]).2 ++
       [ELog INFO ("Creating files at " +:+ final_results_folder +:+ "...")] ++
       List.map final_write
         (map_to_list (Scenario.loop_genes Scenario.mixed_folder ["geneA.fa"])) ++
       [ELog INFO "Done, bye!"])%list /\
    (forall name gene,
       Scenario.loop_genes Scenario.mixed_folder ["geneA.fa"] !! name
         = Some gene ->
       Os.content (fs w') (final_path name)
         = Some (loci_text (Liblast.loci gene)) /\
       ((forall c,
           fs (Scenario.loop_run Scenario.mixed_folder ["geneA.fa"]).2
             !! final_path name <> Some (Restricted WriteOnly c)) ->
        Os.open_r (fs w') (final_path name)
          = Some (loci_text (Liblast.loci gene)))) /\
    (forall p,
       (forall name gene,
          Scenario.loop_genes Scenario.mixed_folder ["geneA.fa"] !! name
            = Some gene ->
          p <> final_path name) ->
       fs w' !! p
         = fs (Scenario.loop_run Scenario.mixed_folder ["geneA.fa"]).2 !! p).
Proof.
  apply (run_to_the_end Mock.externals Scenario.argv
           (start Scenario.mixed_folder) "blastn" Scenario.settings_of_argv
           ["geneA.fa"] (Scenario.after_setup Scenario.mixed_folder)
           (Scenario.loop_genes Scenario.mixed_folder ["geneA.fa"])
           (Scenario.loop_run Scenario.mixed_folder ["geneA.fa"]).2).
  - vm_compute; reflexivity.
  - vm_compute; reflexivity.
  - intros name gene Hg.
    destruct (decide (name = "geneA")) as [->|Hne]; [vm_compute; reflexivity |].
    exfalso. revert Hg. rewrite loop_genes_mixed_folder.
    rewrite lookup_insert_ne by congruence. now rewrite lookup_empty.
Defined.
